(** * Data-loading layer of the mixture-of-embedding-experts baseline

    Shallow embedding of
    [baselines/mixture_embedding_experts/retrieval_dataset.py]:
    the training dataset [RetrievalDataset], the evaluation dataset
    [RetrievalEvalDataset], the batch assembler [retrieval_collate] and
    the device mover [prepare_batch_inputs].

    Conventions of the embedding.
    - A Python exception is a value of [Py.error]; every operation that can
      raise returns a [Py.result].
    - A Python [int] is a [Z]; [None] where an [int] is expected is
      [option Z].
    - A numpy array or torch tensor is a shape together with its row-major
      buffer.  Feature values are real numbers: rounding of binary floats and
      the special values (NaN, infinities) are not represented there.
    - The data ratio is a Python [float], that is an IEEE 754 binary64
      number: [len * ratio] is the binary64 product, rounded to nearest with
      ties to even, and [int] truncates it or raises on an infinity or a
      NaN.
    - A device is named by a string; which names denote a device, and which
      exception an unknown or unavailable one raises, is a property of the
      machine the code runs on.
    - A JSON object read as a record, and the [meta] dictionary, are finite
      maps from keys to dynamically typed values; dictionaries that the code
      iterates over ([model_inputs], the batched mapping, the video index)
      keep their insertion order. *)

From Stdlib Require Import Reals QArith Qround Lra Lia SpecFloat.
From stdpp Require Import gmap strings list fin_maps pretty.

(** ** Python values, exceptions and built-in operations *)

Module Py.

Inductive error : Set :=
| IndexError
| KeyError
| AssertionError
| AttributeError
| TypeError
| ValueError
| OverflowError
| AxisError
| RuntimeError
| OSError
| NotModelled.

Inductive result (A : Type) : Type :=
| Ok (a : A)
| Raise (e : error).
Arguments Ok {A} a.
Arguments Raise {A} e.

Definition bind {A B} (m : result A) (k : A -> result B) : result B :=
  match m with
  | Ok a => k a
  | Raise e => Raise e
  end.

Definition is_ok {A} (m : result A) : bool :=
  match m with Ok _ => true | Raise _ => false end.

#[global] Instance result_fmap : FMap result :=
  fun A B (f : A -> B) (m : result A) => bind m (fun a => Ok (f a)).

(** [assert b] *)
Definition assert (b : bool) : result unit :=
  if b then Ok tt else Raise AssertionError.

(** Dynamically typed values that occur in the JSON records and in [meta]. *)
#[warnings="-register-all"]
Inductive value : Type :=
| None_
| Int (z : Z)
| Float (x : R)
| Str (s : string)
| List (l : list value).

(** [str(v)].  The decimal form of an integer and the identity on strings
    are modelled; the textual form of floats and lists is not. *)
Definition str (v : value) : result string :=
  match v with
  | None_ => Ok "None"%string
  | Int z => Ok (pretty z)
  | Str s => Ok s
  | Float _ | List _ => Raise NotModelled
  end.

(** [needle in hay] on strings: substring test. *)
Fixpoint str_in (needle hay : string) : bool :=
  String.prefix needle hay
  || match hay with
     | EmptyString => false
     | String _ hay' => str_in needle hay'
     end.

(** [s.replace(old, new)] for a non-empty [old]: every non-overlapping
    occurrence, scanning from the left.  [skip] counts the characters of a
    match that are still to be dropped. *)
Fixpoint replace_from (old new s : string) (skip : nat) : string :=
  match s with
  | EmptyString => EmptyString
  | String c s' =>
      match skip with
      | S k => replace_from old new s' k
      | O =>
          if String.prefix old s
          then String.append new (replace_from old new s' (String.length old - 1))
          else String c (replace_from old new s' 0)
      end
  end.

(** For the empty [old], Python inserts [new] before every character and
    at the end. *)
Fixpoint replace_empty (new s : string) : string :=
  match s with
  | EmptyString => new
  | String c s' => String.append new (String c (replace_empty new s'))
  end.

Definition str_replace (s old new : string) : string :=
  match old with
  | EmptyString => replace_empty new s
  | _ => replace_from old new s 0
  end.

(** [l[i]] on a list, negative indices counting from the end. *)
Definition list_getitem {A} (l : list A) (i : Z) : result A :=
  let n := Z.of_nat (length l) in
  let j := if (i <? 0)%Z then (i + n)%Z else i in
  if (j <? 0)%Z then Raise IndexError
  else match l !! Z.to_nat j with
       | Some x => Ok x
       | None => Raise IndexError
       end.

(** The stop position of the slice [[:stop]] on a sequence of length [n]. *)
Definition slice_stop (stop : option Z) (n : nat) : nat :=
  match stop with
  | None => n
  | Some s =>
      if (s <? 0)%Z then Z.to_nat (Z.max 0 (s + Z.of_nat n))
      else Z.to_nat (Z.min s (Z.of_nat n))
  end.

(** [l[:stop]] *)
Definition list_slice_to {A} (l : list A) (stop : option Z) : list A :=
  take (slice_stop stop (length l)) l.

(** A Python [float] is a binary64 number: 53 bits of precision, exponents
    below 1024.  Its operations are those of the Standard Library's
    specification of IEEE 754 arithmetic at these parameters; a finite
    number [S754_finite s m e] has the value [(-1)^s * m * 2^e]. *)
Abbreviation float := spec_float.

Definition prec : Z := 53.
Definition emax : Z := 1024.

(** [float(z)] for an [int] [z]: the nearest binary64 number, ties to even;
    an [int] beyond the range of the finite floats raises. *)
Definition float_of_int (z : Z) : result float :=
  match binary_normalize prec emax z 0 false with
  | S754_infinity _ => Raise OverflowError
  | x => Ok x
  end.

(** [x * y] on floats. *)
Definition float_mul (x y : float) : float := SFmul prec emax x y.

(** [z * y] for an [int] [z] and a float [y]: the [int] is converted
    first. *)
Definition int_mul_float (z : Z) (y : float) : result float :=
  bind (float_of_int z) (fun x => Ok (float_mul x y)).

(** [1.0], which is also what the [int] [1] is compared as. *)
Definition float_one : float :=
  S754_finite false 4503599627370496%positive (-52)%Z.

(** [x != 1] *)
Definition float_ne_one (x : float) : bool := negb (SFeqb x float_one).

(** [int(x)] on a float: truncation towards zero; there is no [int] for an
    infinity or a NaN. *)
Definition int_of_float (x : float) : result Z :=
  match x with
  | S754_zero _ => Ok 0%Z
  | S754_finite s m e => Ok (cond_Zopp s (Z.shiftl (Zpos m) e))
  | S754_infinity _ => Raise OverflowError
  | S754_nan => Raise ValueError
  end.

(** [d[k]] on a dictionary whose order is never observed. *)
Definition dict_getitem {V} (d : gmap string V) (k : string) : result V :=
  match d !! k with
  | Some v => Ok v
  | None => Raise KeyError
  end.

(** [v[i]] on a dynamically typed value. *)
Definition value_getitem (v : value) (i : Z) : result value :=
  match v with
  | List l => list_getitem l i
  | Str s =>
      bind (list_getitem (String.list_ascii_of_string s) i)
           (fun c => Ok (Str (String c EmptyString)))
  | _ => Raise TypeError
  end.

(** Truthiness test [k in d]. *)
Definition dict_contains {V} (d : gmap string V) (k : string) : bool :=
  bool_decide (is_Some (d !! k)).

End Py.

Import Py.

Notation "'let*' x ':=' m 'in' k" := (Py.bind m (fun x => k))
  (at level 10, x pattern, m at level 100, k at level 200).

(** ** Insertion-ordered dictionaries *)

Module ODict.

Section Defs.
Context {V : Type}.

Definition t := list (string * V).

Definition empty : t := [].

Definition keys (d : t) : list string := d.*1.

Fixpoint lookup (k : string) (d : t) : option V :=
  match d with
  | [] => None
  | (k', v) :: d' => if decide (k = k') then Some v else lookup k d'
  end.

(** [d[k] = v]: an existing key keeps its position, a new one goes last. *)
Fixpoint insert (k : string) (v : V) (d : t) : t :=
  match d with
  | [] => [(k, v)]
  | (k', v') :: d' =>
      if decide (k = k') then (k, v) :: d' else (k', v') :: insert k v d'
  end.

Definition getitem (d : t) (k : string) : result V :=
  match lookup k d with
  | Some v => Ok v
  | None => Raise KeyError
  end.

Definition wf (d : t) : Prop := NoDup (keys d).
End Defs.

Arguments t V : clear implicits.

End ODict.

(** ** Arrays (numpy) and tensors (torch) *)

Module Np.

(** An n-dimensional array: its shape and its buffer in row-major order. *)
Record ndarray (A : Type) : Type := NDArray { shape : list nat; data : list A }.
Arguments NDArray {A} shape data.
Arguments shape {A} _.
Arguments data {A} _.

(** Number of elements of an array of shape [s]. *)
Definition numel (s : list nat) : nat := foldr Nat.mul 1 s.

(** The buffer has as many elements as the shape announces. *)
Definition wf {A} (a : ndarray A) : Prop := length (data a) = numel (shape a).

(** The first [n] consecutive blocks of [sz] elements of a buffer. *)
Fixpoint chunks {A} (sz n : nat) (l : list A) : list (list A) :=
  match n with
  | O => []
  | S n' => take sz l :: chunks sz n' (drop sz l)
  end.

(** [a[:stop]]: the leading rows along the first axis. *)
Definition slice_to {A} (a : ndarray A) (stop : option Z) : result (ndarray A) :=
  match shape a with
  | [] => Raise IndexError
  | d :: rest =>
      let k := slice_stop stop d in
      Ok (NDArray (k :: rest) (take (k * numel rest) (data a)))
  end.

(** [a[i]]: one entry along the first axis. *)
Definition getitem {A} (a : ndarray A) (i : Z) : result (ndarray A) :=
  match shape a with
  | [] => Raise IndexError
  | d :: rest =>
      let j := if (i <? 0)%Z then (i + Z.of_nat d)%Z else i in
      if ((j <? 0) || (Z.of_nat d <=? j))%Z then Raise IndexError
      else Ok (NDArray rest
                 (take (numel rest) (drop (Z.to_nat j * numel rest) (data a))))
  end.

Definition vadd (u v : list R) : list R := zip_with Rplus u v.

(** [np.mean(a, axis=0)]: the rows are summed component-wise and the sum is
    divided by the number of rows. *)
Definition mean0 (a : ndarray R) : result (ndarray R) :=
  match shape a with
  | [] => Raise AxisError
  | d :: rest =>
      let sz := numel rest in
      let total := foldl vadd (replicate sz 0%R) (chunks sz d (data a)) in
      Ok (NDArray rest (map (fun s => (s / INR d)%R) total))
  end.

(** Euclidean norm of a row. *)
Definition norm2 (row : list R) : R :=
  sqrt (foldr Rplus 0%R (map (fun x => (x * x)%R) row)).

Definition l2_normalize_row (eps : R) (row : list R) : list R :=
  map (fun x => (x / (norm2 row + eps))%R) row.

(** Modelled from the spec: [l2_normalize_np_array] of [utils.basic_utils],
    which is not among the sources.  Each row along the last axis is divided
    by its Euclidean norm; the zero-norm case is handled by the fixed
    epsilon [eps] added to the norm ([eps = 0] is the plain quotient). *)
Definition l2_normalize_np_array (eps : R) (a : ndarray R) : result (ndarray R) :=
  match last (shape a) with
  | None => Raise AxisError
  | Some d =>
      let rows := chunks d (numel (removelast (shape a))) (data a) in
      Ok (NDArray (shape a) (concat (map (l2_normalize_row eps) rows)))
  end.

End Np.

Import Np.

Module Torch.

Record tensor (A : Type) : Type := Tensor { array : ndarray A; device : string }.
Arguments Tensor {A} array device.
Arguments array {A} _.
Arguments device {A} _.

Definition tshape {A} (t : tensor A) : list nat := shape (array t).
Definition tdata {A} (t : tensor A) : list A := data (array t).

(** [torch.from_numpy(a)].  A shape-less result of [np.mean] is a numpy
    scalar, which [from_numpy] rejects. *)
Definition from_numpy {A} (a : ndarray A) : result (tensor A) :=
  match shape a with
  | [] => Raise TypeError
  | _ => Ok (Tensor a "cpu")
  end.

(** [torch.zeros(n)] *)
Definition zeros (n : nat) : tensor R :=
  Tensor (NDArray [n] (replicate n 0%R)) "cpu".

(** What the machine makes of a device argument: the device that the name
    denotes, or the exception that a name raises which it does not know or
    whose device it does not have. *)
Definition machine : Type := string -> result string.

(** The tensor [t] on the device [d]: same contents. *)
Definition on {A} (d : string) (t : tensor A) : tensor A :=
  Tensor (array t) d.

(** [t.to(device, non_blocking=...)] *)
Definition to {A} (mach : machine) (dev : string) (non_blocking : bool)
    (t : tensor A) : result (tensor A) :=
  let* d := mach dev in Ok (on d t).

(** [t[i]] *)
Definition getitem {A} (t : tensor A) (i : Z) : result (tensor A) :=
  let* a := Np.getitem (array t) i in Ok (Tensor a (device t)).

Definition same_layout {A} (t0 t : tensor A) : bool :=
  bool_decide (tshape t = tshape t0) && bool_decide (device t = device t0).

(** [torch.stack(ts)]: a new leading axis; all tensors must have one shape
    and live on one device. *)
Definition stack {A} (ts : list (tensor A)) : result (tensor A) :=
  match ts with
  | [] => Raise RuntimeError
  | t0 :: _ =>
      if forallb (same_layout t0) ts
      then Ok (Tensor (NDArray (length ts :: tshape t0) (concat (map tdata ts)))
                 (device t0))
      else Raise RuntimeError
  end.

(** Length along the first axis, [len(t)]. *)
Definition len {A} (t : tensor A) : result nat :=
  match tshape t with
  | [] => Raise TypeError
  | d :: _ => Ok d
  end.

Definition max_list (l : list nat) : nat := foldr Nat.max 0 l.

(** The result of padding a batch of sequences. *)
Record padded : Type := Padded {
  padded_seqs : tensor R;
  mask : tensor bool;
  lengths : list nat
}.

Definition pad_row (max_length sz : nat) (t : tensor R) : list R :=
  tdata t ++ replicate ((max_length - hd 0 (tshape t)) * sz) 0%R.

Definition mask_row (max_length : nat) (t : tensor R) : list bool :=
  replicate (hd 0 (tshape t)) true
  ++ replicate (max_length - hd 0 (tshape t)) false.

Definition same_extra_dims (t0 t : tensor R) : bool :=
  match tshape t with
  | [] => false
  | _ :: extra => bool_decide (extra = tail (tshape t0))
  end.

(** Modelled from the spec: [pad_sequences_1d] of [utils.tensor_utils], which
    is not among the sources, called with [fixed_length=None].  The
    sequences are stacked with zero padding up to the longest one of the
    batch; the result is the padded tensor, the boolean mask that marks real
    positions, and the original lengths.  Only the first axis may vary:
    what becomes of sequences that differ in another axis is not specified,
    the embedding lets the call raise there, and no statement below rests
    on that choice. *)
Definition pad_sequences_1d (seqs : list (tensor R)) : result padded :=
  match seqs with
  | [] => Raise ValueError
  | t0 :: _ =>
      if forallb (same_extra_dims t0) seqs then
        let extra := tail (tshape t0) in
        let ls := map (fun t => hd 0 (tshape t)) seqs in
        let max_length := max_list ls in
        let n := length seqs in
        Ok (Padded
              (Tensor (NDArray (n :: max_length :: extra)
                         (concat (map (pad_row max_length (numel extra)) seqs)))
                 "cpu")
              (Tensor (NDArray [n; max_length]
                         (concat (map (mask_row max_length) seqs)))
                 "cpu")
              ls)
      else Raise RuntimeError
  end.

End Torch.

Import Torch.

(** ** The outside world: files read at construction time *)

Module Files.

(** A keyed array store (an opened HDF5 file). *)
Abbreviation h5file := (gmap string (ndarray R)).

(** A JSON-lines file is a list of objects; the video index is an object of
    objects.  JSON objects whose entries are enumerated keep their order. *)
Abbreviation record := (gmap string value).

Record world : Type := World {
  jsonl_files : gmap string (list record);
  json_files : gmap string (ODict.t (ODict.t value));
  h5_files : gmap string h5file
}.

(** A constructor argument that is either an opened store or a path. *)
Inductive path_or_handler : Type :=
| Handler (h : h5file)
| Path (p : string).

Definition load_jsonl (w : world) (path : string) : result (list record) :=
  match jsonl_files w !! path with
  | Some l => Ok l
  | None => Raise OSError
  end.

Definition load_json (w : world) (path : string)
  : result (ODict.t (ODict.t value)) :=
  match json_files w !! path with
  | Some d => Ok d
  | None => Raise OSError
  end.

(** [h5py.File(path, "r", driver=h5driver)] *)
Definition h5py_File (w : world) (path : string) : result h5file :=
  match h5_files w !! path with
  | Some h => Ok h
  | None => Raise OSError
  end.

(** The [isinstance(x, h5py.File)] branch of the constructors. *)
Definition open_store (w : world) (x : path_or_handler) : result h5file :=
  match x with
  | Handler h => Ok h
  | Path p => h5py_File w p
  end.

(** [h5[key]]: the key must be a string. *)
Definition h5_getitem (h5 : h5file) (key : value) : result (ndarray R) :=
  match key with
  | Str s => dict_getitem h5 s
  | _ => Raise TypeError
  end.

(** Reading an attribute that the constructor only sets on some paths. *)
Definition attr {A} (o : option A) : result A :=
  match o with
  | Some a => Ok a
  | None => Raise AttributeError
  end.

Fixpoint mapM {A B} (f : A -> result B) (l : list A) : result (list B) :=
  match l with
  | [] => Ok []
  | x :: l' => let* y := f x in let* ys := mapM f l' in Ok (y :: ys)
  end.

Fixpoint foldlM {A B} (f : B -> A -> result B) (acc : B) (l : list A)
  : result B :=
  match l with
  | [] => Ok acc
  | x :: l' => let* acc' := f acc x in foldlM f acc' l'
  end.

(** What [__getitem__] returns. *)
Record example : Type := Example {
  meta : record;
  model_inputs : ODict.t (tensor R)
}.

(** [int(len(data) * data_ratio)] *)
Definition n_examples {A} (data : list A) (data_ratio : float) : result Z :=
  let* product := int_mul_float (Z.of_nat (length data)) data_ratio in
  int_of_float product.

(** [data = data[:int(len(data) * data_ratio)]] when the ratio is not 1. *)
Definition apply_data_ratio {A} (data : list A) (data_ratio : float)
  : result (list A) :=
  if float_ne_one data_ratio then
    let* n_examples := n_examples data data_ratio in
    Ok (list_slice_to data (Some n_examples))
  else Ok data.

End Files.

Import Files.

(** ** [class RetrievalDataset] *)

Module RetrievalDataset.

Record t : Type := Build {
  dset_name : string;
  data_path : string;
  data_ratio : float;
  max_desc_len : option Z;
  max_ctx_len : option Z;
  desc_bert_path_or_handler : path_or_handler;
  sub_bert_path_or_handler : path_or_handler;
  vid_feat_path_or_handler : path_or_handler;
  ctx_mode : string;
  data : list record;
  use_video : bool;
  use_sub : bool;
  use_tef : bool;
  vid_feat_h5 : option h5file;
  desc_bert_h5 : h5file;
  sub_bert_h5 : option h5file;
  normalize_vfeat : bool;
  normalize_tfeat : bool
}.

Section WithEps.
Variable eps : R.

Definition init (w : world) (dset_name data_path : string)
    (desc_bert_path_or_handler sub_bert_path_or_handler
       vid_feat_path_or_handler : path_or_handler)
    (max_desc_len max_ctx_len : option Z) (ctx_mode : string)
    (normalize_vfeat normalize_tfeat : bool) (data_ratio : float) : result t :=
  let* data := load_jsonl w data_path in
  let* data := apply_data_ratio data data_ratio in
  let use_video := str_in "video" ctx_mode in
  let use_sub := str_in "sub" ctx_mode in
  let use_tef := str_in "tef" ctx_mode in
  let* vid_feat_h5 :=
    if use_video
    then let* h := open_store w vid_feat_path_or_handler in Ok (Some h)
    else Ok None in
  let* desc_bert_h5 := open_store w desc_bert_path_or_handler in
  let* sub_bert_h5 :=
    if use_sub
    then let* h := open_store w sub_bert_path_or_handler in Ok (Some h)
    else Ok None in
  Ok (Build dset_name data_path data_ratio max_desc_len max_ctx_len
        desc_bert_path_or_handler sub_bert_path_or_handler
        vid_feat_path_or_handler ctx_mode data use_video use_sub use_tef
        vid_feat_h5 desc_bert_h5 sub_bert_h5 normalize_vfeat normalize_tfeat).

Definition len (self : t) : nat := length (data self).

Definition get_query_feat_by_desc_id (self : t) (desc_id : value)
  : result (tensor R) :=
  let* key := str desc_id in
  let* stored := dict_getitem (desc_bert_h5 self) key in
  let* query_feat := slice_to stored (max_desc_len self) in
  let* query_feat :=
    if normalize_tfeat self then l2_normalize_np_array eps query_feat
    else Ok query_feat in
  from_numpy query_feat.

Definition getitem (self : t) (index : Z) : result example :=
  let* raw_data := list_getitem (data self) index in
  let* desc_id := dict_getitem raw_data "desc_id" in
  let* desc := dict_getitem raw_data "desc" in
  let* vid_name := dict_getitem raw_data "vid_name" in
  let* duration := dict_getitem raw_data "duration" in
  let meta : record :=
    <["duration" := duration]>
      (<["vid_name" := vid_name]>
         (<["desc" := desc]> (<["desc_id" := desc_id]> ∅))) in
  let model_inputs := ODict.empty in
  let* query_feat := get_query_feat_by_desc_id self desc_id in
  let model_inputs := ODict.insert "query_feat" query_feat model_inputs in
  let* video_feat :=
    if use_video self then
      let* h5 := attr (vid_feat_h5 self) in
      let* stored := h5_getitem h5 vid_name in
      let* ctx := slice_to stored (max_ctx_len self) in
      let* video_feat := mean0 ctx in
      let* video_feat :=
        if normalize_vfeat self then l2_normalize_np_array eps video_feat
        else Ok video_feat in
      from_numpy video_feat
    else Ok (zeros 2) in
  let model_inputs := ODict.insert "video_feat" video_feat model_inputs in
  let* sub_feat :=
    if use_sub self then
      let* h5 := attr (sub_bert_h5 self) in
      let* stored := h5_getitem h5 vid_name in
      let* ctx := slice_to stored (max_ctx_len self) in
      let* sub_feat := mean0 ctx in
      let* sub_feat :=
        if normalize_tfeat self then l2_normalize_np_array eps sub_feat
        else Ok sub_feat in
      from_numpy sub_feat
    else Ok (zeros 2) in
  let model_inputs := ODict.insert "sub_feat" sub_feat model_inputs in
  Ok (Example meta model_inputs).

End WithEps.

End RetrievalDataset.

(** ** [class RetrievalEvalDataset] *)

Module RetrievalEvalDataset.

Record t : Type := Build {
  dset_name : string;
  eval_split_name : string;
  ctx_mode : string;
  load_gt_video : bool;
  data_ratio : float;
  normalize_vfeat : bool;
  normalize_tfeat : bool;
  data_mode : string;
  max_desc_len : option Z;
  max_ctx_len : option Z;
  data_path : string;
  query_data : list record;
  desc_bert_h5 : h5file;
  video_data : list record;
  video2idx : ODict.t value;
  use_video : bool;
  use_sub : bool;
  use_tef : bool;
  vid_feat_h5 : option h5file;
  sub_bert_h5 : option h5file
}.

(** [assert data_mode in ["context", "query"]] *)
Definition check_data_mode (data_mode : string) : result unit :=
  assert (bool_decide (data_mode ∈ ["context"; "query"]%string)).

Definition set_data_mode (self : t) (data_mode : string) : result t :=
  let* _ := check_data_mode data_mode in
  Ok (Build (dset_name self) (eval_split_name self) (ctx_mode self)
        (load_gt_video self) (data_ratio self) (normalize_vfeat self)
        (normalize_tfeat self) data_mode (max_desc_len self)
        (max_ctx_len self) (data_path self) (query_data self)
        (desc_bert_h5 self) (video_data self) (video2idx self)
        (use_video self) (use_sub self) (use_tef self) (vid_feat_h5 self)
        (sub_bert_h5 self)).

Definition load_gt_vid_name_for_query (self : t) (load_gt_video : bool)
  : result t :=
  let* first := list_getitem (query_data self) 0 in
  let* _ := assert (dict_contains first "vid_name") in
  Ok (Build (dset_name self) (eval_split_name self) (ctx_mode self)
        load_gt_video (data_ratio self) (normalize_vfeat self)
        (normalize_tfeat self) (data_mode self) (max_desc_len self)
        (max_ctx_len self) (data_path self) (query_data self)
        (desc_bert_h5 self) (video_data self) (video2idx self)
        (use_video self) (use_sub self) (use_tef self) (vid_feat_h5 self)
        (sub_bert_h5 self)).

(** One entry of [self.video_data]: [{"vid_name": k, "duration": v[0]}]. *)
Definition video_entry (kv : string * value) : result record :=
  let* duration := value_getitem kv.2 0 in
  Ok (<["duration" := duration]> (<["vid_name" := Str kv.1]> ∅)).

(** One entry of [self.video2idx]: [k: v[1]]. *)
Definition video_idx_entry (kv : string * value) : result (string * value) :=
  let* idx := value_getitem kv.2 1 in
  Ok (kv.1, idx).

Definition init (w : world) (dset_name eval_split_name data_path : string)
    (desc_bert_path_or_handler : path_or_handler)
    (max_desc_len max_ctx_len : option Z)
    (sub_bert_path_or_handler vid_feat_path_or_handler : path_or_handler)
    (video_duration_idx_path ctx_mode data_mode : string) (data_ratio : float)
    (normalize_vfeat normalize_tfeat : bool) : result t :=
  let load_gt_video := false in
  let* _ := check_data_mode data_mode in
  let* query_data := load_jsonl w data_path in
  let* query_data := apply_data_ratio query_data data_ratio in
  let* desc_bert_h5 := open_store w desc_bert_path_or_handler in
  let* index := load_json w video_duration_idx_path in
  let* video_data := ODict.getitem index eval_split_name in
  let* video_data_list := mapM video_entry video_data in
  let* video2idx := mapM video_idx_entry video_data in
  let use_video := str_in "video" ctx_mode in
  let use_sub := str_in "sub" ctx_mode in
  let use_tef := str_in "tef" ctx_mode in
  let* vid_feat_h5 :=
    if use_video
    then let* h := open_store w vid_feat_path_or_handler in Ok (Some h)
    else Ok None in
  let* sub_bert_h5 :=
    if use_sub
    then let* h := open_store w sub_bert_path_or_handler in Ok (Some h)
    else Ok None in
  Ok (Build dset_name eval_split_name ctx_mode load_gt_video data_ratio
        normalize_vfeat normalize_tfeat data_mode max_desc_len max_ctx_len
        data_path query_data desc_bert_h5 video_data_list video2idx
        use_video use_sub use_tef vid_feat_h5 sub_bert_h5).

Definition len (self : t) : nat :=
  if decide (data_mode self = "context"%string)
  then length (video_data self)
  else length (query_data self).

Section WithEps.
Variable eps : R.

Definition get_query_feat_by_desc_id (self : t) (desc_id : value)
  : result (tensor R) :=
  let* key := str desc_id in
  let* stored := dict_getitem (desc_bert_h5 self) key in
  let* query_feat := slice_to stored (max_desc_len self) in
  let* query_feat :=
    if normalize_tfeat self then l2_normalize_np_array eps query_feat
    else Ok query_feat in
  from_numpy query_feat.

Definition _get_item_query (self : t) (index : Z) : result example :=
  let* raw_data := list_getitem (query_data self) index in
  let* desc_id := dict_getitem raw_data "desc_id" in
  let* desc := dict_getitem raw_data "desc" in
  let* vid_name :=
    if load_gt_video self then dict_getitem raw_data "vid_name"
    else Ok None_ in
  let meta : record :=
    <["vid_name" := vid_name]>
      (<["desc" := desc]> (<["desc_id" := desc_id]> ∅)) in
  let model_inputs := ODict.empty in
  let* query_feat := get_query_feat_by_desc_id self desc_id in
  let model_inputs := ODict.insert "query_feat" query_feat model_inputs in
  Ok (Example meta model_inputs).

Definition _get_item_context (self : t) (index : Z) : result example :=
  let* raw_data := list_getitem (video_data self) index in
  let* vid_name := dict_getitem raw_data "vid_name" in
  let* duration := dict_getitem raw_data "duration" in
  let meta : record :=
    <["duration" := duration]> (<["vid_name" := vid_name]> ∅) in
  let model_inputs := ODict.empty in
  let* video_feat :=
    if use_video self then
      let* h5 := attr (vid_feat_h5 self) in
      let* stored := h5_getitem h5 vid_name in
      let* ctx := slice_to stored (max_ctx_len self) in
      let* video_feat := mean0 ctx in
      let* video_feat :=
        if normalize_vfeat self then l2_normalize_np_array eps video_feat
        else Ok video_feat in
      from_numpy video_feat
    else Ok (zeros 2) in
  let model_inputs := ODict.insert "video_feat" video_feat model_inputs in
  let* sub_feat :=
    if use_sub self then
      let* h5 := attr (sub_bert_h5 self) in
      let* stored := h5_getitem h5 vid_name in
      let* ctx := slice_to stored (max_ctx_len self) in
      let* sub_feat := mean0 ctx in
      let* sub_feat :=
        if normalize_tfeat self then l2_normalize_np_array eps sub_feat
        else Ok sub_feat in
      from_numpy sub_feat
    else Ok (zeros 2) in
  let model_inputs := ODict.insert "sub_feat" sub_feat model_inputs in
  Ok (Example meta model_inputs).

Definition getitem (self : t) (index : Z) : result example :=
  if decide (data_mode self = "context"%string)
  then _get_item_context self index
  else _get_item_query self index.

End WithEps.

(** The calls that change the state of an evaluation dataset. *)
Inductive call : Type :=
| SetDataMode (data_mode : string)
| LoadGtVidNameForQuery (load_gt_video : bool).

Definition step (self : t) (c : call) : result t :=
  match c with
  | SetDataMode m => set_data_mode self m
  | LoadGtVidNameForQuery b => load_gt_vid_name_for_query self b
  end.

(** A sequence of state-changing calls, stopping at the first exception. *)
Definition run (self : t) (calls : list call) : result t :=
  foldlM step self calls.

Definition is_opt_in (c : call) : bool :=
  match c with
  | LoadGtVidNameForQuery true => true
  | _ => false
  end.

End RetrievalEvalDataset.

(** ** [retrieval_collate] and [prepare_batch_inputs] *)

Module Collate.

(** A value of the batched mapping: the result of padding, or a stacked
    tensor. *)
Inductive batched : Type :=
| BPadded (p : padded)
| BStacked (t : tensor R).

Definition collate_key (batch : list example)
    (batched_data : ODict.t batched) (k : string)
  : result (ODict.t batched) :=
  if decide (k = "query_feat"%string) then
    let* seqs :=
      mapM (fun e : example => ODict.getitem (model_inputs e) k) batch in
    let* p := pad_sequences_1d seqs in
    Ok (ODict.insert k (BPadded p) batched_data)
  else if str_in "feat" k then
    let* ts :=
      mapM (fun e : example => ODict.getitem (model_inputs e) k) batch in
    let* s := stack ts in
    Ok (ODict.insert k (BStacked s) batched_data)
  else Ok batched_data.

Definition retrieval_collate (batch : list example)
  : result (list record * ODict.t batched) :=
  let batch_meta := map meta batch in
  let* first := list_getitem batch 0 in
  let model_inputs_keys := ODict.keys (model_inputs first) in
  let* batched_data :=
    foldlM (collate_key batch) ODict.empty model_inputs_keys in
  Ok (batch_meta, batched_data).

(** Objects that [prepare_batch_inputs] handles: the members of the padding
    result, and tensors. *)
Inductive object : Type :=
| TensorF (t : tensor R)
| TensorB (t : tensor bool)
| Lengths (l : list nat).

(** [v[i]] on a value of the batched mapping. *)
Definition batched_getitem (v : batched) (i : Z) : result object :=
  match v with
  | BPadded p =>
      list_getitem
        [TensorF (padded_seqs p); TensorB (mask p); Lengths (lengths p)] i
  | BStacked t => let* r := Torch.getitem t i in Ok (TensorF r)
  end.

Section OnMachine.
Variable mach : machine.

(** [o.to(device, non_blocking=non_blocking)] *)
Definition object_to (dev : string) (non_blocking : bool) (o : object)
  : result object :=
  match o with
  | TensorF t => let* t' := to mach dev non_blocking t in Ok (TensorF t')
  | TensorB t => let* t' := to mach dev non_blocking t in Ok (TensorB t')
  | Lengths _ => Raise AttributeError
  end.

Definition batched_to (dev : string) (non_blocking : bool) (v : batched)
  : result object :=
  match v with
  | BStacked t => let* t' := to mach dev non_blocking t in Ok (TensorF t')
  | BPadded _ => Raise AttributeError
  end.

Definition prepare_item (dev : string) (non_blocking : bool)
    (model_inputs : ODict.t object) (kv : string * batched)
  : result (ODict.t object) :=
  let k := kv.1 in
  let v := kv.2 in
  if decide (k = "query_feat"%string) then
    let* v0 := batched_getitem v 0 in
    let* m0 := object_to dev non_blocking v0 in
    let model_inputs := ODict.insert k m0 model_inputs in
    let* v1 := batched_getitem v 1 in
    let* m1 := object_to dev non_blocking v1 in
    Ok (ODict.insert (str_replace k "feat" "mask") m1 model_inputs)
  else
    let* m := batched_to dev non_blocking v in
    Ok (ODict.insert k m model_inputs).

Definition prepare_batch_inputs (batched_model_inputs : ODict.t batched)
    (dev : string) (non_blocking : bool) : result (ODict.t object) :=
  foldlM (prepare_item dev non_blocking) ODict.empty batched_model_inputs.

End OnMachine.

End Collate.

(** ** Notions used in the statements *)


(** Two evaluation datasets that differ at most in the data mode and in the
    ground-truth switch. *)
Definition same_data (a b : RetrievalEvalDataset.t) : Prop :=
  RetrievalEvalDataset.query_data a = RetrievalEvalDataset.query_data b
  /\ RetrievalEvalDataset.video_data a = RetrievalEvalDataset.video_data b
  /\ RetrievalEvalDataset.desc_bert_h5 a = RetrievalEvalDataset.desc_bert_h5 b
  /\ RetrievalEvalDataset.max_desc_len a = RetrievalEvalDataset.max_desc_len b
  /\ RetrievalEvalDataset.normalize_tfeat a
     = RetrievalEvalDataset.normalize_tfeat b.

(** No call of the sequence is the opt-in
    [load_gt_vid_name_for_query(True)]. *)
Definition no_opt_in (calls : list RetrievalEvalDataset.call) : bool :=
  forallb (fun c => negb (RetrievalEvalDataset.is_opt_in c)) calls.

(** No call of the sequence touches the ground-truth switch. *)
Definition only_mode_changes (calls : list RetrievalEvalDataset.call) : bool :=
  forallb (fun c => match c with
                    | RetrievalEvalDataset.SetDataMode _ => true
                    | RetrievalEvalDataset.LoadGtVidNameForQuery _ => false
                    end) calls.

(** The video names of the context entries, in order. *)
Definition video_names (self : RetrievalEvalDataset.t) : list (option value) :=
  map (fun entry : record => entry !! "vid_name") (RetrievalEvalDataset.video_data self).

(** The outcome [out] of fetching a query feature is a tensor whose first
    axis has [min (stored length) n] entries and whose other axes are those
    of the stored array. *)
Definition truncated_to (n : Z) (stored : ndarray R) (out : result (tensor R))
  : Prop :=
  exists (t : tensor R) (rows : nat),
    out = Ok t
    /\ rows = Nat.min (hd 0 (shape stored)) (Z.to_nat n)
    /\ Torch.len t = Ok rows
    /\ tshape t = rows :: tail (shape stored)
    /\ (Z.of_nat rows <= n)%Z
    /\ ((Z.of_nat (hd 0%nat (shape stored)) <= n)%Z ->
        rows = hd 0 (shape stored))
    /\ (wf stored -> wf (array t)).

(** The tensor [t] is what the item getters emit for an enabled modality
    whose store holds [stored]: the leading rows [stored[:max_ctx_len]] are
    averaged along the first axis, and the average is L2-normalised when
    [normalize] is set; the first axis is gone from the shape. *)
Definition pooled (eps : R) (normalize : bool) (max_ctx_len : option Z)
    (stored : ndarray R) (t : tensor R) : Prop :=
  exists ctx mean : ndarray R,
    slice_to stored max_ctx_len = Ok ctx
    /\ (forall n d rest,
          max_ctx_len = Some n -> (0 <= n)%Z -> shape stored = d :: rest ->
          ctx = NDArray (Nat.min (Z.to_nat n) d :: rest)
                  (take (Nat.min (Z.to_nat n) d * numel rest) (data stored)))
    /\ mean0 ctx = Ok mean
    /\ (if normalize then l2_normalize_np_array eps mean = Ok (array t)
        else array t = mean)
    /\ tshape t = tail (shape stored)
    /\ (wf stored -> wf (array t)).

(** What an item getter emits under the key [key] for a modality with flag
    [use], store [store] and normalisation flag [normalize], in an example
    whose metadata names the video [meta !! "vid_name"]. *)
Definition modality_feature (eps : R) (use : bool) (store : option h5file)
    (normalize : bool) (max_ctx_len : option Z) (key : string) (ex : example)
  : Prop :=
  if use then
    exists (h5 : h5file) (name : string) (stored : ndarray R) (t : tensor R),
      store = Some h5
      /\ meta ex !! "vid_name" = Some (Str name)
      /\ h5 !! name = Some stored
      /\ ODict.lookup key (model_inputs ex) = Some t
      /\ pooled eps normalize max_ctx_len stored t
  else ODict.lookup key (model_inputs ex) = Some (zeros 2).

(** The value that [retrieval_collate] computes for a retained key. *)
Definition collate_value (batch : list example) (k : string)
  : result Collate.batched :=
  let* ts := mapM (fun e : example => ODict.getitem (model_inputs e) k) batch in
  if decide (k = "query_feat"%string)
  then let* p := pad_sequences_1d ts in Ok (Collate.BPadded p)
  else let* s := stack ts in Ok (Collate.BStacked s).

(** Every tensor of the example has a buffer that fits its shape. *)
Definition example_wf (e : example) : Prop :=
  Forall (fun kv : string * tensor R => wf (array kv.2)) (model_inputs e).



(** An entry of a batched feature mapping as [retrieval_collate] builds it:
    the key contains ["feat"]; the query feature holds the result of
    padding and every other key holds a stacked tensor. *)
Definition batched_entry_ok (kv : string * Collate.batched) : Prop :=
  str_in "feat" kv.1 = true
  /\ match kv.2 with
     | Collate.BPadded _ => kv.1 = "query_feat"%string
     | Collate.BStacked _ => kv.1 <> "query_feat"%string
     end.

(** A batched feature mapping: a dictionary (no key twice) of such
    entries. *)
Definition batched_mapping (m : ODict.t Collate.batched) : Prop :=
  ODict.wf m /\ Forall batched_entry_ok m.

(** What [prepare_batch_inputs] holds under [k] for the input [m] and a
    device argument that denotes the device [d], on top of the dictionary
    [acc] it started from. *)
Definition prepared_lookup (d : string)
    (m : ODict.t Collate.batched) (acc : ODict.t Collate.object) (k : string)
  : option Collate.object :=
  match ODict.lookup k m with
  | Some (Collate.BPadded p) => Some (Collate.TensorF (on d (padded_seqs p)))
  | Some (Collate.BStacked t) => Some (Collate.TensorF (on d t))
  | None =>
      if decide (k = "query_mask"%string) then
        match ODict.lookup "query_feat" m with
        | Some (Collate.BPadded p) => Some (Collate.TensorB (on d (mask p)))
        | _ => ODict.lookup k acc
        end
      else ODict.lookup k acc
  end.

(** Every array of a store has a buffer that fits its shape. *)
Definition store_wf (h5 : h5file) : Prop :=
  forall (key : string) (a : ndarray R), h5 !! key = Some a -> wf a.

Definition opt_store_wf (store : option h5file) : Prop :=
  match store with
  | Some h5 => store_wf h5
  | None => True
  end.

(** A batch that [retrieval_collate] can assemble: it has a first example,
    and for each of its keys that contains ["feat"] every example holds a
    tensor under that key; the query features have at least one axis and
    agree on the other axes, the tensors under any other key agree in shape
    and device. *)
Definition collatable (batch : list example) : Prop :=
  exists (first : example) (others : list example),
    batch = first :: others
    /\ forall k : string,
         k ∈ ODict.keys (model_inputs first) ->
         str_in "feat" k = true ->
         exists t0 : tensor R,
           ODict.lookup k (model_inputs first) = Some t0
           /\ forall e : example, e ∈ batch ->
                exists t : tensor R,
                  ODict.lookup k (model_inputs e) = Some t
                  /\ if decide (k = "query_feat"%string)
                     then same_extra_dims t0 t = true
                     else same_layout t0 t = true.

(** What holds of every batch that [retrieval_collate] assembles, whatever
    the padding makes of query features that do not fit together: the batch
    has a first example, and for each of its keys that contains ["feat"]
    every example holds a tensor under that key, which for a key other than
    ["query_feat"] has the shape and the device of the first example's. *)
Definition stackable (batch : list example) : Prop :=
  exists (first : example) (others : list example),
    batch = first :: others
    /\ forall k : string,
         k ∈ ODict.keys (model_inputs first) ->
         str_in "feat" k = true ->
         exists t0 : tensor R,
           ODict.lookup k (model_inputs first) = Some t0
           /\ forall e : example, e ∈ batch ->
                exists t : tensor R,
                  ODict.lookup k (model_inputs e) = Some t
                  /\ (k <> "query_feat"%string -> same_layout t0 t = true).

(** The evaluation dataset [self] with another data mode and another
    ground-truth switch, and everything else as it is. *)
Definition with_state (self : RetrievalEvalDataset.t) (data_mode : string)
    (load_gt_video : bool) : RetrievalEvalDataset.t :=
  RetrievalEvalDataset.Build
    (RetrievalEvalDataset.dset_name self)
    (RetrievalEvalDataset.eval_split_name self)
    (RetrievalEvalDataset.ctx_mode self)
    load_gt_video
    (RetrievalEvalDataset.data_ratio self)
    (RetrievalEvalDataset.normalize_vfeat self)
    (RetrievalEvalDataset.normalize_tfeat self)
    data_mode
    (RetrievalEvalDataset.max_desc_len self)
    (RetrievalEvalDataset.max_ctx_len self)
    (RetrievalEvalDataset.data_path self)
    (RetrievalEvalDataset.query_data self)
    (RetrievalEvalDataset.desc_bert_h5 self)
    (RetrievalEvalDataset.video_data self)
    (RetrievalEvalDataset.video2idx self)
    (RetrievalEvalDataset.use_video self)
    (RetrievalEvalDataset.use_sub self)
    (RetrievalEvalDataset.use_tef self)
    (RetrievalEvalDataset.vid_feat_h5 self)
    (RetrievalEvalDataset.sub_bert_h5 self).

(** The evaluation dataset [self] with the data ratio [r] and the query
    records [queries], and everything else as it is. *)
Definition with_queries (self : RetrievalEvalDataset.t) (r : float)
    (queries : list record) : RetrievalEvalDataset.t :=
  RetrievalEvalDataset.Build
    (RetrievalEvalDataset.dset_name self)
    (RetrievalEvalDataset.eval_split_name self)
    (RetrievalEvalDataset.ctx_mode self)
    (RetrievalEvalDataset.load_gt_video self)
    r
    (RetrievalEvalDataset.normalize_vfeat self)
    (RetrievalEvalDataset.normalize_tfeat self)
    (RetrievalEvalDataset.data_mode self)
    (RetrievalEvalDataset.max_desc_len self)
    (RetrievalEvalDataset.max_ctx_len self)
    (RetrievalEvalDataset.data_path self)
    queries
    (RetrievalEvalDataset.desc_bert_h5 self)
    (RetrievalEvalDataset.video_data self)
    (RetrievalEvalDataset.video2idx self)
    (RetrievalEvalDataset.use_video self)
    (RetrievalEvalDataset.use_sub self)
    (RetrievalEvalDataset.use_tef self)
    (RetrievalEvalDataset.vid_feat_h5 self)
    (RetrievalEvalDataset.sub_bert_h5 self).

(** All arrays of a store have the axes [dims] after the first one. *)
Definition uniform_store (dims : list nat) (h5 : h5file) : Prop :=
  forall (key : string) (a : ndarray R),
    h5 !! key = Some a -> tail (shape a) = dims.

Definition opt_uniform_store (dims : list nat) (store : option h5file)
  : Prop :=
  match store with
  | Some h5 => uniform_store dims h5
  | None => True
  end.

(** The three model inputs of a training example, with the axes of the
    query feature after the first one, the shapes of the two context
    features, and all of them on the CPU. *)
Definition training_layout (query_dims video_shape sub_shape : list nat)
    (ex : example) : Prop :=
  exists q v s : tensor R,
    model_inputs ex
    = [("query_feat"%string, q); ("video_feat"%string, v);
       ("sub_feat"%string, s)]
    /\ (exists rows : nat, tshape q = rows :: query_dims)
    /\ tshape v = video_shape
    /\ tshape s = sub_shape
    /\ device q = "cpu"%string
    /\ device v = "cpu"%string
    /\ device s = "cpu"%string.

(** The sign of a float that has one. *)
Definition has_sign (b : bool) (x : float) : Prop :=
  match x with
  | S754_zero s | S754_infinity s | S754_finite s _ _ => s = b
  | S754_nan => True
  end.


(** [0.5] *)
Definition float_half : float := S754_finite false 4503599627370496 (-53).


(** ** A small concrete installation, used to exercise the statements *)

Module Demo.

(** The floats [1.0], [0.5], [0.7], [0.58], [1.5], [-0.5], [-0.05] and
    [0.0], as Python reads these literals: the binary64 number nearest to
    the decimal. *)
Definition one : float := float_one.
Definition half : float := float_half.
Definition minus_half : float := S754_finite true 4503599627370496 (-53).
Definition minus_twentieth : float :=
  S754_finite true 7205759403792794 (-57).




Definition query_record (desc_id : Z) (vid_name : string) : record :=
  <["duration" := Float 30]>
    (<["vid_name" := Str vid_name]>
       (<["desc" := Str "a query"]> (<["desc_id" := Int desc_id]> ∅))).

(** Ten query records with identifiers 0 to 9, alternating between two
    videos. *)
Definition records : list record :=
  map (fun i => query_record (Z.of_nat i)
                  (if Nat.even i then "v0" else "v1")%string)
      (seq 0 10).

Definition query_feat_array : ndarray R :=
  NDArray [3; 2] [1; 2; 3; 4; 5; 6]%R.

Definition desc_store : h5file :=
  list_to_map
    (map (fun i => (pretty (Z.of_nat i), query_feat_array)) (seq 0 10)).

Definition vid_store : h5file :=
  <["v0" := NDArray [2; 2] [1; 2; 3; 4]%R]>
    (<["v1" := NDArray [1; 2] [3; 4]%R]> ∅).

Definition sub_store : h5file :=
  <["v0" := NDArray [1; 3] [1; 0; 0]%R]>
    (<["v1" := NDArray [2; 3] [0; 1; 0; 0; 0; 1]%R]> ∅).

Definition video_index : ODict.t (ODict.t value) :=
  [("val"%string,
    [("v0"%string, List [Float 30; Int 0]);
     ("v1"%string, List [Float 45; Int 1])])].

Definition the_world : world :=
  World (<["queries.jsonl" := records]> ∅)
        (<["video_idx.json" := video_index]> ∅)
        (<["desc.h5" := desc_store]>
           (<["vid.h5" := vid_store]> (<["sub.h5" := sub_store]> ∅))).

(** [RetrievalDataset("tvr", "queries.jsonl", "desc.h5", "sub.h5", "vid.h5",
    max_desc_len=2, max_ctx_len=100, ctx_mode, normalize_vfeat=False,
    normalize_tfeat=False, data_ratio)] *)
Definition train (ctx_mode : string) (data_ratio : float)
  : result RetrievalDataset.t :=
  RetrievalDataset.init the_world "tvr" "queries.jsonl" (Path "desc.h5")
    (Path "sub.h5") (Path "vid.h5") (Some 2%Z) (Some 100%Z) ctx_mode
    false false data_ratio.

(** The evaluation dataset over the same files, on split ["val"]. *)
Definition eval (ctx_mode data_mode : string) (data_ratio : float)
  : result RetrievalEvalDataset.t :=
  RetrievalEvalDataset.init the_world "tvr" "val" "queries.jsonl"
    (Path "desc.h5") (Some 2%Z) (Some 100%Z) (Path "sub.h5") (Path "vid.h5")
    "video_idx.json" ctx_mode data_mode data_ratio false false.

(** The training dataset built with ratio 1/2 and context mode
    ["video_sub"]. *)
Definition train_half : RetrievalDataset.t :=
  RetrievalDataset.Build "tvr" "queries.jsonl" half (Some 2%Z)
    (Some 100%Z) (Path "desc.h5") (Path "sub.h5") (Path "vid.h5") "video_sub"
    (take 5 records) true true false (Some vid_store)
    desc_store (Some sub_store) false false.

(** The context entries of split ["val"]. *)
Definition video_entries : list record :=
  [ <["duration" := Float 30]> (<["vid_name" := Str "v0"]> ∅);
    <["duration" := Float 45]> (<["vid_name" := Str "v1"]> ∅) ].

(** The evaluation dataset built with ratio 1 and context mode
    ["video_sub"], in the given data mode and with the given ground-truth
    switch. *)
Definition eval_dataset (data_mode : string) (load_gt_video : bool)
  : RetrievalEvalDataset.t :=
  RetrievalEvalDataset.Build "tvr" "val" "video_sub" load_gt_video one false
    false data_mode (Some 2%Z) (Some 100%Z) "queries.jsonl" records
    desc_store video_entries
    [("v0"%string, Int 0); ("v1"%string, Int 1)]
    true true false (Some vid_store) (Some sub_store).

(** What the evaluation dataset returns for query 0, with the given value
    under ["vid_name"]. *)
Definition query_example (vid_name : value) : example :=
  Example
    (<["vid_name" := vid_name]>
       (<["desc" := Str "a query"]> (<["desc_id" := Int 0]> ∅)))
    [("query_feat"%string, Tensor (NDArray [2; 2] [1; 2; 3; 4]%R) "cpu")].

(** A training dataset on the video modality alone, with normalisation of
    the video feature switched on (the default of the constructor). *)
Definition train_normalized : RetrievalDataset.t :=
  RetrievalDataset.Build "tvr" "queries.jsonl" one (Some 2%Z)
    (Some 100%Z) (Path "desc.h5") (Path "sub.h5") (Path "vid.h5") "video"
    records true false false (Some vid_store) desc_store None true false.

(** The mean over the two rows [1 2] and [3 4] stored for video ["v0"]. *)
Definition pooled_mean : list R :=
  [((0 + 1 + 3) / INR 2)%R; ((0 + 2 + 4) / INR 2)%R].

(** What [train_normalized] returns at index 0, for the epsilon [eps]. *)
Definition normalized_example (eps : R) : example :=
  Example (query_record 0 "v0")
    [("query_feat"%string, Tensor (NDArray [2; 2] [1; 2; 3; 4]%R) "cpu");
     ("video_feat"%string,
      Tensor (NDArray [2] (l2_normalize_row eps pooled_mean)) "cpu");
     ("sub_feat"%string, zeros 2)].

(** What the evaluation dataset returns in mode ["context"] at index 1. *)
Definition context_example : example :=
  Example (<["duration" := Float 45]> (<["vid_name" := Str "v1"]> ∅))
    [("video_feat"%string,
      Tensor (NDArray [2] [((0 + 3) / INR 1)%R; ((0 + 4) / INR 1)%R]) "cpu");
     ("sub_feat"%string,
      Tensor (NDArray [3] [((0 + 0 + 0) / INR 2)%R; ((0 + 1 + 0) / INR 2)%R;
                           ((0 + 0 + 1) / INR 2)%R]) "cpu")].

(** An example as the datasets could return it, with one more model input
    whose key does not contain ["feat"]. *)
Definition batch_example (desc_id : Z) (query_feat video_feat : ndarray R)
  : example :=
  Example (query_record desc_id "v0")
    [("query_feat"%string, Tensor query_feat "cpu");
     ("video_feat"%string, Tensor video_feat "cpu");
     ("sub_feat"%string, zeros 2);
     ("st_ed_indices"%string, Tensor (NDArray [2] [0; 1]%R) "cpu")].

(** A batch of three examples with identifiers 5, 9 and 3, whose query
    features have 2, 1 and 3 rows. *)
Definition batch : list example :=
  [ batch_example 5 (NDArray [2; 2] [1; 2; 3; 4]%R) (NDArray [2] [1; 0]%R);
    batch_example 9 (NDArray [1; 2] [5; 6]%R) (NDArray [2] [0; 1]%R);
    batch_example 3 (NDArray [3; 2] [7; 8; 9; 10; 11; 12]%R)
      (NDArray [2] [1; 1]%R) ].

(** The query features of [batch], padded to three rows each. *)
Definition collated_query : padded :=
  Padded
    (Tensor
       (NDArray [3; 3; 2]
          [1; 2; 3; 4; 0; 0;
           5; 6; 0; 0; 0; 0;
           7; 8; 9; 10; 11; 12]%R) "cpu")
    (Tensor
       (NDArray [3; 3]
          [true; true; false;
           true; false; false;
           true; true; true]) "cpu")
    [2; 1; 3].

(** The batched mapping that [retrieval_collate] builds from [batch]. *)
Definition collated_data : ODict.t Collate.batched :=
  [("query_feat"%string, Collate.BPadded collated_query);
   ("video_feat"%string,
    Collate.BStacked (Tensor (NDArray [3; 2] [1; 0; 0; 1; 1; 1]%R) "cpu"));
   ("sub_feat"%string,
    Collate.BStacked (Tensor (NDArray [3; 2] [0; 0; 0; 0; 0; 0]%R) "cpu"))].

(** A record as a test split has it: no video name, but a time span. *)
Definition unlabelled_record : record :=
  <["ts" := List [Float 1; Float 2]]>
    (<["duration" := Float 30]>
       (<["desc" := Str "a query"]> (<["desc_id" := Int 0]> ∅))).

(** A training dataset over that record alone, with no context modality. *)
Definition train_unlabelled : RetrievalDataset.t :=
  RetrievalDataset.Build "tvr" "queries.jsonl" one (Some 2%Z)
    (Some 100%Z) (Path "desc.h5") (Path "sub.h5") (Path "vid.h5") "tef"
    [unlabelled_record] false false true None desc_store None false false.

(** The evaluation dataset over that record alone, in mode ["query"]. *)
Definition eval_unlabelled (load_gt_video : bool) : RetrievalEvalDataset.t :=
  RetrievalEvalDataset.Build "tvr" "val" "video_sub" load_gt_video one false
    false "query" (Some 2%Z) (Some 100%Z) "queries.jsonl"
    [unlabelled_record] desc_store video_entries
    [("v0"%string, Int 0); ("v1"%string, Int 1)]
    true true false (Some vid_store) (Some sub_store).

(** The training dataset built with the given ratio and context mode
    ["video_sub"], holding the given records. *)
Definition train_with (data_ratio : float) (data : list record)
  : RetrievalDataset.t :=
  RetrievalDataset.Build "tvr" "queries.jsonl" data_ratio (Some 2%Z)
    (Some 100%Z) (Path "desc.h5") (Path "sub.h5") (Path "vid.h5") "video_sub"
    data true true false (Some vid_store) desc_store (Some sub_store)
    false false.

(** The evaluation dataset as [eval_dataset], in mode ["query"], with the
    given maximum description length. *)
Definition eval_with_max_desc_len (max_desc_len : option Z)
  : RetrievalEvalDataset.t :=
  RetrievalEvalDataset.Build "tvr" "val" "video_sub" false one false
    false "query" max_desc_len (Some 100%Z) "queries.jsonl" records
    desc_store video_entries
    [("v0"%string, Int 0); ("v1"%string, Int 1)]
    true true false (Some vid_store) (Some sub_store).

(** What [train_with 1 records] returns at the indices 0 and 1. *)
Definition training_batch : list example :=
  [ Example (query_record 0 "v0")
      [("query_feat"%string, Tensor (NDArray [2; 2] [1; 2; 3; 4]%R) "cpu");
       ("video_feat"%string, Tensor (NDArray [2] pooled_mean) "cpu");
       ("sub_feat"%string,
        Tensor (NDArray [3] [((0 + 1) / INR 1)%R; ((0 + 0) / INR 1)%R;
                             ((0 + 0) / INR 1)%R]) "cpu")];
    Example (query_record 1 "v1")
      [("query_feat"%string, Tensor (NDArray [2; 2] [1; 2; 3; 4]%R) "cpu");
       ("video_feat"%string,
        Tensor (NDArray [2] [((0 + 3) / INR 1)%R; ((0 + 4) / INR 1)%R]) "cpu");
       ("sub_feat"%string,
        Tensor (NDArray [3] [((0 + 0 + 0) / INR 2)%R; ((0 + 1 + 0) / INR 2)%R;
                             ((0 + 0 + 1) / INR 2)%R]) "cpu")] ].




(** A machine with one accelerator: ["cpu"] names the processor, ["cuda"]
    and ["cuda:0"] name the accelerator, and any other name is refused with
    [RuntimeError]. *)
Definition machine : Torch.machine := fun dev =>
  if decide (dev = "cpu"%string) then Ok "cpu"%string
  else if decide (dev ∈ ["cuda"; "cuda:0"]%string) then Ok "cuda:0"%string
  else Raise RuntimeError.

End Demo.

(** * Properties *)

(** ** Python built-ins *)

Lemma bind_Ok {A B} (m : result A) (k : A -> result B) (b : B) :
  Py.bind m k = Ok b -> exists a, m = Ok a /\ k a = Ok b.
Proof. destruct m as [a|e]; simpl; [eauto | discriminate]. Qed.

(** Splits a hypothesis [let* x := m in k = Ok b] into its two steps. *)
Ltac inv_bind H :=
  let a := fresh "a" in
  let Ha := fresh "H" a in
  apply bind_Ok in H as (a & Ha & H).

Lemma slice_stop_nonneg (n : Z) (len : nat) :
  (0 <= n)%Z -> slice_stop (Some n) len = Nat.min (Z.to_nat n) len.
Proof.
  intros Hn. unfold slice_stop.
  destruct (Z.ltb_spec n 0); lia.
Qed.

Lemma slice_stop_le (stop : option Z) (len : nat) : slice_stop stop len <= len.
Proof.
  destruct stop as [s|]; simpl; [|lia].
  destruct (Z.ltb_spec s 0); lia.
Qed.

Lemma list_getitem_nat {A} (l : list A) (i : nat) (x : A) :
  l !! i = Some x -> list_getitem l (Z.of_nat i) = Ok x.
Proof.
  intros Hi. unfold list_getitem.
  destruct (Z.ltb_spec (Z.of_nat i) 0); [lia|].
  destruct (Z.ltb_spec (Z.of_nat i) 0); [lia|].
  by rewrite Nat2Z.id, Hi.
Qed.

Lemma list_getitem_Ok {A} (l : list A) (i : Z) (x : A) :
  list_getitem l i = Ok x -> x ∈ l.
Proof.
  unfold list_getitem.
  set (j := if (i <? 0)%Z then _ else _).
  destruct (j <? 0)%Z; [done|].
  destruct (l !! Z.to_nat j) eqn:E; [|done].
  intros [= <-]. by eapply list_elem_of_lookup_2.
Qed.

Lemma list_getitem_0 {A} (l : list A) (x : A) :
  list_getitem l 0 = Ok x -> exists l', l = x :: l'.
Proof.
  unfold list_getitem. simpl. destruct l as [|y l']; simpl; [done|].
  intros [= ->]. eauto.
Qed.

(** ** The data ratio *)

Lemma binary_round_aux_sign (sx : bool) (mx ex : Z) (lx : location) :
  has_sign sx (binary_round_aux prec emax sx mx ex lx).
Proof.
  unfold binary_round_aux.
  destruct (shr_fexp prec emax mx ex lx) as [mrs' e'].
  destruct (shr_fexp prec emax _ e' loc_Exact) as [mrs'' e''].
  destruct (shr_m mrs'') as [|m|m]; simpl; [done| |done].
  by destruct (e'' <=? emax - prec)%Z.
Qed.

Lemma float_mul_sign (a b : bool) (x y : float) :
  has_sign a x -> has_sign b y -> has_sign (xorb a b) (float_mul x y).
Proof.
  destruct x as [sx|sx| |sx mx ex], y as [sy|sy| |sy my ey]; simpl;
    try done; try (by intros -> ->).
  intros -> ->. apply binary_round_aux_sign.
Qed.

Lemma float_of_int_sign (z : Z) (x : float) :
  (0 <= z)%Z -> float_of_int z = Ok x -> has_sign false x.
Proof.
  intros Hz. unfold float_of_int, binary_normalize.
  destruct z as [|m|m]; [by intros [= <-]| |lia].
  unfold binary_round.
  destruct (shl_align m 0 _) as [mz ez].
  pose proof (binary_round_aux_sign false (Zpos mz) ez loc_Exact) as Hs.
  destruct (binary_round_aux prec emax false (Z.pos mz) ez loc_Exact);
    intros [= <-]; done.
Qed.

Lemma int_of_float_sign (x : float) (n : Z) :
  has_sign false x -> int_of_float x = Ok n -> (0 <= n)%Z.
Proof.
  destruct x as [s|s| |s m e]; simpl; try done.
  - by intros _ [= <-].
  - intros -> [= <-]. simpl. by apply Z.shiftl_nonneg.
Qed.

Lemma int_of_float_sign_neg (x : float) (n : Z) :
  has_sign true x -> int_of_float x = Ok n -> (n <= 0)%Z.
Proof.
  destruct x as [s|s| |s m e]; simpl; try done.
  - by intros _ [= <-].
  - intros -> [= <-]. simpl.
    pose proof (proj2 (Z.shiftl_nonneg (Z.pos m) e)). lia.
Qed.

(** The floats above zero, and those below or at zero, have a sign. *)
Lemma positive_has_sign (r : float) :
  SFltb (S754_zero false) r = true -> has_sign false r.
Proof. by destruct r as [s|[|]| |[|] m e]. Qed.

Lemma n_examples_nonneg {A} (data : list A) (r : float) (n : Z) :
  has_sign false r -> n_examples data r = Ok n -> (0 <= n)%Z.
Proof.
  intros Hr. unfold n_examples, int_mul_float. intros H.
  apply bind_Ok in H as (product & Hp & H).
  apply bind_Ok in Hp as (x & Hx & Hp). injection Hp as <-.
  apply float_of_int_sign in Hx; [|lia].
  eapply int_of_float_sign; [|exact H].
  exact (float_mul_sign false false _ _ Hx Hr).
Qed.

Lemma n_examples_nonpos {A} (data : list A) (r : float) (n : Z) :
  has_sign true r -> n_examples data r = Ok n -> (n <= 0)%Z.
Proof.
  intros Hr. unfold n_examples, int_mul_float. intros H.
  apply bind_Ok in H as (product & Hp & H).
  apply bind_Ok in Hp as (x & Hx & Hp). injection Hp as <-.
  apply float_of_int_sign in Hx; [|lia].
  eapply int_of_float_sign_neg; [|exact H].
  exact (float_mul_sign false true _ _ Hx Hr).
Qed.


Lemma list_slice_to_nonneg {A} (l : list A) (n : Z) :
  (0 <= n)%Z -> list_slice_to l (Some n) = take (Z.to_nat n) l.
Proof.
  intros Hn. unfold list_slice_to. rewrite slice_stop_nonneg by done.
  destruct (Nat.le_ge_cases (Z.to_nat n) (length l)) as [H|H].
  - by rewrite Nat.min_l.
  - rewrite Nat.min_r by done. by rewrite !take_ge.
Qed.

Lemma apply_data_ratio_one {A} (data : list A) :
  apply_data_ratio data float_one = Ok data.
Proof. reflexivity. Qed.

Lemma apply_data_ratio_Ok {A} (data out : list A) (r : float) :
  apply_data_ratio data r = Ok out ->
  if float_ne_one r
  then exists n : Z,
         n_examples data r = Ok n /\ out = list_slice_to data (Some n)
  else out = data.
Proof.
  unfold apply_data_ratio. destruct (float_ne_one r).
  - intros H. apply bind_Ok in H as (n & Hn & H). injection H as <-. eauto.
  - by intros [= <-].
Qed.

Lemma below_one_ne_one (r : float) :
  SFltb r float_one = true -> float_ne_one r = true.
Proof.
  unfold SFltb, float_ne_one, SFeqb.
  by destruct (SFcompare r float_one) as [[]|].
Qed.

Lemma apply_data_ratio_prefix {A} (data out : list A) (r : float) :
  SFltb (S754_zero false) r = true -> SFltb r float_one = true ->
  apply_data_ratio data r = Ok out ->
  exists n : Z,
    n_examples data r = Ok n
    /\ (0 <= n)%Z
    /\ out = take (Z.to_nat n) data
    /\ length out = Nat.min (Z.to_nat n) (length data).
Proof.
  intros H0 H1 H. apply apply_data_ratio_Ok in H.
  rewrite (below_one_ne_one r H1) in H. destruct H as (n & Hn & ->).
  assert (Hpos : (0 <= n)%Z).
  { eapply n_examples_nonneg; [|exact Hn]. by apply positive_has_sign. }
  exists n. rewrite list_slice_to_nonneg by done.
  split; [done|]. split; [done|]. split; [done|]. apply length_take.
Qed.

(** ** Construction *)


Lemma train_init_Ok w dset_name data_path desc sub vid max_desc_len
    max_ctx_len ctx_mode normalize_vfeat normalize_tfeat data_ratio self :
  RetrievalDataset.init w dset_name data_path desc sub vid max_desc_len
    max_ctx_len ctx_mode normalize_vfeat normalize_tfeat data_ratio = Ok self ->
  exists l,
    load_jsonl w data_path = Ok l
    /\ apply_data_ratio l data_ratio = Ok (RetrievalDataset.data self)
    /\ RetrievalDataset.use_video self = str_in "video" ctx_mode
    /\ RetrievalDataset.use_sub self = str_in "sub" ctx_mode
    /\ RetrievalDataset.use_tef self = str_in "tef" ctx_mode.
Proof.
  unfold RetrievalDataset.init. intros H.
  inv_bind H. inv_bind H. inv_bind H. inv_bind H. inv_bind H.
  injection H as <-. simpl. eauto 10.
Qed.









(** ** State of the evaluation dataset *)

Lemma mapM_Ok {A B} (f : A -> result B) (l : list A) (l' : list B) :
  mapM f l = Ok l' -> Forall2 (fun x y => f x = Ok y) l l'.
Proof.
  revert l'. induction l as [|x l IH]; simpl; intros l' H.
  - injection H as <-. constructor.
  - inv_bind H. inv_bind H. injection H as <-. constructor; auto.
Qed.

Lemma mapM_lookup {A B} (f : A -> result B) (l : list A) (l' : list B) i x :
  mapM f l = Ok l' -> l !! i = Some x -> exists y, l' !! i = Some y /\ f x = Ok y.
Proof.
  intros H Hx. apply mapM_Ok in H.
  destruct (Forall2_lookup_l _ _ _ _ _ H Hx) as (y & Hy & Hf). eauto.
Qed.

Lemma same_data_refl self : same_data self self.
Proof. by repeat split. Qed.

Lemma same_data_trans a b c : same_data a b -> same_data b c -> same_data a c.
Proof.
  unfold same_data. intros (?&?&?&?&?) (?&?&?&?&?).
  repeat split; congruence.
Qed.

Lemma set_data_mode_Ok self m self' :
  RetrievalEvalDataset.set_data_mode self m = Ok self' ->
  (m = "context" \/ m = "query")%string
  /\ RetrievalEvalDataset.data_mode self' = m
  /\ RetrievalEvalDataset.load_gt_video self'
     = RetrievalEvalDataset.load_gt_video self
  /\ same_data self self'.
Proof.
  unfold RetrievalEvalDataset.set_data_mode,
    RetrievalEvalDataset.check_data_mode, assert.
  case_bool_decide as Hm; simpl; [|done].
  intros [= <-]. simpl. split; [|by repeat split].
  rewrite !elem_of_cons, elem_of_nil in Hm. tauto.
Qed.

Lemma set_data_mode_context self :
  exists self',
    RetrievalEvalDataset.set_data_mode self "context" = Ok self'
    /\ RetrievalEvalDataset.data_mode self' = "context"%string
    /\ same_data self self'.
Proof.
  eexists. split; [reflexivity|]. by repeat split.
Qed.

Lemma load_gt_vid_name_for_query_Ok self b self' :
  RetrievalEvalDataset.load_gt_vid_name_for_query self b = Ok self' ->
  RetrievalEvalDataset.load_gt_video self' = b
  /\ RetrievalEvalDataset.data_mode self'
     = RetrievalEvalDataset.data_mode self
  /\ same_data self self'.
Proof.
  unfold RetrievalEvalDataset.load_gt_vid_name_for_query. intros H.
  inv_bind H. inv_bind H. injection H as <-. by repeat split.
Qed.

Lemma run_app self calls1 calls2 :
  RetrievalEvalDataset.run self (calls1 ++ calls2)
  = let* mid := RetrievalEvalDataset.run self calls1 in
    RetrievalEvalDataset.run mid calls2.
Proof.
  unfold RetrievalEvalDataset.run. revert self.
  induction calls1 as [|c calls1 IH]; intros self; simpl; [done|].
  destruct (RetrievalEvalDataset.step self c); simpl; [apply IH | done].
Qed.

Lemma run_same_data self calls self' :
  RetrievalEvalDataset.run self calls = Ok self' -> same_data self self'.
Proof.
  unfold RetrievalEvalDataset.run. revert self.
  induction calls as [|c calls IH]; intros self; simpl.
  - intros [= <-]. apply same_data_refl.
  - intros H. inv_bind H. apply IH in H.
    eapply same_data_trans; [|exact H].
    destruct c; simpl in Ha.
    + by apply set_data_mode_Ok in Ha as (_ & _ & _ & ?).
    + by apply load_gt_vid_name_for_query_Ok in Ha as (_ & _ & ?).
Qed.

(** Without the opt-in, a switch that is off stays off. *)
Lemma run_no_opt_in self calls self' :
  no_opt_in calls = true ->
  RetrievalEvalDataset.load_gt_video self = false ->
  RetrievalEvalDataset.run self calls = Ok self' ->
  RetrievalEvalDataset.load_gt_video self' = false.
Proof.
  unfold RetrievalEvalDataset.run, no_opt_in. revert self.
  induction calls as [|c calls IH]; intros self; simpl.
  - by intros _ ? [= <-].
  - intros [Hc Hcalls]%andb_true_iff Hoff H. inv_bind H.
    apply (IH a); [done| |done].
    destruct c as [m|[|]]; simpl in *; [|done|].
    + apply set_data_mode_Ok in Ha as (_ & _ & -> & _). done.
    + by apply load_gt_vid_name_for_query_Ok in Ha as (? & _).
Qed.

(** Mode changes leave the switch as it is. *)
Lemma run_only_mode_changes self calls self' :
  only_mode_changes calls = true ->
  RetrievalEvalDataset.run self calls = Ok self' ->
  RetrievalEvalDataset.load_gt_video self'
  = RetrievalEvalDataset.load_gt_video self.
Proof.
  unfold RetrievalEvalDataset.run, only_mode_changes. revert self.
  induction calls as [|c calls IH]; intros self; simpl.
  - by intros _ [= <-].
  - intros [Hc Hcalls]%andb_true_iff H. inv_bind H.
    rewrite (IH a) by done.
    destruct c as [m|b]; simpl in *; [|done].
    by apply set_data_mode_Ok in Ha as (_ & _ & -> & _).
Qed.

Lemma eval_init_Ok w dset_name eval_split_name data_path desc max_desc_len
    max_ctx_len sub vid video_duration_idx_path ctx_mode data_mode data_ratio
    normalize_vfeat normalize_tfeat self :
  RetrievalEvalDataset.init w dset_name eval_split_name data_path desc
    max_desc_len max_ctx_len sub vid video_duration_idx_path ctx_mode
    data_mode data_ratio normalize_vfeat normalize_tfeat = Ok self ->
  exists l index split,
    load_jsonl w data_path = Ok l
    /\ load_json w video_duration_idx_path = Ok index
    /\ ODict.lookup eval_split_name index = Some split
    /\ mapM RetrievalEvalDataset.video_entry split
       = Ok (RetrievalEvalDataset.video_data self)
    /\ apply_data_ratio l data_ratio = Ok (RetrievalEvalDataset.query_data self)
    /\ RetrievalEvalDataset.load_gt_video self = false
    /\ RetrievalEvalDataset.data_mode self = data_mode
    /\ RetrievalEvalDataset.use_video self = str_in "video" ctx_mode
    /\ RetrievalEvalDataset.use_sub self = str_in "sub" ctx_mode.
Proof.
  unfold RetrievalEvalDataset.init. intros H.
  do 10 inv_bind H. injection H as <-. simpl.
  unfold ODict.getitem in Ha4.
  destruct (ODict.lookup eval_split_name a3) eqn:Hsplit; [|done].
  injection Ha4 as <-. eauto 15.
Qed.

Lemma video_entry_name kv entry :
  RetrievalEvalDataset.video_entry kv = Ok entry ->
  entry !! "vid_name" = Some (Str kv.1).
Proof.
  unfold RetrievalEvalDataset.video_entry. intros H. inv_bind H.
  injection H as <-. by rewrite lookup_insert_ne, lookup_insert_eq.
Qed.

Lemma video_entries_names split entries :
  mapM RetrievalEvalDataset.video_entry split = Ok entries ->
  map (fun entry : record => entry !! "vid_name") entries
  = map (fun kv => Some (Str kv.1)) split.
Proof.
  intros H%mapM_Ok. induction H as [|kv entry split entries Hkv _ IH]; simpl.
  - done.
  - by rewrite (video_entry_name _ _ Hkv), IH.
Qed.

(** C6.  For an evaluation dataset built over the split [split] of the video
    index and then driven through any sequence of mode and switch calls: its
    reported length is the number of videos of the split when the current
    mode is ["context"] and the number of query records otherwise; its
    context entries name the videos of the split, one entry per key, hence
    pairwise different videos; setting the mode to ["context"] makes the
    length the number of videos of the split, whatever the queries; and the
    item getter runs the context builder in mode ["context"] and the query
    builder otherwise. *)
Theorem eval_len_and_dispatch_follow_mode (eps : R) w dset_name
    eval_split_name data_path desc max_desc_len max_ctx_len sub vid
    video_duration_idx_path ctx_mode data_mode data_ratio normalize_vfeat
    normalize_tfeat self calls self' :
  RetrievalEvalDataset.init w dset_name eval_split_name data_path desc
    max_desc_len max_ctx_len sub vid video_duration_idx_path ctx_mode
    data_mode data_ratio normalize_vfeat normalize_tfeat = Ok self ->
  RetrievalEvalDataset.run self calls = Ok self' ->
  exists index split,
    load_json w video_duration_idx_path = Ok index
    /\ ODict.lookup eval_split_name index = Some split
    /\ RetrievalEvalDataset.len self'
       = (if decide (RetrievalEvalDataset.data_mode self' = "context"%string)
          then length split
          else length (RetrievalEvalDataset.query_data self))
    /\ video_names self' = map (fun kv => Some (Str kv.1)) split
    /\ (ODict.wf split -> NoDup (video_names self'))
    /\ (exists self'',
          RetrievalEvalDataset.set_data_mode self' "context" = Ok self''
          /\ RetrievalEvalDataset.len self'' = length split)
    /\ forall index : Z,
         RetrievalEvalDataset.getitem eps self' index
         = (if decide (RetrievalEvalDataset.data_mode self' = "context"%string)
            then RetrievalEvalDataset._get_item_context eps self' index
            else RetrievalEvalDataset._get_item_query eps self' index).
Proof.
  intros Hinit Hrun.
  apply eval_init_Ok in Hinit
    as (l & index & split & _ & Hindex & Hsplit & Hvideo & _).
  apply run_same_data in Hrun as (Hq & Hv & _).
  assert (Hlen : length (RetrievalEvalDataset.video_data self') = length split).
  { rewrite <- Hv. apply mapM_Ok in Hvideo. symmetry.
    by eapply Forall2_length. }
  assert (Hnames : video_names self' = map (fun kv => Some (Str kv.1)) split).
  { unfold video_names. rewrite <- Hv. by apply video_entries_names. }
  exists index, split. repeat split; try done.
  - unfold RetrievalEvalDataset.len. by rewrite Hlen, Hq.
  - intros Hwf. rewrite Hnames.
    change (fun kv : string * value => Some (Str kv.1))
      with ((fun k => Some (Str k)) ∘ (fst : string * value -> string)).
    rewrite list_fmap_compose. apply NoDup_fmap_2; [|exact Hwf].
    by intros k1 k2 [= ->].
  - destruct (set_data_mode_context self') as (self'' & Hset & Hmode & _ & Hv' & _).
    exists self''. split; [done|].
    unfold RetrievalEvalDataset.len. by rewrite Hmode, <- Hv', Hlen.
Qed.

Lemma eval_len_and_dispatch_follow_mode_witness :
  Demo.eval "video_sub" "query" Demo.one = Ok (Demo.eval_dataset "query" false)
  /\ RetrievalEvalDataset.run (Demo.eval_dataset "query" false)
       [RetrievalEvalDataset.SetDataMode "context"]
     = Ok (Demo.eval_dataset "context" false)
  /\ RetrievalEvalDataset.len (Demo.eval_dataset "query" false) = 10
  /\ RetrievalEvalDataset.len (Demo.eval_dataset "context" false) = 2.
Proof.
  assert (H1 : Demo.eval "video_sub" "query" Demo.one
               = Ok (Demo.eval_dataset "query" false))
    by (vm_compute; reflexivity).
  assert (H2 : RetrievalEvalDataset.run (Demo.eval_dataset "query" false)
                 [RetrievalEvalDataset.SetDataMode "context"]
               = Ok (Demo.eval_dataset "context" false))
    by (vm_compute; reflexivity).
  split; [exact H1|]. split; [exact H2|]. split; [reflexivity|].
  unfold Demo.eval in H1.
  destruct (eval_len_and_dispatch_follow_mode 0%R _ _ _ _ _ _ _ _ _ _ _ _ _
              _ _ _ _ _ H1 H2)
    as (index & split & Hindex & Hsplit & Hlen & _).
  vm_compute in Hindex. injection Hindex as <-.
  vm_compute in Hsplit. injection Hsplit as <-.
  exact Hlen.
Defined.

(** ** The ground-truth video name in query mode *)

Lemma get_item_query_meta (eps : R) self index ex :
  RetrievalEvalDataset._get_item_query eps self index = Ok ex ->
  exists raw,
    list_getitem (RetrievalEvalDataset.query_data self) index = Ok raw
    /\ if RetrievalEvalDataset.load_gt_video self
       then exists v, raw !! "vid_name" = Some v
                      /\ meta ex !! "vid_name" = Some v
       else meta ex !! "vid_name" = Some None_.
Proof.
  unfold RetrievalEvalDataset._get_item_query. intros H.
  inv_bind H. exists a. split; [done|].
  inv_bind H. inv_bind H. inv_bind H. inv_bind H. injection H as <-. simpl.
  rewrite lookup_insert_eq.
  destruct (RetrievalEvalDataset.load_gt_video self).
  - unfold dict_getitem in Ha2.
    destruct (a !! "vid_name") as [v|]; [|done]. injection Ha2 as <-. eauto.
  - by injection Ha2 as <-.
Qed.

(** C1.  For an evaluation dataset as constructed: after any calls none of
    which is the opt-in [load_gt_vid_name_for_query(True)], every example
    that the item getter returns in mode ["query"] carries [None] as its
    video name; once the opt-in has been made (and only the mode is changed
    afterwards), the example carries the video name of its record. *)
Theorem gt_vid_name_withheld_until_opt_in (eps : R) w dset_name
    eval_split_name data_path desc max_desc_len max_ctx_len sub vid
    video_duration_idx_path ctx_mode data_mode data_ratio normalize_vfeat
    normalize_tfeat self :
  RetrievalEvalDataset.init w dset_name eval_split_name data_path desc
    max_desc_len max_ctx_len sub vid video_duration_idx_path ctx_mode
    data_mode data_ratio normalize_vfeat normalize_tfeat = Ok self ->
  (forall calls self' index ex,
     no_opt_in calls = true ->
     RetrievalEvalDataset.run self calls = Ok self' ->
     RetrievalEvalDataset.data_mode self' = "query"%string ->
     RetrievalEvalDataset.getitem eps self' index = Ok ex ->
     meta ex !! "vid_name" = Some None_)
  /\ (forall calls mid opted calls' self' index ex,
        RetrievalEvalDataset.run self calls = Ok mid ->
        RetrievalEvalDataset.load_gt_vid_name_for_query mid true = Ok opted ->
        only_mode_changes calls' = true ->
        RetrievalEvalDataset.run opted calls' = Ok self' ->
        RetrievalEvalDataset.data_mode self' = "query"%string ->
        RetrievalEvalDataset.getitem eps self' index = Ok ex ->
        exists raw v,
          list_getitem (RetrievalEvalDataset.query_data self) index = Ok raw
          /\ raw !! "vid_name" = Some v
          /\ meta ex !! "vid_name" = Some v).
Proof.
  intros Hinit.
  apply eval_init_Ok in Hinit as (l & idx & split & _ & _ & _ & _ & _ & Hoff & _).
  split.
  - intros calls self' index ex Hcalls Hrun Hmode Hget.
    pose proof (run_no_opt_in _ _ _ Hcalls Hoff Hrun) as Hoff'.
    unfold RetrievalEvalDataset.getitem in Hget. rewrite Hmode in Hget.
    simpl in Hget. apply get_item_query_meta in Hget as (raw & _ & Hmeta).
    by rewrite Hoff' in Hmeta.
  - intros calls mid opted calls' self' index ex Hrun Hopt Hcalls' Hrun'
      Hmode Hget.
    apply run_same_data in Hrun as (Hq1 & _).
    apply load_gt_vid_name_for_query_Ok in Hopt as (Hon & _ & Hq2 & _).
    pose proof (run_only_mode_changes _ _ _ Hcalls' Hrun') as Hon'.
    apply run_same_data in Hrun' as (Hq3 & _).
    unfold RetrievalEvalDataset.getitem in Hget. rewrite Hmode in Hget.
    simpl in Hget. apply get_item_query_meta in Hget as (raw & Hraw & Hmeta).
    rewrite Hon', Hon in Hmeta. destruct Hmeta as (v & Hv & Hmeta).
    exists raw, v. by rewrite Hq1, Hq2, Hq3.
Qed.

Lemma gt_vid_name_withheld_until_opt_in_witness :
  Demo.eval "video_sub" "query" Demo.one = Ok (Demo.eval_dataset "query" false)
  /\ RetrievalEvalDataset.getitem 0 (Demo.eval_dataset "query" false) 0
     = Ok (Demo.query_example None_)
  /\ meta (Demo.query_example None_) !! "vid_name" = Some None_
  /\ RetrievalEvalDataset.load_gt_vid_name_for_query
       (Demo.eval_dataset "query" false) true
     = Ok (Demo.eval_dataset "query" true)
  /\ RetrievalEvalDataset.getitem 0 (Demo.eval_dataset "query" true) 0
     = Ok (Demo.query_example (Str "v0"))
  /\ meta (Demo.query_example (Str "v0")) !! "vid_name" = Some (Str "v0").
Proof.
  assert (H1 : Demo.eval "video_sub" "query" Demo.one
               = Ok (Demo.eval_dataset "query" false))
    by (vm_compute; reflexivity).
  assert (H2 : RetrievalEvalDataset.getitem 0 (Demo.eval_dataset "query" false) 0
               = Ok (Demo.query_example None_))
    by (vm_compute; reflexivity).
  assert (H3 : RetrievalEvalDataset.load_gt_vid_name_for_query
                 (Demo.eval_dataset "query" false) true
               = Ok (Demo.eval_dataset "query" true))
    by (vm_compute; reflexivity).
  assert (H4 : RetrievalEvalDataset.getitem 0 (Demo.eval_dataset "query" true) 0
               = Ok (Demo.query_example (Str "v0")))
    by (vm_compute; reflexivity).
  pose proof H1 as Hinit. unfold Demo.eval in Hinit.
  destruct (gt_vid_name_withheld_until_opt_in 0%R _ _ _ _ _ _ _ _ _ _ _ _ _
              _ _ _ Hinit) as [Hoff Hon].
  split; [exact H1|]. split; [exact H2|]. split; [|split; [exact H3|split; [exact H4|]]].
  - apply (Hoff [] (Demo.eval_dataset "query" false) 0%Z);
      [reflexivity | reflexivity | reflexivity | exact H2].
  - destruct (Hon [] (Demo.eval_dataset "query" false)
                (Demo.eval_dataset "query" true) []
                (Demo.eval_dataset "query" true) 0%Z
                (Demo.query_example (Str "v0"))
                eq_refl H3 eq_refl eq_refl eq_refl H4)
      as (raw & v & Hraw & Hv & Hmeta).
    vm_compute in Hraw. injection Hraw as <-.
    vm_compute in Hv. injection Hv as <-. exact Hmeta.
Defined.

(** ** The flag ["tef"] *)

Lemma train_getitem_ignores_tef (eps : R) w dset_name data_path desc sub vid
    max_desc_len max_ctx_len (m1 m2 : string) normalize_vfeat normalize_tfeat
    data_ratio (index : Z) :
  str_in "video" m1 = str_in "video" m2 ->
  str_in "sub" m1 = str_in "sub" m2 ->
  (let* self := RetrievalDataset.init w dset_name data_path desc sub vid
                  max_desc_len max_ctx_len m1 normalize_vfeat normalize_tfeat
                  data_ratio in
   RetrievalDataset.getitem eps self index)
  = (let* self := RetrievalDataset.init w dset_name data_path desc sub vid
                    max_desc_len max_ctx_len m2 normalize_vfeat
                    normalize_tfeat data_ratio in
     RetrievalDataset.getitem eps self index).
Proof.
  intros Hv Hs. unfold RetrievalDataset.init. rewrite Hv, Hs.
  destruct (load_jsonl w data_path) as [l|]; simpl; [|done].
  destruct (apply_data_ratio l data_ratio); simpl; [|done].
  destruct (str_in "video" m2), (str_in "sub" m2); simpl;
    repeat (destruct (open_store w _); simpl; try done); done.
Qed.

Lemma eval_getitem_ignores_tef (eps : R) w dset_name eval_split_name data_path
    desc max_desc_len max_ctx_len sub vid video_duration_idx_path
    (m1 m2 : string) data_mode data_ratio normalize_vfeat normalize_tfeat
    (index : Z) :
  str_in "video" m1 = str_in "video" m2 ->
  str_in "sub" m1 = str_in "sub" m2 ->
  (let* self := RetrievalEvalDataset.init w dset_name eval_split_name
                  data_path desc max_desc_len max_ctx_len sub vid
                  video_duration_idx_path m1 data_mode data_ratio
                  normalize_vfeat normalize_tfeat in
   RetrievalEvalDataset.getitem eps self index)
  = (let* self := RetrievalEvalDataset.init w dset_name eval_split_name
                    data_path desc max_desc_len max_ctx_len sub vid
                    video_duration_idx_path m2 data_mode data_ratio
                    normalize_vfeat normalize_tfeat in
     RetrievalEvalDataset.getitem eps self index).
Proof.
  intros Hv Hs. unfold RetrievalEvalDataset.init. rewrite Hv, Hs.
  destruct (RetrievalEvalDataset.check_data_mode data_mode); simpl; [|done].
  destruct (load_jsonl w data_path) as [l|]; simpl; [|done].
  destruct (apply_data_ratio l data_ratio); simpl; [|done].
  destruct (open_store w desc); simpl; [|done].
  destruct (load_json w video_duration_idx_path); simpl; [|done].
  destruct (ODict.getitem _ eval_split_name); simpl; [|done].
  destruct (mapM RetrievalEvalDataset.video_entry _); simpl; [|done].
  destruct (mapM RetrievalEvalDataset.video_idx_entry _); simpl; [|done].
  destruct (str_in "video" m2), (str_in "sub" m2); simpl;
    repeat (destruct (open_store w _); simpl; try done); done.
Qed.

(** C3.  Two context-mode strings that agree on whether they contain
    ["video"] and on whether they contain ["sub"] (so that they differ, as far
    as this layer reads them, only in whether they contain ["tef"]) give the
    same outcome of construction followed by the item getter, at every index
    and for every other argument: the same example, metadata and tensors, or
    the same exception.  This holds for the training and for the evaluation
    dataset. *)
Theorem tef_flag_has_no_effect (eps : R) w dset_name eval_split_name data_path
    desc sub vid max_desc_len max_ctx_len video_duration_idx_path
    (m1 m2 : string) data_mode normalize_vfeat normalize_tfeat data_ratio
    (index : Z) :
  str_in "video" m1 = str_in "video" m2 ->
  str_in "sub" m1 = str_in "sub" m2 ->
  (let* self := RetrievalDataset.init w dset_name data_path desc sub vid
                  max_desc_len max_ctx_len m1 normalize_vfeat normalize_tfeat
                  data_ratio in
   RetrievalDataset.getitem eps self index)
  = (let* self := RetrievalDataset.init w dset_name data_path desc sub vid
                    max_desc_len max_ctx_len m2 normalize_vfeat
                    normalize_tfeat data_ratio in
     RetrievalDataset.getitem eps self index)
  /\ (let* self := RetrievalEvalDataset.init w dset_name eval_split_name
                     data_path desc max_desc_len max_ctx_len sub vid
                     video_duration_idx_path m1 data_mode data_ratio
                     normalize_vfeat normalize_tfeat in
      RetrievalEvalDataset.getitem eps self index)
     = (let* self := RetrievalEvalDataset.init w dset_name eval_split_name
                       data_path desc max_desc_len max_ctx_len sub vid
                       video_duration_idx_path m2 data_mode data_ratio
                       normalize_vfeat normalize_tfeat in
        RetrievalEvalDataset.getitem eps self index).
Proof.
  intros Hv Hs. split.
  - by apply train_getitem_ignores_tef.
  - by apply eval_getitem_ignores_tef.
Qed.

Lemma tef_flag_has_no_effect_witness :
  str_in "tef" "video_sub" = false
  /\ str_in "tef" "video_sub_tef" = true
  /\ str_in "video" "video_sub" = str_in "video" "video_sub_tef"
  /\ str_in "sub" "video_sub" = str_in "sub" "video_sub_tef"
  /\ (let* self := Demo.train "video_sub" Demo.one in
      RetrievalDataset.getitem 0 self 1)
     = (let* self := Demo.train "video_sub_tef" Demo.one in
        RetrievalDataset.getitem 0 self 1)
  /\ (let* self := Demo.eval "video_sub" "context" Demo.one in
      RetrievalEvalDataset.getitem 0 self 1)
     = (let* self := Demo.eval "video_sub_tef" "context" Demo.one in
        RetrievalEvalDataset.getitem 0 self 1).
Proof.
  split; [reflexivity|]. split; [reflexivity|].
  split; [reflexivity|]. split; [reflexivity|].
  exact (tef_flag_has_no_effect 0%R Demo.the_world "tvr" "val" "queries.jsonl"
           (Path "desc.h5") (Path "sub.h5") (Path "vid.h5") (Some 2%Z)
           (Some 100%Z) "video_idx.json" "video_sub" "video_sub_tef" "context"
           false false Demo.one _ eq_refl eq_refl).
Defined.

(** ** Arrays *)

Lemma chunks_length {A} (sz n : nat) (l : list A) : length (chunks sz n l) = n.
Proof. revert l. induction n as [|n IH]; intros l; simpl; [done|]. by rewrite IH. Qed.

Lemma concat_chunks {A} (sz n : nat) (l : list A) :
  concat (chunks sz n l) = take (n * sz) l.
Proof.
  revert l. induction n as [|n IH]; intros l; simpl; [done|].
  by rewrite IH, take_take_drop.
Qed.

Lemma chunks_Forall_length {A} (sz n : nat) (l : list A) :
  n * sz <= length l -> Forall (fun c => length c = sz) (chunks sz n l).
Proof.
  revert l. induction n as [|n IH]; intros l Hl; simpl; constructor.
  - rewrite length_take. lia.
  - apply IH. rewrite length_drop. lia.
Qed.

Lemma chunks_lookup {A} (sz n i : nat) (l : list A) :
  i < n -> chunks sz n l !! i = Some (take sz (drop (i * sz) l)).
Proof.
  revert i l. induction n as [|n IH]; intros i l Hi; [lia|].
  destruct i as [|i]; simpl; [done|].
  rewrite IH by lia. by rewrite drop_drop.
Qed.

Lemma length_concat_map_same {A} (f : list A -> list A) (rows : list (list A)) :
  (forall row, length (f row) = length row) ->
  length (concat (map f rows)) = length (concat rows).
Proof.
  intros Hf. induction rows as [|row rows IH]; simpl; [done|].
  by rewrite !length_app, Hf, IH.
Qed.

Lemma numel_app (s1 s2 : list nat) : numel (s1 ++ s2) = numel s1 * numel s2.
Proof.
  induction s1 as [|d s1 IH]; simpl; [lia|]. rewrite IH. lia.
Qed.

Lemma numel_removelast (s : list nat) (d : nat) :
  last s = Some d -> numel s = numel (removelast s) * d.
Proof.
  intros Hlast. destruct (last_Some s d) as [[s' ->] _]; [done|].
  rewrite removelast_last, numel_app. simpl. lia.
Qed.

Lemma slice_to_Ok {A} (a : ndarray A) (stop : option Z) d rest :
  shape a = d :: rest ->
  slice_to a stop
  = Ok (NDArray (slice_stop stop d :: rest)
          (take (slice_stop stop d * numel rest) (data a))).
Proof. intros Hs. unfold slice_to. by rewrite Hs. Qed.

Lemma slice_to_wf {A} (a b : ndarray A) (stop : option Z) :
  wf a -> slice_to a stop = Ok b -> wf b.
Proof.
  unfold wf, slice_to. intros Hwf. destruct (shape a) as [|d rest]; [done|].
  intros [= <-]. simpl in *. rewrite length_take, Hwf.
  pose proof (slice_stop_le stop d). nia.
Qed.

Lemma l2_normalize_row_length eps row :
  length (l2_normalize_row eps row) = length row.
Proof. unfold l2_normalize_row. by rewrite length_map. Qed.

Lemma l2_normalize_Ok eps (a : ndarray R) d :
  last (shape a) = Some d ->
  exists b, l2_normalize_np_array eps a = Ok b
            /\ shape b = shape a /\ (wf a -> wf b).
Proof.
  intros Hlast. unfold l2_normalize_np_array. rewrite Hlast.
  eexists. split; [reflexivity|]. split; [done|].
  unfold wf. simpl. intros Hwf.
  rewrite (length_concat_map_same _ _ (l2_normalize_row_length eps)).
  rewrite concat_chunks, length_take, Hwf.
  rewrite (numel_removelast _ _ Hlast). lia.
Qed.

Lemma l2_normalize_shape eps (a b : ndarray R) :
  l2_normalize_np_array eps a = Ok b -> shape b = shape a /\ (wf a -> wf b).
Proof.
  intros H. destruct (last (shape a)) as [d|] eqn:Hlast.
  - destruct (l2_normalize_Ok eps a d Hlast) as (b' & Hb' & ? & ?).
    rewrite H in Hb'. by injection Hb' as <-.
  - unfold l2_normalize_np_array in H. by rewrite Hlast in H.
Qed.

Lemma vadd_length (u v : list R) :
  length v = length u -> length (vadd u v) = length u.
Proof. intros H. unfold vadd. rewrite length_zip_with. lia. Qed.

Lemma foldl_vadd_length (rows : list (list R)) (acc : list R) :
  Forall (fun row => length row = length acc) rows ->
  length (foldl vadd acc rows) = length acc.
Proof.
  revert acc. induction rows as [|row rows IH]; intros acc Hrows; simpl; [done|].
  inversion Hrows as [|? ? Hrow Hrest]; subst.
  rewrite IH; rewrite vadd_length by done; [done|].
  eapply Forall_impl; [exact Hrest|]. simpl. intros; congruence.
Qed.

Lemma mean0_Ok (a : ndarray R) d rest :
  shape a = d :: rest ->
  exists b, mean0 a = Ok b /\ shape b = rest /\ (wf a -> wf b).
Proof.
  intros Hs. unfold mean0. rewrite Hs. eexists. split; [reflexivity|].
  split; [done|]. unfold wf. rewrite Hs. simpl. intros Hwf.
  rewrite length_map, foldl_vadd_length; rewrite length_replicate; [done|].
  apply chunks_Forall_length. lia.
Qed.

Lemma from_numpy_Ok {A} (a : ndarray A) :
  shape a <> [] -> from_numpy a = Ok (Tensor a "cpu").
Proof. unfold from_numpy. by destruct (shape a). Qed.

Lemma from_numpy_array {A} (a : ndarray A) (t : tensor A) :
  from_numpy a = Ok t -> array t = a /\ device t = "cpu"%string.
Proof. unfold from_numpy. destruct (shape a); [done|]. by intros [= <-]. Qed.

(** ** Query features *)

(** The common body of the two [get_query_feat_by_desc_id]. *)
Lemma query_feat_truncated (eps : R) (stored : ndarray R) (n : Z)
    (normalize : bool) d rest :
  shape stored = d :: rest ->
  (0 <= n)%Z ->
  truncated_to n stored
    (let* query_feat := slice_to stored (Some n) in
     let* query_feat :=
       if normalize then l2_normalize_np_array eps query_feat
       else Ok query_feat in
     from_numpy query_feat).
Proof.
  intros Hs Hn. unfold truncated_to. rewrite Hs. simpl hd. simpl tail.
  pose proof (slice_to_Ok stored (Some n) d rest Hs) as Hslice.
  rewrite slice_stop_nonneg in Hslice by done.
  rewrite (Nat.min_comm (Z.to_nat n) d) in Hslice.
  set (rows := Nat.min d (Z.to_nat n)) in *.
  set (sliced := NDArray (rows :: rest) _) in Hslice.
  assert (Hwf : wf stored -> wf sliced)
    by (intros Hw; by eapply slice_to_wf).
  assert (exists b, (if normalize then l2_normalize_np_array eps sliced
                     else Ok sliced) = Ok b
                    /\ shape b = rows :: rest /\ (wf stored -> wf b))
    as (b & Hb & Hshape & Hwfb).
  { destruct normalize; [|by eauto].
    destruct (last (shape sliced)) as [dl|] eqn:Hlast.
    - destruct (l2_normalize_Ok eps sliced dl Hlast) as (b & Hb & Hsb & Hwb).
      exists b. split; [exact Hb|]. split; [exact Hsb|]. auto.
    - subst sliced. simpl in Hlast. rewrite last_cons in Hlast.
      by destruct (last rest). }
  exists (Tensor b "cpu"), rows.
  rewrite Hslice. simpl. rewrite Hb. simpl.
  rewrite from_numpy_Ok by (rewrite Hshape; done).
  unfold Torch.len, tshape. simpl. rewrite Hshape.
  repeat split; try done; lia.
Qed.

(** C4.  In both datasets, when the configured maximum description length
    is the non-negative integer [n] and the text store holds, under the key
    [str(desc_id)], an array with at least one axis,
    [get_query_feat_by_desc_id] returns a tensor whose length is the minimum
    of the stored length and [n]: it never exceeds [n], and it is the stored
    length when that is at most [n].  The other axes are unchanged. *)
Theorem query_feat_length_is_min (eps : R) (desc_id : value) (key : string)
    (stored : ndarray R) (d : nat) (rest : list nat) (n : Z) :
  str desc_id = Ok key ->
  shape stored = d :: rest ->
  (0 <= n)%Z ->
  (forall self : RetrievalDataset.t,
     RetrievalDataset.desc_bert_h5 self !! key = Some stored ->
     RetrievalDataset.max_desc_len self = Some n ->
     truncated_to n stored
       (RetrievalDataset.get_query_feat_by_desc_id eps self desc_id))
  /\ (forall self : RetrievalEvalDataset.t,
        RetrievalEvalDataset.desc_bert_h5 self !! key = Some stored ->
        RetrievalEvalDataset.max_desc_len self = Some n ->
        truncated_to n stored
          (RetrievalEvalDataset.get_query_feat_by_desc_id eps self desc_id)).
Proof.
  intros Hkey Hs Hn. split; intros self Hstored Hmax.
  - unfold RetrievalDataset.get_query_feat_by_desc_id, dict_getitem.
    rewrite Hkey. simpl. rewrite Hstored. simpl. rewrite Hmax.
    by eapply query_feat_truncated.
  - unfold RetrievalEvalDataset.get_query_feat_by_desc_id, dict_getitem.
    rewrite Hkey. simpl. rewrite Hstored. simpl. rewrite Hmax.
    by eapply query_feat_truncated.
Qed.

Lemma query_feat_length_is_min_witness :
  str (Int 0) = Ok "0"%string
  /\ shape Demo.query_feat_array = [3; 2]
  /\ (0 <= 2)%Z
  /\ RetrievalDataset.desc_bert_h5 Demo.train_half !! "0"
     = Some Demo.query_feat_array
  /\ RetrievalDataset.max_desc_len Demo.train_half = Some 2%Z
  /\ truncated_to 2 Demo.query_feat_array
       (RetrievalDataset.get_query_feat_by_desc_id 0 Demo.train_half (Int 0))
  /\ truncated_to 2 Demo.query_feat_array
       (RetrievalEvalDataset.get_query_feat_by_desc_id 0
          (Demo.eval_dataset "query" false) (Int 0)).
Proof.
  assert (H1 : str (Int 0) = Ok "0"%string) by (vm_compute; reflexivity).
  assert (H2 : shape Demo.query_feat_array = [3; 2]) by reflexivity.
  assert (H3 : (0 <= 2)%Z) by lia.
  assert (H4 : Demo.desc_store !! "0" = Some Demo.query_feat_array)
    by (vm_compute; reflexivity).
  destruct (query_feat_length_is_min 0%R _ _ _ _ _ _ H1 H2 H3)
    as [Htrain Heval].
  split; [exact H1|]. split; [exact H2|]. split; [exact H3|].
  split; [exact H4|]. split; [reflexivity|]. split.
  - apply Htrain; [exact H4 | reflexivity].
  - apply Heval; [exact H4 | reflexivity].
Defined.

(** ** Pooled context features *)

(** The branch shared by the video and the subtitle modality in
    [RetrievalDataset.__getitem__] and in [_get_item_context]. *)
Lemma pooled_branch (eps : R) (store : option h5file) (vid_name : value)
    (max_ctx_len : option Z) (normalize : bool) (t : tensor R) :
  (let* h5 := attr store in
   let* stored := h5_getitem h5 vid_name in
   let* ctx := slice_to stored max_ctx_len in
   let* feat := mean0 ctx in
   let* feat :=
     if normalize then l2_normalize_np_array eps feat else Ok feat in
   from_numpy feat) = Ok t ->
  exists (h5 : h5file) (name : string) (stored : ndarray R),
    store = Some h5 /\ vid_name = Str name /\ h5 !! name = Some stored
    /\ pooled eps normalize max_ctx_len stored t.
Proof.
  intros H. inv_bind H. inv_bind H. inv_bind H. inv_bind H. inv_bind H.
  rename a into h5, a0 into stored, a1 into ctx, a2 into mean, a3 into feat.
  destruct store as [h5'|]; [|done]. injection Ha as ->.
  destruct vid_name as [|z|x|name|l]; try done. simpl in Ha0.
  unfold dict_getitem in Ha0.
  destruct (h5 !! name) as [stored'|] eqn:Hname; [|done].
  injection Ha0 as ->.
  exists h5, name, stored. split; [done|]. split; [done|]. split; [done|].
  apply from_numpy_array in H as [Harr _].
  destruct (shape stored) as [|d rest] eqn:Hs;
    [unfold slice_to in Ha1; by rewrite Hs in Ha1|].
  pose proof Ha1 as Hctx. rewrite (slice_to_Ok _ _ _ _ Hs) in Hctx.
  injection Hctx as Hctx.
  assert (Hcs : shape ctx = slice_stop max_ctx_len d :: rest)
    by (by rewrite <- Hctx).
  destruct (mean0_Ok ctx _ _ Hcs) as (mean' & Hmean' & Hms & Hmwf).
  rewrite Ha2 in Hmean'. injection Hmean' as <-.
  assert (Hfs : shape feat = rest /\ (wf mean -> wf feat)).
  { destruct normalize.
    - apply l2_normalize_shape in Ha3 as [-> ?]. done.
    - by injection Ha3 as <-. }
  destruct Hfs as [Hfs Hfwf].
  exists ctx, mean. split; [done|]. split.
  { intros n d' rest' -> Hn Hs'. rewrite Hs in Hs'. injection Hs' as <- <-.
    rewrite <- Hctx. rewrite slice_stop_nonneg by done. done. }
  split; [done|]. split.
  { destruct normalize.
    - by rewrite Harr.
    - injection Ha3 as <-. exact Harr. }
  unfold tshape. rewrite Harr, Hs, Hfs. split; [done|].
  intros Hwf. apply Hfwf, Hmwf. by eapply slice_to_wf.
Qed.

Lemma train_getitem_features (eps : R) (self : RetrievalDataset.t)
    (index : Z) (ex : example) :
  RetrievalDataset.getitem eps self index = Ok ex ->
  modality_feature eps (RetrievalDataset.use_video self)
    (RetrievalDataset.vid_feat_h5 self) (RetrievalDataset.normalize_vfeat self)
    (RetrievalDataset.max_ctx_len self) "video_feat" ex
  /\ modality_feature eps (RetrievalDataset.use_sub self)
       (RetrievalDataset.sub_bert_h5 self)
       (RetrievalDataset.normalize_tfeat self)
       (RetrievalDataset.max_ctx_len self) "sub_feat" ex.
Proof.
  unfold RetrievalDataset.getitem. intros H. do 8 inv_bind H.
  injection H as <-. unfold modality_feature. simpl. split.
  - destruct (RetrievalDataset.use_video self); [|by injection Ha5 as <-].
    apply pooled_branch in Ha5 as (h5 & name & stored & ? & -> & ? & ?).
    exists h5, name, stored, a5. repeat split; try done;
      by rewrite lookup_insert_ne, lookup_insert_eq.
  - destruct (RetrievalDataset.use_sub self); [|by injection Ha6 as <-].
    apply pooled_branch in Ha6 as (h5 & name & stored & ? & -> & ? & ?).
    exists h5, name, stored, a6. repeat split; try done;
      by rewrite lookup_insert_ne, lookup_insert_eq.
Qed.

Lemma eval_get_item_context_features (eps : R) (self : RetrievalEvalDataset.t)
    (index : Z) (ex : example) :
  RetrievalEvalDataset._get_item_context eps self index = Ok ex ->
  modality_feature eps (RetrievalEvalDataset.use_video self)
    (RetrievalEvalDataset.vid_feat_h5 self)
    (RetrievalEvalDataset.normalize_vfeat self)
    (RetrievalEvalDataset.max_ctx_len self) "video_feat" ex
  /\ modality_feature eps (RetrievalEvalDataset.use_sub self)
       (RetrievalEvalDataset.sub_bert_h5 self)
       (RetrievalEvalDataset.normalize_tfeat self)
       (RetrievalEvalDataset.max_ctx_len self) "sub_feat" ex.
Proof.
  unfold RetrievalEvalDataset._get_item_context. intros H. do 5 inv_bind H.
  injection H as <-. unfold modality_feature. simpl. split.
  - destruct (RetrievalEvalDataset.use_video self); [|by injection Ha2 as <-].
    apply pooled_branch in Ha2 as (h5 & name & stored & ? & -> & ? & ?).
    exists h5, name, stored, a2. repeat split; try done;
      by rewrite lookup_insert_ne, lookup_insert_eq.
  - destruct (RetrievalEvalDataset.use_sub self); [|by injection Ha3 as <-].
    apply pooled_branch in Ha3 as (h5 & name & stored & ? & -> & ? & ?).
    exists h5, name, stored, a3. repeat split; try done;
      by rewrite lookup_insert_ne, lookup_insert_eq.
Qed.

(** C9, as amended.  In the training item getter and in the context builder
    of the evaluation dataset, for each of the two modalities: when the
    modality is disabled, the feature emitted under its key is
    [torch.zeros(2)], whatever the stores hold; when it is enabled, the
    emitted feature is obtained from the array stored for the example's
    video by taking the leading rows [[:max_ctx_len]] (the first
    [min n length] rows for a maximum [n >= 0]), averaging them along the
    first axis and, when the modality's normalisation flag is set,
    L2-normalising the average; its shape is the stored shape without the
    first axis, so [(D,)] for a stored [(L, D)] array of any length [L]. *)
Theorem modality_features_pooled_or_placeholder (eps : R) :
  (forall (self : RetrievalDataset.t) (index : Z) (ex : example),
     RetrievalDataset.getitem eps self index = Ok ex ->
     modality_feature eps (RetrievalDataset.use_video self)
       (RetrievalDataset.vid_feat_h5 self)
       (RetrievalDataset.normalize_vfeat self)
       (RetrievalDataset.max_ctx_len self) "video_feat" ex
     /\ modality_feature eps (RetrievalDataset.use_sub self)
          (RetrievalDataset.sub_bert_h5 self)
          (RetrievalDataset.normalize_tfeat self)
          (RetrievalDataset.max_ctx_len self) "sub_feat" ex)
  /\ (forall (self : RetrievalEvalDataset.t) (index : Z) (ex : example),
        RetrievalEvalDataset._get_item_context eps self index = Ok ex ->
        modality_feature eps (RetrievalEvalDataset.use_video self)
          (RetrievalEvalDataset.vid_feat_h5 self)
          (RetrievalEvalDataset.normalize_vfeat self)
          (RetrievalEvalDataset.max_ctx_len self) "video_feat" ex
        /\ modality_feature eps (RetrievalEvalDataset.use_sub self)
             (RetrievalEvalDataset.sub_bert_h5 self)
             (RetrievalEvalDataset.normalize_tfeat self)
             (RetrievalEvalDataset.max_ctx_len self) "sub_feat" ex).
Proof.
  split; intros self index ex H.
  - by apply (train_getitem_features eps self index).
  - by apply (eval_get_item_context_features eps self index).
Qed.

Lemma modality_features_pooled_or_placeholder_witness :
  RetrievalDataset.getitem 0 Demo.train_normalized 0
  = Ok (Demo.normalized_example 0)
  /\ RetrievalEvalDataset._get_item_context 0
       (Demo.eval_dataset "context" false) 1
     = Ok Demo.context_example
  /\ modality_feature 0 true (Some Demo.vid_store) true (Some 100%Z)
       "video_feat" (Demo.normalized_example 0)
  /\ modality_feature 0 false None false (Some 100%Z)
       "sub_feat" (Demo.normalized_example 0)
  /\ modality_feature 0 true (Some Demo.sub_store) false (Some 100%Z)
       "sub_feat" Demo.context_example.
Proof.
  assert (H1 : RetrievalDataset.getitem 0 Demo.train_normalized 0
               = Ok (Demo.normalized_example 0))
    by (vm_compute; reflexivity).
  assert (H2 : RetrievalEvalDataset._get_item_context 0
                 (Demo.eval_dataset "context" false) 1
               = Ok Demo.context_example)
    by (vm_compute; reflexivity).
  destruct (modality_features_pooled_or_placeholder 0%R) as [Htrain Hctx].
  destruct (Htrain Demo.train_normalized 0%Z _ H1) as [Hv Hs].
  destruct (Hctx (Demo.eval_dataset "context" false) 1%Z _ H2) as [_ Hs'].
  split; [exact H1|]. split; [exact H2|]. split; [exact Hv|].
  split; [exact Hs | exact Hs'].
Defined.

Lemma norm2_pooled_mean : (1 < norm2 Demo.pooled_mean)%R.
Proof.
  unfold norm2, Demo.pooled_mean. simpl.
  rewrite <- sqrt_1 at 1. apply sqrt_lt_1_alt. lra.
Qed.

Lemma normalized_mean_differs (eps : R) :
  (0 <= eps)%R -> l2_normalize_row eps Demo.pooled_mean <> Demo.pooled_mean.
Proof.
  intros Heps H. pose proof norm2_pooled_mean as Hnorm.
  unfold l2_normalize_row in H.
  set (s := norm2 Demo.pooled_mean) in *.
  unfold Demo.pooled_mean in H. simpl in H. injection H as H1 _.
  assert (Hs : (s + eps <> 0)%R) by lra.
  apply (Rmult_eq_compat_r (s + eps)) in H1.
  unfold Rdiv in H1. rewrite (Rmult_assoc _ (/ (s + eps))) in H1.
  rewrite Rinv_l in H1 by done. lra.
Qed.

(** C9, as stated, fails: with the video modality enabled and its
    normalisation on, the feature emitted for the stored rows [1 2] and
    [3 4] is not their mean [2 3] but that mean divided by its norm. *)
Lemma emitted_feature_is_not_the_plain_mean :
  RetrievalDataset.use_video Demo.train_normalized = true
  /\ Demo.vid_store !! "v0" = Some (NDArray [2; 2] [1; 2; 3; 4]%R)
  /\ (let* ctx := slice_to (NDArray [2; 2] [1; 2; 3; 4]%R) (Some 100%Z) in
      mean0 ctx)
     = Ok (NDArray [2] Demo.pooled_mean)
  /\ Demo.pooled_mean = [(4 / 2)%R; (6 / 2)%R]
  /\ RetrievalDataset.getitem 0 Demo.train_normalized 0
     = Ok (Demo.normalized_example 0)
  /\ ODict.lookup "video_feat" (model_inputs (Demo.normalized_example 0))
     = Some (Tensor (NDArray [2] (l2_normalize_row 0 Demo.pooled_mean)) "cpu")
  /\ l2_normalize_row 0 Demo.pooled_mean <> Demo.pooled_mean
  /\ RetrievalDataset.getitem (1 / 100000) Demo.train_normalized 0
     = Ok (Demo.normalized_example (1 / 100000))
  /\ l2_normalize_row (1 / 100000) Demo.pooled_mean <> Demo.pooled_mean.
Proof.
  split; [reflexivity|].
  split; [vm_compute; reflexivity|].
  split; [vm_compute; reflexivity|].
  split; [unfold Demo.pooled_mean; simpl; f_equal; [|f_equal]; lra|].
  split; [vm_compute; reflexivity|].
  split; [reflexivity|].
  split; [apply normalized_mean_differs; lra|].
  split; [vm_compute; reflexivity|].
  apply normalized_mean_differs; lra.
Qed.

(** ** Insertion-ordered dictionaries *)

Lemma odict_lookup_insert_eq {V} (k : string) (v : V) (d : ODict.t V) :
  ODict.lookup k (ODict.insert k v d) = Some v.
Proof.
  induction d as [|[k' v'] d IH]; simpl.
  - by rewrite decide_True.
  - destruct (decide (k = k')) as [->|Hne]; simpl.
    + by rewrite decide_True.
    + by rewrite decide_False.
Qed.

Lemma odict_lookup_insert_ne {V} (k k' : string) (v : V) (d : ODict.t V) :
  k <> k' -> ODict.lookup k' (ODict.insert k v d) = ODict.lookup k' d.
Proof.
  intros Hne. induction d as [|[k0 v0] d IH]; simpl.
  - by rewrite decide_False.
  - destruct (decide (k = k0)) as [->|Hne0]; simpl.
    + by rewrite !decide_False.
    + by rewrite IH.
Qed.

Lemma odict_lookup_is_Some {V} (k : string) (d : ODict.t V) :
  is_Some (ODict.lookup k d) <-> k ∈ ODict.keys d.
Proof.
  unfold ODict.keys. induction d as [|[k' v'] d IH]; simpl.
  - rewrite elem_of_nil. split; [by intros [? ?]|done].
  - rewrite elem_of_cons. destruct (decide (k = k')) as [->|Hne].
    + split; [by left | by eauto].
    + rewrite IH. tauto.
Qed.

Lemma odict_insert_keys {V} (k : string) (v : V) (d : ODict.t V) :
  ODict.keys (ODict.insert k v d)
  = if decide (k ∈ ODict.keys d) then ODict.keys d else ODict.keys d ++ [k].
Proof.
  unfold ODict.keys. induction d as [|[k' v'] d IH]; csimpl.
  - done.
  - destruct (decide (k = k')) as [->|Hne]; csimpl.
    + rewrite decide_True; [done|]. by left.
    + rewrite IH. destruct (decide (k ∈ d.*1)) as [Hin|Hnin].
      * rewrite decide_True; [done|]. by right.
      * rewrite decide_False; [done|]. rewrite elem_of_cons. tauto.
Qed.

Lemma odict_insert_wf {V} (k : string) (v : V) (d : ODict.t V) :
  ODict.wf d -> ODict.wf (ODict.insert k v d).
Proof.
  unfold ODict.wf. rewrite odict_insert_keys. intros Hwf.
  destruct (decide (k ∈ ODict.keys d)) as [Hin|Hnin]; [done|].
  apply NoDup_app. split; [done|]. split; [|apply NoDup_singleton].
  intros k' Hk' ->%list_elem_of_singleton. done.
Qed.

(** ** Examples are well formed *)

Lemma query_feat_wf (eps : R) (h5 : h5file) (max_desc_len : option Z)
    (normalize : bool) (desc_id : value) (t : tensor R) :
  store_wf h5 ->
  (let* key := str desc_id in
   let* stored := dict_getitem h5 key in
   let* query_feat := slice_to stored max_desc_len in
   let* query_feat :=
     if normalize then l2_normalize_np_array eps query_feat
     else Ok query_feat in
   from_numpy query_feat) = Ok t ->
  wf (array t).
Proof.
  intros Hstore H.
  apply bind_Ok in H as (key & _ & H).
  apply bind_Ok in H as (stored & Hstored & H).
  apply bind_Ok in H as (sliced & Hsliced & H).
  apply bind_Ok in H as (feat & Hfeat & H).
  apply from_numpy_array in H as [-> _].
  unfold dict_getitem in Hstored.
  destruct (h5 !! key) as [a|] eqn:Hkey; [|done]. injection Hstored as ->.
  assert (Hwf : wf sliced) by (eapply slice_to_wf; [by eapply Hstore|done]).
  destruct normalize.
  - apply l2_normalize_shape in Hfeat as [_ Hwf']. auto.
  - by injection Hfeat as <-.
Qed.

Lemma modality_feature_wf (eps : R) (use : bool) (store : option h5file)
    (normalize : bool) (max_ctx_len : option Z) (key : string) (ex : example)
    (t : tensor R) :
  opt_store_wf store ->
  modality_feature eps use store normalize max_ctx_len key ex ->
  ODict.lookup key (model_inputs ex) = Some t ->
  wf (array t).
Proof.
  unfold modality_feature. intros Hstore Hfeat Ht. destruct use.
  - destruct Hfeat as (h5 & name & stored & t' & -> & _ & Hname & Ht' & Hpooled).
    rewrite Ht in Ht'. injection Ht' as <-.
    destruct Hpooled as (ctx & mean & _ & _ & _ & _ & _ & Hwf).
    apply Hwf. by eapply Hstore.
  - rewrite Ht in Hfeat. by injection Hfeat as ->.
Qed.

(** What the training item getter returns is well formed when the stores
    are. *)
Lemma train_getitem_example_wf (eps : R) (self : RetrievalDataset.t)
    (index : Z) (ex : example) :
  store_wf (RetrievalDataset.desc_bert_h5 self) ->
  opt_store_wf (RetrievalDataset.vid_feat_h5 self) ->
  opt_store_wf (RetrievalDataset.sub_bert_h5 self) ->
  RetrievalDataset.getitem eps self index = Ok ex ->
  example_wf ex.
Proof.
  intros Hdesc Hvid Hsub H.
  destruct (train_getitem_features eps self index ex H) as [Hv Hs].
  pose proof (fun t => modality_feature_wf _ _ _ _ _ _ _ t Hvid Hv) as Hv'.
  pose proof (fun t => modality_feature_wf _ _ _ _ _ _ _ t Hsub Hs) as Hs'.
  unfold RetrievalDataset.getitem in H. do 8 inv_bind H.
  injection H as <-. simpl in *.
  unfold example_wf. simpl. repeat constructor; simpl.
  - by eapply query_feat_wf.
  - by apply Hv'.
  - by apply Hs'.
Qed.

Lemma eval_getitem_example_wf (eps : R) (self : RetrievalEvalDataset.t)
    (index : Z) (ex : example) :
  store_wf (RetrievalEvalDataset.desc_bert_h5 self) ->
  opt_store_wf (RetrievalEvalDataset.vid_feat_h5 self) ->
  opt_store_wf (RetrievalEvalDataset.sub_bert_h5 self) ->
  RetrievalEvalDataset.getitem eps self index = Ok ex ->
  example_wf ex.
Proof.
  intros Hdesc Hvid Hsub H. unfold RetrievalEvalDataset.getitem in H.
  destruct (decide _) as [_|_].
  - destruct (eval_get_item_context_features eps self index ex H) as [Hv Hs].
    pose proof (fun t => modality_feature_wf _ _ _ _ _ _ _ t Hvid Hv) as Hv'.
    pose proof (fun t => modality_feature_wf _ _ _ _ _ _ _ t Hsub Hs) as Hs'.
    unfold RetrievalEvalDataset._get_item_context in H. do 5 inv_bind H.
    injection H as <-. simpl in *.
    unfold example_wf. simpl. repeat constructor; simpl.
    + by apply Hv'.
    + by apply Hs'.
  - unfold RetrievalEvalDataset._get_item_query in H. do 5 inv_bind H.
    injection H as <-. unfold example_wf. simpl. repeat constructor; simpl.
    by eapply query_feat_wf.
Qed.

(** ** The batch assembler *)

Lemma collate_key_eq (batch : list example) (acc : ODict.t Collate.batched)
    (k : string) :
  Collate.collate_key batch acc k
  = if str_in "feat" k
    then let* v := collate_value batch k in Ok (ODict.insert k v acc)
    else Ok acc.
Proof.
  unfold Collate.collate_key, collate_value.
  destruct (decide (k = "query_feat"%string)) as [->|Hne].
  - change (str_in "feat" "query_feat") with true. cbv iota.
    destruct (mapM _ batch) as [ts|]; simpl; [|done].
    by destruct (pad_sequences_1d ts).
  - destruct (str_in "feat" k); [|done].
    destruct (mapM _ batch) as [ts|]; simpl; [|done].
    by destruct (stack ts).
Qed.

Lemma collate_fold (batch : list example) (keys : list string)
    (acc out : ODict.t Collate.batched) (k : string) :
  foldlM (Collate.collate_key batch) acc keys = Ok out ->
  if decide (k ∈ keys /\ str_in "feat" k = true)
  then exists v, collate_value batch k = Ok v /\ ODict.lookup k out = Some v
  else ODict.lookup k out = ODict.lookup k acc.
Proof.
  revert acc. induction keys as [|k0 keys IH]; intros acc H; cbn [foldlM] in H.
  - injection H as <-. case_decide as Hk; [|done].
    by destruct Hk as [?%elem_of_nil _].
  - inv_bind H. rename a into acc'. specialize (IH acc' H).
    rewrite collate_key_eq in Ha.
    destruct (decide (k ∈ keys /\ str_in "feat" k = true)) as [[Hin Hfeat]|Hnot].
    { rewrite decide_True; [done|]. split; [by right | done]. }
    destruct (decide (k ∈ k0 :: keys /\ str_in "feat" k = true))
      as [[Hin Hfeat]|Hnot'].
    + apply elem_of_cons in Hin as [->|Hin]; [|tauto].
      rewrite Hfeat in Ha. inv_bind Ha. injection Ha as <-.
      exists a. split; [done|]. rewrite IH. apply odict_lookup_insert_eq.
    + rewrite IH. destruct (str_in "feat" k0) eqn:Hfeat0.
      * inv_bind Ha. injection Ha as <-.
        apply odict_lookup_insert_ne. intros ->.
        apply Hnot'. split; [by left | done].
      * by injection Ha as <-.
Qed.

(** C10.  When [retrieval_collate] returns, the batch has a first example,
    and the keys of the batched mapping are exactly the keys of that
    example's model inputs that contain ["feat"]; a key without it, such as
    ["st_ed_indices"], is absent from the result whatever the examples
    hold. *)
Theorem collate_keeps_feat_keys_of_first (batch : list example)
    (batch_meta : list record) (batched_data : ODict.t Collate.batched) :
  Collate.retrieval_collate batch = Ok (batch_meta, batched_data) ->
  exists (first : example) (others : list example),
    batch = first :: others
    /\ (forall k : string,
          is_Some (ODict.lookup k batched_data)
          <-> k ∈ ODict.keys (model_inputs first) /\ str_in "feat" k = true)
    /\ ODict.lookup "st_ed_indices" batched_data = None.
Proof.
  unfold Collate.retrieval_collate. intros H. inv_bind H. inv_bind H.
  injection H as _ <-. rename a into first, a0 into out.
  destruct (list_getitem_0 _ _ Ha) as [others ->].
  exists first, others. split; [done|].
  assert (Hkeys : forall k : string,
            is_Some (ODict.lookup k out)
            <-> k ∈ ODict.keys (model_inputs first) /\ str_in "feat" k = true).
  { intros k. pose proof (collate_fold _ _ _ _ k Ha0) as Hk.
    destruct (decide _) as [Hyes|Hno].
    - destruct Hk as (v & _ & ->). split; [done | by eauto].
    - rewrite Hk. simpl. split; [by intros [? ?] | done]. }
  split; [exact Hkeys|].
  destruct (ODict.lookup "st_ed_indices" out) eqn:Hl; [|done].
  assert (Hsome : is_Some (ODict.lookup "st_ed_indices" out)) by (by rewrite Hl).
  apply Hkeys in Hsome as [_ Hfeat]. done.
Qed.






Lemma odict_lookup_elem {V} (k : string) (v : V) (d : ODict.t V) :
  ODict.lookup k d = Some v -> (k, v) ∈ d.
Proof.
  induction d as [|[k' v'] d IH]; simpl; [done|].
  destruct (decide (k = k')) as [->|Hne].
  - intros [= ->]. by left.
  - intros H. right. by apply IH.
Qed.

Lemma odict_getitem_Ok {V} (k : string) (v : V) (d : ODict.t V) :
  ODict.getitem d k = Ok v -> ODict.lookup k d = Some v.
Proof.
  unfold ODict.getitem. destruct (ODict.lookup k d); [|done].
  by intros [= ->].
Qed.



Lemma collate_keeps_feat_keys_of_first_witness :
  Collate.retrieval_collate Demo.batch
  = Ok (map meta Demo.batch, Demo.collated_data)
  /\ ODict.keys (V:=Collate.batched) Demo.collated_data
     = ["query_feat"; "video_feat"; "sub_feat"]%string
  /\ (is_Some (ODict.lookup "video_feat" Demo.collated_data)
      <-> "video_feat"%string
          ∈ ["query_feat"; "video_feat"; "sub_feat"; "st_ed_indices"]%string
          /\ str_in "feat" "video_feat" = true)
  /\ ODict.lookup "st_ed_indices" Demo.collated_data = None.
Proof.
  assert (H : Collate.retrieval_collate Demo.batch
              = Ok (map meta Demo.batch, Demo.collated_data))
    by (vm_compute; reflexivity).
  destruct (collate_keeps_feat_keys_of_first _ _ _ H)
    as (first & others & Hbatch & Hkeys & Hdropped).
  injection Hbatch as <- _.
  split; [exact H|]. split; [reflexivity|].
  split; [exact (Hkeys "video_feat"%string) | exact Hdropped].
Defined.


(** ** The batch assembler returns *)

Lemma mapM_total {A B} (f : A -> result B) (l : list A) :
  (forall x, x ∈ l -> exists y, f x = Ok y) ->
  exists l', mapM f l = Ok l'.
Proof.
  induction l as [|x l IH]; intros Hf; simpl; [by eauto|].
  destruct (Hf x) as [y Hy]; [by left|]. rewrite Hy. simpl.
  destruct IH as [l' Hl']; [intros x' Hx'; apply Hf; by right|].
  rewrite Hl'. simpl. eauto.
Qed.

(** The value for a key is computed without exception on a batch that can
    be assembled. *)
Lemma collate_value_total (first : example) (others : list example)
    (k : string) (t0 : tensor R) :
  ODict.lookup k (model_inputs first) = Some t0 ->
  (forall e : example, e ∈ first :: others ->
     exists t : tensor R,
       ODict.lookup k (model_inputs e) = Some t
       /\ if decide (k = "query_feat"%string)
          then same_extra_dims t0 t = true
          else same_layout t0 t = true) ->
  exists v, collate_value (first :: others) k = Ok v.
Proof.
  intros Ht0 Hall. unfold collate_value.
  destruct (mapM_total
              (fun e : example => ODict.getitem (model_inputs e) k)
              (first :: others)) as [ts Hts].
  { intros e He. destruct (Hall e He) as (t & Ht & _).
    exists t. unfold ODict.getitem. by rewrite Ht. }
  rewrite Hts. simpl.
  assert (Hhead : exists ts', ts = t0 :: ts').
  { simpl in Hts. unfold ODict.getitem in Hts at 1. rewrite Ht0 in Hts.
    simpl in Hts. destruct (mapM _ others) as [ts'|]; [|done].
    injection Hts as <-. eauto. }
  destruct Hhead as [ts' ->].
  assert (Hprop : forall t, t ∈ t0 :: ts' ->
            if decide (k = "query_feat"%string)
            then same_extra_dims t0 t = true
            else same_layout t0 t = true).
  { intros t Ht. apply mapM_Ok in Hts.
    apply list_elem_of_lookup in Ht as [i Hi].
    destruct (Forall2_lookup_r _ _ _ _ _ Hts Hi) as (e & He & Het).
    destruct (Hall e) as (t' & Ht' & Hp); [by eapply list_elem_of_lookup_2|].
    apply odict_getitem_Ok in Het. rewrite Het in Ht'.
    by injection Ht' as <-. }
  destruct (decide (k = "query_feat"%string)) as [->|Hne].
  - unfold pad_sequences_1d.
    replace (forallb (same_extra_dims t0) (t0 :: ts')) with true; [by eauto|].
    symmetry. apply forallb_forall. intros t Ht.
    by apply Hprop, list_elem_of_In.
  - unfold stack.
    replace (forallb (same_layout t0) (t0 :: ts')) with true; [by eauto|].
    symmetry. apply forallb_forall. intros t Ht.
    by apply Hprop, list_elem_of_In.
Qed.

Lemma collate_fold_total (batch : list example) (keys : list string)
    (acc : ODict.t Collate.batched) :
  (forall k, k ∈ keys -> str_in "feat" k = true ->
     exists v, collate_value batch k = Ok v) ->
  exists out, foldlM (Collate.collate_key batch) acc keys = Ok out.
Proof.
  revert acc. induction keys as [|k keys IH]; intros acc Hkeys;
    cbn [foldlM]; [by eauto|].
  rewrite collate_key_eq.
  assert (Hrest : forall k', k' ∈ keys -> str_in "feat" k' = true ->
            exists v, collate_value batch k' = Ok v)
    by (intros k' Hk'; apply Hkeys; by right).
  destruct (str_in "feat" k) eqn:Hfeat; simpl.
  - destruct (Hkeys k) as [v Hv]; [by left|done|]. rewrite Hv. simpl.
    by apply IH.
  - by apply IH.
Qed.

(** [retrieval_collate] returns on every batch that can be assembled. *)
Lemma collate_returns (batch : list example) :
  collatable batch ->
  exists batched_data,
    Collate.retrieval_collate batch = Ok (map meta batch, batched_data).
Proof.
  intros (first & others & -> & Hkeys).
  unfold Collate.retrieval_collate.
  change (list_getitem (first :: others) 0) with (Ok first). simpl Py.bind.
  destruct (collate_fold_total (first :: others)
              (ODict.keys (model_inputs first)) ODict.empty) as [out Hout].
  { intros k Hk Hfeat. destruct (Hkeys k Hk Hfeat) as (t0 & Ht0 & Hall).
    by eapply collate_value_total. }
  rewrite Hout. simpl. eauto.
Qed.



(** ** The device mover *)

Lemma odict_lookup_None {V} (k : string) (d : ODict.t V) :
  k ∉ ODict.keys d -> ODict.lookup k d = None.
Proof.
  intros Hk. destruct (ODict.lookup k d) eqn:Hl; [|done].
  exfalso. apply Hk, odict_lookup_is_Some. by rewrite Hl.
Qed.

Lemma to_Ok {A} (mach : machine) (dev d : string) (non_blocking : bool)
    (t : tensor A) :
  mach dev = Ok d -> to mach dev non_blocking t = Ok (on d t).
Proof. intros H. unfold to. by rewrite H. Qed.

Lemma to_Raise {A} (mach : machine) (dev : string) (e : error)
    (non_blocking : bool) (t : tensor A) :
  mach dev = Raise e -> to mach dev non_blocking t = Raise e.
Proof. intros H. unfold to. by rewrite H. Qed.

Lemma prepare_item_padded mach dev d non_blocking acc (p : padded) :
  mach dev = Ok d ->
  Collate.prepare_item mach dev non_blocking acc
    ("query_feat"%string, Collate.BPadded p)
  = Ok (ODict.insert "query_mask" (Collate.TensorB (on d (mask p)))
          (ODict.insert "query_feat"
             (Collate.TensorF (on d (padded_seqs p))) acc)).
Proof.
  intros H. unfold Collate.prepare_item, Collate.object_to. simpl.
  by rewrite !(to_Ok _ _ _ _ _ H).
Qed.

Lemma prepare_item_stacked mach dev d non_blocking acc (k : string)
    (t : tensor R) :
  mach dev = Ok d ->
  k <> "query_feat"%string ->
  Collate.prepare_item mach dev non_blocking acc (k, Collate.BStacked t)
  = Ok (ODict.insert k (Collate.TensorF (on d t)) acc).
Proof.
  intros H Hk. unfold Collate.prepare_item, Collate.batched_to. simpl.
  rewrite decide_False by done. by rewrite (to_Ok _ _ _ _ _ H).
Qed.

Lemma prepare_item_Raise mach dev (e : error) non_blocking acc
    (kv : string * Collate.batched) :
  mach dev = Raise e ->
  batched_entry_ok kv ->
  Collate.prepare_item mach dev non_blocking acc kv = Raise e.
Proof.
  intros H [_ Hkind]. destruct kv as [k [p|t]]; simpl in Hkind.
  - subst k. unfold Collate.prepare_item, Collate.object_to. simpl.
    by rewrite (to_Raise _ _ _ _ _ H).
  - unfold Collate.prepare_item, Collate.batched_to. simpl.
    rewrite decide_False by done. by rewrite (to_Raise _ _ _ _ _ H).
Qed.

Lemma prepare_fold mach dev d non_blocking (m : ODict.t Collate.batched)
    (acc : ODict.t Collate.object) :
  mach dev = Ok d ->
  batched_mapping m ->
  exists out,
    foldlM (Collate.prepare_item mach dev non_blocking) acc m = Ok out
    /\ forall k, ODict.lookup k out = prepared_lookup d m acc k.
Proof.
  intros Hd [Hwf Hok]. revert acc.
  induction m as [|[k0 v0] m IH]; intros acc.
  - exists acc. split; [done|]. intros k. unfold prepared_lookup. simpl.
    by destruct (decide (k = "query_mask"%string)).
  - apply NoDup_cons in Hwf as [Hk0 Hwf].
    apply Forall_cons in Hok as [[Hfeat Hkind] Hok]. simpl in Hfeat, Hkind.
    assert (Hk0' : ODict.lookup k0 m = None) by (by apply odict_lookup_None).
    assert (Hmask : k0 <> "query_mask"%string) by (by intros ->).
    assert (Hnomask : ODict.lookup "query_mask" m = None).
    { apply odict_lookup_None. intros Hin.
      apply list_elem_of_fmap in Hin as ([k v] & Hk & Hin). simpl in Hk.
      rewrite Forall_forall in Hok. destruct (Hok _ Hin) as [Hf _].
      simpl in Hf. by rewrite <- Hk in Hf. }
    destruct v0 as [p|t].
    + subst k0. cbn [foldlM]. rewrite (prepare_item_padded _ _ _ _ _ _ Hd).
      simpl Py.bind.
      destruct (IH Hwf Hok (ODict.insert "query_mask"
                  (Collate.TensorB (on d (mask p)))
                  (ODict.insert "query_feat"
                     (Collate.TensorF (on d (padded_seqs p)))
                     acc))) as (out & Hout & Hlookup).
      exists out. split; [done|]. intros k. rewrite Hlookup.
      unfold prepared_lookup. simpl.
      destruct (decide (k = "query_feat"%string)) as [->|Hne].
      * rewrite Hk0'. simpl.
        by rewrite odict_lookup_insert_ne, odict_lookup_insert_eq.
      * rewrite Hk0'. destruct (ODict.lookup k m) as [[?|?]|] eqn:Hk; [done..|].
        destruct (decide (k = "query_mask"%string)) as [->|Hne'].
        -- apply odict_lookup_insert_eq.
        -- by rewrite !odict_lookup_insert_ne.
    + cbn [foldlM]. rewrite (prepare_item_stacked _ _ _ _ _ _ _ Hd) by done.
      simpl Py.bind.
      destruct (IH Hwf Hok (ODict.insert k0
                  (Collate.TensorF (on d t)) acc))
        as (out & Hout & Hlookup).
      exists out. split; [done|]. intros k. rewrite Hlookup.
      unfold prepared_lookup. simpl.
      destruct (decide (k = k0)) as [->|Hne].
      * rewrite Hk0'. rewrite decide_False by done.
        apply odict_lookup_insert_eq.
      * rewrite (decide_False (P := "query_feat"%string = k0)) by done.
        destruct (ODict.lookup k m) as [[?|?]|] eqn:Hk; [done..|].
        destruct (decide (k = "query_mask"%string)) as [->|Hne'].
        -- destruct (ODict.lookup "query_feat" m) as [[?|?]|]; [done|..];
             by rewrite odict_lookup_insert_ne.
        -- by rewrite odict_lookup_insert_ne.
Qed.

Lemma odict_insert_elem {V} (k : string) (v : V) (d : ODict.t V) (kv : string * V) :
  kv ∈ ODict.insert k v d -> kv = (k, v) \/ kv ∈ d.
Proof.
  induction d as [|[k' v'] d IH]; simpl.
  - intros ->%list_elem_of_singleton. by left.
  - destruct (decide (k = k')) as [->|Hne]; rewrite !elem_of_cons; [tauto|].
    intros [->|H]; [tauto|]. destruct (IH H); tauto.
Qed.

Lemma collate_value_kind (batch : list example) (k : string)
    (v : Collate.batched) :
  str_in "feat" k = true ->
  collate_value batch k = Ok v ->
  batched_entry_ok (k, v).
Proof.
  intros Hfeat H. unfold collate_value in H.
  apply bind_Ok in H as (ts & _ & H). split; [done|]. simpl.
  destruct (decide (k = "query_feat"%string)) as [->|Hne].
  - apply bind_Ok in H as (p & _ & H). by injection H as <-.
  - apply bind_Ok in H as (s & _ & H). by injection H as <-.
Qed.

Lemma collate_fold_mapping (batch : list example) (keys : list string)
    (acc out : ODict.t Collate.batched) :
  foldlM (Collate.collate_key batch) acc keys = Ok out ->
  batched_mapping acc -> batched_mapping out.
Proof.
  revert acc. induction keys as [|k keys IH]; intros acc H Hacc;
    cbn [foldlM] in H.
  - by injection H as <-.
  - apply bind_Ok in H as (acc' & Hstep & H). apply (IH acc' H).
    rewrite collate_key_eq in Hstep.
    destruct (str_in "feat" k) eqn:Hfeat; [|by injection Hstep as <-].
    apply bind_Ok in Hstep as (v & Hv & Hstep). injection Hstep as <-.
    destruct Hacc as [Hwf Hok]. split; [by apply odict_insert_wf|].
    rewrite Forall_forall in Hok |- *. intros kv Hkv.
    apply odict_insert_elem in Hkv as [->|Hkv]; [|by apply Hok].
    by eapply collate_value_kind.
Qed.

(** What [retrieval_collate] returns is a batched feature mapping. *)
Lemma collate_output_is_batched_mapping (batch : list example)
    (batch_meta : list record) (batched_data : ODict.t Collate.batched) :
  Collate.retrieval_collate batch = Ok (batch_meta, batched_data) ->
  batched_mapping batched_data.
Proof.
  unfold Collate.retrieval_collate. intros H.
  apply bind_Ok in H as (first & _ & H).
  apply bind_Ok in H as (out & Hfold & H). injection H as _ <-.
  apply (collate_fold_mapping _ _ _ _ Hfold).
  split; [apply NoDup_nil_2 | constructor].
Qed.

(** C8.  On every batched feature mapping (distinct keys that contain
    ["feat"], the query feature holding the result of padding and every
    other key a stacked tensor) and for a device argument that denotes a
    device of the machine, [prepare_batch_inputs] returns a mapping in which
    the query-feature key holds the padded tensor moved to the device, the
    key obtained from it by replacing ["feat"] with ["mask"], that is
    ["query_mask"], holds the moved mask, every other key of the input holds
    its tensor moved to the device, and there is no further key.  Moving
    changes the device of a tensor and nothing else.  For a device argument
    that the machine refuses, the function raises the machine's exception
    on every mapping that is not empty.  The function receives the feature
    mapping only: no metadata is among its arguments or in its result. *)
Theorem prepare_batch_inputs_moves_features (mach : machine) (dev : string)
    (non_blocking : bool) (m : ODict.t Collate.batched) :
  batched_mapping m ->
  str_replace "query_feat" "feat" "mask" = "query_mask"%string
  /\ (forall d : string,
        mach dev = Ok d ->
        (forall (A : Type) (t : tensor A),
           to mach dev non_blocking t = Ok (on d t)
           /\ array (on d t) = array t
           /\ device (on d t) = d)
        /\ exists out : ODict.t Collate.object,
             Collate.prepare_batch_inputs mach m dev non_blocking = Ok out
             /\ (forall v, ODict.lookup "query_feat" m = Some v ->
                   exists p,
                     v = Collate.BPadded p
                     /\ ODict.lookup "query_feat" out
                        = Some (Collate.TensorF (on d (padded_seqs p)))
                     /\ ODict.lookup (str_replace "query_feat" "feat" "mask")
                          out
                        = Some (Collate.TensorB (on d (mask p))))
             /\ (forall k v, k <> "query_feat"%string ->
                   ODict.lookup k m = Some v ->
                   exists t,
                     v = Collate.BStacked t
                     /\ ODict.lookup k out = Some (Collate.TensorF (on d t)))
             /\ (forall k, is_Some (ODict.lookup k out) <->
                   is_Some (ODict.lookup k m)
                   \/ (k = "query_mask"%string
                       /\ is_Some (ODict.lookup "query_feat" m))))
  /\ (forall e : error,
        mach dev = Raise e -> m <> [] ->
        Collate.prepare_batch_inputs mach m dev non_blocking = Raise e).
Proof.
  intros Hm. split; [reflexivity|]. split.
  2:{ intros e He Hne. destruct m as [|kv m]; [done|].
      destruct Hm as [_ Hok]. apply Forall_cons in Hok as [Hkv _].
      unfold Collate.prepare_batch_inputs. cbn [foldlM].
      by rewrite (prepare_item_Raise _ _ _ _ _ _ He Hkv). }
  intros d Hd. split.
  { intros A t. by rewrite (to_Ok _ _ _ _ _ Hd). }
  destruct (prepare_fold mach dev d non_blocking m ODict.empty Hd Hm)
    as (out & Hout & Hlookup).
  exists out. split; [exact Hout|].
  destruct Hm as [Hwf Hok]. rewrite Forall_forall in Hok.
  assert (Hkind : forall k v, ODict.lookup k m = Some v ->
            str_in "feat" k = true
            /\ match v with
               | Collate.BPadded _ => k = "query_feat"%string
               | Collate.BStacked _ => k <> "query_feat"%string
               end).
  { intros k v Hk. by apply odict_lookup_elem, Hok in Hk. }
  assert (Hnomask : ODict.lookup "query_mask" m = None).
  { destruct (ODict.lookup "query_mask" m) eqn:Hk; [|done].
    by apply Hkind in Hk as [? _]. }
  split; [|split].
  - intros v Hv. destruct (Hkind _ _ Hv) as [_ Hq].
    destruct v as [p|t]; [|done]. exists p. split; [done|].
    change (str_replace "query_feat" "feat" "mask") with "query_mask"%string.
    rewrite !Hlookup. unfold prepared_lookup. rewrite Hv, Hnomask. done.
  - intros k v Hne Hv. destruct (Hkind _ _ Hv) as [_ Hq].
    destruct v as [p|t]; [done|]. exists t. split; [done|].
    rewrite Hlookup. unfold prepared_lookup. by rewrite Hv.
  - intros k. rewrite Hlookup. unfold prepared_lookup.
    destruct (ODict.lookup k m) as [[p|t]|] eqn:Hk.
    + split; [by left; eauto | by eauto].
    + split; [by left; eauto | by eauto].
    + destruct (decide (k = "query_mask"%string)) as [->|Hne].
      * destruct (ODict.lookup "query_feat" m) as [[p|t]|] eqn:Hq.
        -- split; [by right; eauto | by eauto].
        -- by apply Hkind in Hq as [_ ?].
        -- simpl. split; [by intros [? ?] | ].
           intros [[? ?]|[_ [? ?]]]; done.
      * simpl. split; [by intros [? ?] | ].
        intros [[? ?]|[? _]]; done.
Qed.

Lemma prepare_batch_inputs_moves_features_witness :
  batched_mapping Demo.collated_data
  /\ Demo.machine "cuda:0" = Ok "cuda:0"%string
  /\ (exists out : ODict.t Collate.object,
        Collate.prepare_batch_inputs Demo.machine Demo.collated_data "cuda:0"
          true = Ok out
        /\ ODict.keys out
           = ["query_feat"; "query_mask"; "video_feat"; "sub_feat"]%string
        /\ ODict.lookup "query_mask" out
           = Some (Collate.TensorB
                     (Tensor
                        (NDArray [3; 3]
                           [true; true; false;
                            true; false; false;
                            true; true; true]) "cuda:0"))
        /\ ODict.lookup "video_feat" out
           = Some (Collate.TensorF
                     (Tensor (NDArray [3; 2] [1; 0; 0; 1; 1; 1]%R) "cuda:0")))
  /\ Demo.machine "tpu9" = Raise RuntimeError
  /\ Collate.prepare_batch_inputs Demo.machine Demo.collated_data "tpu9" true
     = Raise RuntimeError.
Proof.
  assert (H : Collate.retrieval_collate Demo.batch
              = Ok (map meta Demo.batch, Demo.collated_data))
    by (vm_compute; reflexivity).
  pose proof (collate_output_is_batched_mapping _ _ _ H) as Hm.
  assert (Hd : Demo.machine "cuda:0" = Ok "cuda:0"%string) by reflexivity.
  assert (He : Demo.machine "tpu9" = Raise RuntimeError) by reflexivity.
  split; [exact Hm|]. split; [exact Hd|].
  destruct (prepare_batch_inputs_moves_features Demo.machine "cuda:0" true
              _ Hm) as (_ & Hmove & _).
  destruct (Hmove _ Hd) as (_ & out & Hout & Hquery & Hother & _).
  split.
  - exists out. split; [exact Hout|]. split.
    + vm_compute in Hout. by injection Hout as <-.
    + destruct (Hquery _ eq_refl) as (p & Hp & _ & Hmask).
      injection Hp as <-. split; [exact Hmask|].
      destruct (Hother "video_feat"%string _ ltac:(done) eq_refl)
        as (t & Ht & Hvideo).
      injection Ht as <-. exact Hvideo.
  - split; [exact He|].
    apply (proj2 (proj2 (prepare_batch_inputs_moves_features Demo.machine
                           "tpu9" true _ Hm)) _ He).
    discriminate.
Defined.

(** * Further properties of the code *)

(** ** Indices *)

Lemma list_getitem_out_of_range {A} (l : list A) (i : Z) :
  (i < - Z.of_nat (length l) \/ Z.of_nat (length l) <= i)%Z ->
  list_getitem l i = Raise IndexError.
Proof.
  intros Hi. unfold list_getitem.
  destruct (Z.ltb_spec i 0) as [Hneg|Hpos].
  - destruct (Z.ltb_spec (i + Z.of_nat (length l)) 0) as [|]; [done|lia].
  - destruct (Z.ltb_spec i 0) as [|_]; [lia|].
    rewrite lookup_ge_None_2; [done|lia].
Qed.

Lemma list_getitem_negative {A} (l : list A) (i : Z) :
  (- Z.of_nat (length l) <= i < 0)%Z ->
  list_getitem l i = list_getitem l (i + Z.of_nat (length l)).
Proof.
  intros Hi. unfold list_getitem.
  destruct (Z.ltb_spec i 0) as [_|]; [|lia].
  destruct (Z.ltb_spec (i + Z.of_nat (length l)) 0) as [|_]; [lia|].
  destruct (Z.ltb_spec (i + Z.of_nat (length l)) 0) as [|_]; [lia|done].
Qed.

Lemma list_getitem_in_range {A} (l : list A) (i : Z) :
  (0 <= i < Z.of_nat (length l))%Z ->
  exists x, list_getitem l i = Ok x /\ l !! Z.to_nat i = Some x.
Proof.
  intros Hi. unfold list_getitem.
  destruct (Z.ltb_spec i 0) as [|_]; [lia|].
  destruct (Z.ltb_spec i 0) as [|_]; [lia|].
  destruct (lookup_lt_is_Some_2 l (Z.to_nat i)) as [x Hx]; [lia|].
  rewrite Hx. eauto.
Qed.

(** X1.  In both datasets the item getter accepts exactly the indices of a
    Python sequence of the reported length [len]: an index below [-len] or
    from [len] on raises [IndexError], and a negative index from [-len] on
    gives what the index [index + len] gives.  For the evaluation dataset
    the length is the one of the current data mode. *)
Theorem getitem_index_bounds (eps : R) :
  (forall (self : RetrievalDataset.t) (index : Z),
     let n := Z.of_nat (RetrievalDataset.len self) in
     ((index < - n \/ n <= index)%Z ->
      RetrievalDataset.getitem eps self index = Raise IndexError)
     /\ ((- n <= index < 0)%Z ->
         RetrievalDataset.getitem eps self index
         = RetrievalDataset.getitem eps self (index + n)))
  /\ (forall (self : RetrievalEvalDataset.t) (index : Z),
        let n := Z.of_nat (RetrievalEvalDataset.len self) in
        ((index < - n \/ n <= index)%Z ->
         RetrievalEvalDataset.getitem eps self index = Raise IndexError)
        /\ ((- n <= index < 0)%Z ->
            RetrievalEvalDataset.getitem eps self index
            = RetrievalEvalDataset.getitem eps self (index + n))).
Proof.
  split; intros self index n; subst n.
  - unfold RetrievalDataset.len, RetrievalDataset.getitem. split; intros Hi.
    + by rewrite list_getitem_out_of_range.
    + by rewrite list_getitem_negative.
  - unfold RetrievalEvalDataset.len, RetrievalEvalDataset.getitem,
      RetrievalEvalDataset._get_item_context,
      RetrievalEvalDataset._get_item_query.
    destruct (decide _) as [_|_]; split; intros Hi.
    + by rewrite list_getitem_out_of_range.
    + by rewrite list_getitem_negative.
    + by rewrite list_getitem_out_of_range.
    + by rewrite list_getitem_negative.
Qed.

Lemma getitem_index_bounds_witness :
  RetrievalDataset.len Demo.train_half = 5
  /\ RetrievalDataset.getitem 0 Demo.train_half 5 = Raise IndexError
  /\ RetrievalDataset.getitem 0 Demo.train_half (-6) = Raise IndexError
  /\ RetrievalDataset.getitem 0 Demo.train_half (-1)
     = RetrievalDataset.getitem 0 Demo.train_half 4
  /\ RetrievalEvalDataset.len (Demo.eval_dataset "context" false) = 2
  /\ RetrievalEvalDataset.getitem 0 (Demo.eval_dataset "context" false) 2
     = Raise IndexError
  /\ RetrievalEvalDataset.getitem 0 (Demo.eval_dataset "query" false) (-10)
     = RetrievalEvalDataset.getitem 0 (Demo.eval_dataset "query" false) 0.
Proof.
  destruct (getitem_index_bounds 0%R) as [Htrain Heval].
  split; [reflexivity|].
  split; [apply (proj1 (Htrain Demo.train_half 5%Z)); right; by vm_compute|].
  split; [apply (proj1 (Htrain Demo.train_half (-6)%Z)); left; by vm_compute|].
  split; [apply (proj2 (Htrain Demo.train_half (-1)%Z)); by vm_compute|].
  split; [reflexivity|].
  split.
  - apply (proj1 (Heval (Demo.eval_dataset "context" false) 2%Z)).
    right. by vm_compute.
  - apply (proj2 (Heval (Demo.eval_dataset "query" false) (-10)%Z)).
    by vm_compute.
Defined.

(** ** What the item getters put into an example *)

(** X2.  When the training item getter returns, the metadata holds exactly
    the four fields [desc_id], [desc], [vid_name] and [duration], each with
    the value of the record at that index, and nothing else: in particular
    no time span [ts], whatever the record holds.  The model inputs are
    exactly [query_feat], [video_feat] and [sub_feat], in this order, so
    there is no [st_ed_indices]. *)
Theorem train_getitem_example_fields (eps : R) (self : RetrievalDataset.t)
    (index : Z) (ex : example) :
  RetrievalDataset.getitem eps self index = Ok ex ->
  exists raw : record,
    list_getitem (RetrievalDataset.data self) index = Ok raw
    /\ (forall k : string,
          meta ex !! k
          = if bool_decide
                 (k ∈ ["desc_id"; "desc"; "vid_name"; "duration"]%string)
            then raw !! k else None)
    /\ (forall k : string,
          k ∈ ["desc_id"; "desc"; "vid_name"; "duration"]%string ->
          is_Some (raw !! k))
    /\ meta ex !! "ts" = None
    /\ ODict.keys (model_inputs ex)
       = ["query_feat"; "video_feat"; "sub_feat"]%string
    /\ ODict.lookup "st_ed_indices" (model_inputs ex) = None.
Proof.
  unfold RetrievalDataset.getitem. intros H. do 8 inv_bind H.
  injection H as <-. rename a into raw. exists raw. split; [done|].
  unfold dict_getitem in Ha0, Ha1, Ha2, Ha3.
  destruct (raw !! "desc_id") as [v0|] eqn:H0; [|done].
  destruct (raw !! "desc") as [v1|] eqn:H1; [|done].
  destruct (raw !! "vid_name") as [v2|] eqn:H2; [|done].
  destruct (raw !! "duration") as [v3|] eqn:H3; [|done].
  injection Ha0 as <-. injection Ha1 as <-.
  injection Ha2 as <-. injection Ha3 as <-. simpl.
  split; [|split; [|split; [done|split; done]]].
  - intros k. case_bool_decide as Hk.
    + rewrite !elem_of_cons, elem_of_nil in Hk.
      destruct Hk as [->|[->|[->|[->|[]]]]]; by simplify_map_eq.
    + rewrite !elem_of_cons, elem_of_nil in Hk.
      rewrite !lookup_insert_ne, lookup_empty; [done|..]; intros <-; tauto.
  - intros k Hk. rewrite !elem_of_cons, elem_of_nil in Hk.
    destruct Hk as [->|[->|[->|[->|[]]]]]; by eauto.
Qed.

Lemma train_getitem_example_fields_witness :
  RetrievalDataset.getitem 0 Demo.train_normalized 0
  = Ok (Demo.normalized_example 0)
  /\ meta (Demo.normalized_example 0) !! "vid_name" = Some (Str "v0")
  /\ meta (Demo.normalized_example 0) !! "ts" = None
  /\ ODict.keys (model_inputs (Demo.normalized_example 0))
     = ["query_feat"; "video_feat"; "sub_feat"]%string.
Proof.
  assert (H : RetrievalDataset.getitem 0 Demo.train_normalized 0
              = Ok (Demo.normalized_example 0))
    by (vm_compute; reflexivity).
  destruct (train_getitem_example_fields 0%R _ _ _ H)
    as (raw & Hraw & Hmeta & _ & Hts & Hkeys & _).
  split; [exact H|]. split; [|split; [exact Hts | exact Hkeys]].
  rewrite (Hmeta "vid_name"%string).
  vm_compute in Hraw. injection Hraw as <-. by vm_compute.
Defined.

(** X3.  The training item getter needs all four fields of the record: when
    the record at the index lacks [desc_id], [desc], [vid_name] or
    [duration], it raises [KeyError], also when no context modality is
    enabled and the video name would not be used. *)
Theorem train_getitem_missing_field (eps : R) (self : RetrievalDataset.t)
    (index : Z) (raw : record) (k : string) :
  list_getitem (RetrievalDataset.data self) index = Ok raw ->
  k ∈ ["desc_id"; "desc"; "vid_name"; "duration"]%string ->
  raw !! k = None ->
  RetrievalDataset.getitem eps self index = Raise KeyError.
Proof.
  intros Hraw Hk Hnone. unfold RetrievalDataset.getitem.
  rewrite Hraw. simpl. unfold dict_getitem.
  rewrite !elem_of_cons, elem_of_nil in Hk.
  destruct (raw !! "desc_id") eqn:H0; simpl;
    [|done].
  destruct (raw !! "desc") eqn:H1; simpl; [|done].
  destruct (raw !! "vid_name") eqn:H2; simpl; [|done].
  destruct (raw !! "duration") eqn:H3; simpl; [|done].
  destruct Hk as [->|[->|[->|[->|[]]]]]; congruence.
Qed.

Lemma train_getitem_missing_field_witness :
  list_getitem (RetrievalDataset.data Demo.train_unlabelled) 0
  = Ok Demo.unlabelled_record
  /\ Demo.unlabelled_record !! "vid_name" = None
  /\ RetrievalDataset.use_video Demo.train_unlabelled = false
  /\ RetrievalDataset.use_sub Demo.train_unlabelled = false
  /\ RetrievalDataset.getitem 0 Demo.train_unlabelled 0 = Raise KeyError.
Proof.
  assert (H : Demo.unlabelled_record !! "vid_name" = None)
    by (vm_compute; reflexivity).
  split; [reflexivity|]. split; [exact H|].
  split; [reflexivity|]. split; [reflexivity|].
  apply (train_getitem_missing_field 0%R Demo.train_unlabelled 0%Z
           Demo.unlabelled_record "vid_name" eq_refl); [|exact H].
  rewrite !elem_of_cons. tauto.
Defined.

(** X4.  When the item getter of the evaluation dataset returns: in mode
    ["context"] the metadata holds exactly the video name and the duration
    of the context entry at that index, and the model inputs are exactly
    [video_feat] and [sub_feat]; in any other mode the metadata holds
    exactly [desc_id] and [desc] of the query record and a [vid_name] that
    is [None] or, with the ground-truth switch on, the record's; there is
    no [duration], and the only model input is [query_feat]. *)
Theorem eval_getitem_example_fields (eps : R) (self : RetrievalEvalDataset.t)
    (index : Z) (ex : example) :
  RetrievalEvalDataset.getitem eps self index = Ok ex ->
  if decide (RetrievalEvalDataset.data_mode self = "context"%string) then
    exists entry : record,
      list_getitem (RetrievalEvalDataset.video_data self) index = Ok entry
      /\ (forall k : string,
            meta ex !! k
            = if bool_decide (k ∈ ["vid_name"; "duration"]%string)
              then entry !! k else None)
      /\ ODict.keys (model_inputs ex) = ["video_feat"; "sub_feat"]%string
  else
    exists raw : record,
      list_getitem (RetrievalEvalDataset.query_data self) index = Ok raw
      /\ meta ex !! "desc_id" = raw !! "desc_id"
      /\ meta ex !! "desc" = raw !! "desc"
      /\ meta ex !! "vid_name"
         = (if RetrievalEvalDataset.load_gt_video self
            then raw !! "vid_name" else Some None_)
      /\ (forall k : string,
            k ∉ ["desc_id"; "desc"; "vid_name"]%string -> meta ex !! k = None)
      /\ ODict.keys (model_inputs ex) = ["query_feat"]%string.
Proof.
  unfold RetrievalEvalDataset.getitem. destruct (decide _) as [_|_]; intros H.
  - unfold RetrievalEvalDataset._get_item_context in H. do 5 inv_bind H.
    injection H as <-. rename a into entry. exists entry. split; [done|].
    unfold dict_getitem in Ha0, Ha1.
    destruct (entry !! "vid_name") as [v0|] eqn:H0; [|done].
    destruct (entry !! "duration") as [v1|] eqn:H1; [|done].
    injection Ha0 as <-. injection Ha1 as <-. simpl. split; [|done].
    intros k. case_bool_decide as Hk; rewrite !elem_of_cons, elem_of_nil in Hk.
    + destruct Hk as [->|[->|[]]]; by simplify_map_eq.
    + rewrite !lookup_insert_ne, lookup_empty; [done|..]; intros <-; tauto.
  - unfold RetrievalEvalDataset._get_item_query in H. do 5 inv_bind H.
    injection H as <-. rename a into raw. exists raw. split; [done|].
    unfold dict_getitem in Ha0, Ha1.
    destruct (raw !! "desc_id") as [v0|] eqn:H0; [|done].
    destruct (raw !! "desc") as [v1|] eqn:H1; [|done].
    injection Ha0 as <-. injection Ha1 as <-. simpl.
    split; [by simplify_map_eq|]. split; [by simplify_map_eq|].
    split; [|split; [|done]].
    + rewrite lookup_insert_eq.
      destruct (RetrievalEvalDataset.load_gt_video self).
      * unfold dict_getitem in Ha2.
        destruct (raw !! "vid_name"); [|done]. by injection Ha2 as <-.
      * by injection Ha2 as <-.
    + intros k Hk. rewrite !elem_of_cons, elem_of_nil in Hk.
      rewrite !lookup_insert_ne, lookup_empty; [done|..]; intros <-; tauto.
Qed.

Lemma eval_getitem_example_fields_witness :
  RetrievalEvalDataset.getitem 0 (Demo.eval_dataset "query" true) 0
  = Ok (Demo.query_example (Str "v0"))
  /\ meta (Demo.query_example (Str "v0")) !! "duration" = None
  /\ ODict.keys (model_inputs (Demo.query_example (Str "v0")))
     = ["query_feat"]%string
  /\ RetrievalEvalDataset.getitem 0 (Demo.eval_dataset "context" true) 1
     = Ok Demo.context_example
  /\ ODict.keys (model_inputs Demo.context_example)
     = ["video_feat"; "sub_feat"]%string.
Proof.
  assert (H1 : RetrievalEvalDataset.getitem 0 (Demo.eval_dataset "query" true) 0
               = Ok (Demo.query_example (Str "v0")))
    by (vm_compute; reflexivity).
  assert (H2 : RetrievalEvalDataset.getitem 0
                 (Demo.eval_dataset "context" true) 1
               = Ok Demo.context_example)
    by (vm_compute; reflexivity).
  pose proof (eval_getitem_example_fields 0%R _ _ _ H1) as Hq.
  pose proof (eval_getitem_example_fields 0%R _ _ _ H2) as Hc.
  simpl in Hq, Hc.
  destruct Hq as (raw & _ & _ & _ & _ & Hnone & Hkeys).
  destruct Hc as (entry & _ & _ & Hkeys').
  split; [exact H1|]. split; [|split; [exact Hkeys|split; [exact H2|exact Hkeys']]].
  apply Hnone. rewrite !elem_of_cons, elem_of_nil.
  intros [?|[?|[?|[]]]]; discriminate.
Defined.

(** ** The ground-truth switch and the data mode *)

(** X5.  In query mode, for a record that has [desc_id] and [desc] but no
    [vid_name]: with the ground-truth switch on the item getter raises
    [KeyError]; with the switch off the video name is not read, and the
    getter returns exactly when the query feature can be fetched. *)
Theorem query_getter_without_vid_name (eps : R)
    (self : RetrievalEvalDataset.t) (index : Z) (raw : record)
    (desc_id desc : value) :
  RetrievalEvalDataset.data_mode self <> "context"%string ->
  list_getitem (RetrievalEvalDataset.query_data self) index = Ok raw ->
  raw !! "desc_id" = Some desc_id ->
  raw !! "desc" = Some desc ->
  raw !! "vid_name" = None ->
  (RetrievalEvalDataset.load_gt_video self = true ->
   RetrievalEvalDataset.getitem eps self index = Raise KeyError)
  /\ (RetrievalEvalDataset.load_gt_video self = false ->
      is_ok (RetrievalEvalDataset.getitem eps self index)
      = is_ok (RetrievalEvalDataset.get_query_feat_by_desc_id eps self
                 desc_id)).
Proof.
  intros Hmode Hraw Hid Hdesc Hvid.
  unfold RetrievalEvalDataset.getitem. rewrite decide_False by done.
  unfold RetrievalEvalDataset._get_item_query, dict_getitem.
  rewrite Hraw. simpl. rewrite Hid, Hdesc. simpl.
  split; intros ->; simpl.
  - by rewrite Hvid.
  - by destruct (RetrievalEvalDataset.get_query_feat_by_desc_id eps self
                   desc_id).
Qed.

Lemma query_getter_without_vid_name_witness :
  list_getitem (RetrievalEvalDataset.query_data (Demo.eval_unlabelled true)) 0
  = Ok Demo.unlabelled_record
  /\ Demo.unlabelled_record !! "vid_name" = None
  /\ RetrievalEvalDataset.getitem 0 (Demo.eval_unlabelled true) 0
     = Raise KeyError
  /\ is_ok (RetrievalEvalDataset.getitem 0 (Demo.eval_unlabelled false) 0)
     = true.
Proof.
  assert (Hid : Demo.unlabelled_record !! "desc_id" = Some (Int 0))
    by (vm_compute; reflexivity).
  assert (Hdesc : Demo.unlabelled_record !! "desc" = Some (Str "a query"))
    by (vm_compute; reflexivity).
  assert (Hvid : Demo.unlabelled_record !! "vid_name" = None)
    by (vm_compute; reflexivity).
  split; [reflexivity|]. split; [exact Hvid|]. split.
  - apply (query_getter_without_vid_name 0%R (Demo.eval_unlabelled true) 0%Z
             _ _ _ ltac:(discriminate) eq_refl Hid Hdesc Hvid).
    reflexivity.
  - rewrite (proj2 (query_getter_without_vid_name 0%R
                      (Demo.eval_unlabelled false) 0%Z
                      _ _ _ ltac:(discriminate) eq_refl Hid Hdesc Hvid)
               eq_refl).
    by vm_compute.
Defined.

(** X6.  [load_gt_vid_name_for_query] looks at the first query record only,
    and does so whatever flag it is given: on a dataset without query
    records it raises [IndexError]; when the first record has no [vid_name]
    it raises [AssertionError]; otherwise it returns, the switch is the
    given flag, and the data mode and the data are as before. *)
Theorem load_gt_vid_name_for_query_checks_first_record
    (self : RetrievalEvalDataset.t) (load_gt_video : bool) :
  match RetrievalEvalDataset.query_data self with
  | [] =>
      RetrievalEvalDataset.load_gt_vid_name_for_query self load_gt_video
      = Raise IndexError
  | first :: _ =>
      match first !! "vid_name" with
      | None =>
          RetrievalEvalDataset.load_gt_vid_name_for_query self load_gt_video
          = Raise AssertionError
      | Some _ =>
          exists self',
            RetrievalEvalDataset.load_gt_vid_name_for_query self load_gt_video
            = Ok self'
            /\ RetrievalEvalDataset.load_gt_video self' = load_gt_video
            /\ RetrievalEvalDataset.data_mode self'
               = RetrievalEvalDataset.data_mode self
            /\ same_data self self'
      end
  end.
Proof.
  unfold RetrievalEvalDataset.load_gt_vid_name_for_query.
  destruct (RetrievalEvalDataset.query_data self) as [|first others] eqn:Hq;
    [done|].
  change (list_getitem (first :: others) 0) with (Ok first). simpl Py.bind.
  unfold dict_contains, assert.
  destruct (first !! "vid_name") as [v|] eqn:Hv.
  - rewrite bool_decide_eq_true_2 by eauto. simpl.
    eexists. split; [reflexivity|]. unfold same_data. simpl.
    by rewrite Hq.
  - rewrite bool_decide_eq_false_2; [done|]. by intros [? ?].
Qed.

(** X7.  A data mode other than ["context"] and ["query"] is refused with
    [AssertionError]: by [set_data_mode] on every dataset, and by the
    constructor before it reads any file. *)
Theorem invalid_data_mode_rejected (data_mode : string) :
  data_mode <> "context"%string ->
  data_mode <> "query"%string ->
  (forall self : RetrievalEvalDataset.t,
     RetrievalEvalDataset.set_data_mode self data_mode = Raise AssertionError)
  /\ (forall w dset_name eval_split_name data_path desc max_desc_len
        max_ctx_len sub vid video_duration_idx_path ctx_mode data_ratio
        normalize_vfeat normalize_tfeat,
        RetrievalEvalDataset.init w dset_name eval_split_name data_path desc
          max_desc_len max_ctx_len sub vid video_duration_idx_path ctx_mode
          data_mode data_ratio normalize_vfeat normalize_tfeat
        = Raise AssertionError).
Proof.
  intros Hc Hq.
  assert (Hcheck : RetrievalEvalDataset.check_data_mode data_mode
                   = Raise AssertionError).
  { unfold RetrievalEvalDataset.check_data_mode, assert.
    rewrite bool_decide_eq_false_2; [done|].
    rewrite !elem_of_cons, elem_of_nil. tauto. }
  split; intros.
  - unfold RetrievalEvalDataset.set_data_mode. by rewrite Hcheck.
  - unfold RetrievalEvalDataset.init. by rewrite Hcheck.
Qed.

Lemma invalid_data_mode_rejected_witness :
  "video"%string <> "context"%string
  /\ "video"%string <> "query"%string
  /\ RetrievalEvalDataset.set_data_mode (Demo.eval_dataset "query" false)
       "video"
     = Raise AssertionError
  /\ Demo.eval "video_sub" "video" Demo.one = Raise AssertionError.
Proof.
  assert (H1 : "video"%string <> "context"%string) by discriminate.
  assert (H2 : "video"%string <> "query"%string) by discriminate.
  destruct (invalid_data_mode_rejected "video" H1 H2) as [Hset Hinit].
  split; [exact H1|]. split; [exact H2|]. split; [apply Hset|].
  unfold Demo.eval. apply Hinit.
Defined.

Lemma with_state_id (self : RetrievalEvalDataset.t) :
  with_state self (RetrievalEvalDataset.data_mode self)
    (RetrievalEvalDataset.load_gt_video self) = self.
Proof. by destruct self. Qed.

Lemma set_data_mode_with_state self m self' :
  RetrievalEvalDataset.set_data_mode self m = Ok self' ->
  self' = with_state self m (RetrievalEvalDataset.load_gt_video self).
Proof.
  unfold RetrievalEvalDataset.set_data_mode. intros H. inv_bind H.
  by injection H as <-.
Qed.

Lemma load_gt_with_state self b self' :
  RetrievalEvalDataset.load_gt_vid_name_for_query self b = Ok self' ->
  self' = with_state self (RetrievalEvalDataset.data_mode self) b.
Proof.
  unfold RetrievalEvalDataset.load_gt_vid_name_for_query. intros H.
  inv_bind H. inv_bind H. by injection H as <-.
Qed.

Lemma run_with_state self calls self' :
  RetrievalEvalDataset.run self calls = Ok self' ->
  self' = with_state self (RetrievalEvalDataset.data_mode self')
            (RetrievalEvalDataset.load_gt_video self').
Proof.
  unfold RetrievalEvalDataset.run. revert self.
  induction calls as [|c calls IH]; intros self; simpl.
  - intros [= <-]. by rewrite with_state_id.
  - intros H. inv_bind H. rewrite (IH _ H) at 1.
    destruct c; simpl in Ha.
    + by rewrite (set_data_mode_with_state _ _ _ Ha).
    + by rewrite (load_gt_with_state _ _ _ Ha).
Qed.

(** X8.  The two state-changing calls of the evaluation dataset compose as
    assignments: of two successive [set_data_mode] calls the last one wins,
    and so for two successive [load_gt_vid_name_for_query] calls; setting
    another mode and then the old one again gives the dataset back; and
    setting the mode and the switch in either order ends in the same
    dataset, whenever one of the two orders succeeds. *)
Theorem eval_state_calls_compose (self : RetrievalEvalDataset.t) :
  (forall (m m' : string) (mid : RetrievalEvalDataset.t),
     RetrievalEvalDataset.set_data_mode self m = Ok mid ->
     RetrievalEvalDataset.set_data_mode mid m'
     = RetrievalEvalDataset.set_data_mode self m')
  /\ (forall (b b' : bool) (mid : RetrievalEvalDataset.t),
        RetrievalEvalDataset.load_gt_vid_name_for_query self b = Ok mid ->
        RetrievalEvalDataset.load_gt_vid_name_for_query mid b'
        = RetrievalEvalDataset.load_gt_vid_name_for_query self b')
  /\ (forall (m : string) (mid : RetrievalEvalDataset.t),
        RetrievalEvalDataset.set_data_mode self m = Ok mid ->
        RetrievalEvalDataset.check_data_mode
          (RetrievalEvalDataset.data_mode self) = Ok tt ->
        RetrievalEvalDataset.set_data_mode mid
          (RetrievalEvalDataset.data_mode self) = Ok self)
  /\ (forall (m : string) (b : bool) (final : RetrievalEvalDataset.t),
        (let* mid := RetrievalEvalDataset.set_data_mode self m in
         RetrievalEvalDataset.load_gt_vid_name_for_query mid b) = Ok final
        <-> (let* mid :=
               RetrievalEvalDataset.load_gt_vid_name_for_query self b in
             RetrievalEvalDataset.set_data_mode mid m) = Ok final).
Proof.
  split; [|split; [|split]].
  - intros m m' mid Hmid. apply set_data_mode_with_state in Hmid as ->.
    unfold RetrievalEvalDataset.set_data_mode.
    by destruct (RetrievalEvalDataset.check_data_mode m').
  - intros b b' mid Hmid. apply load_gt_with_state in Hmid as ->.
    unfold RetrievalEvalDataset.load_gt_vid_name_for_query. simpl.
    destruct (list_getitem _ 0); simpl; [|done].
    by destruct (assert _).
  - intros m mid Hmid Hvalid. apply set_data_mode_with_state in Hmid as ->.
    unfold RetrievalEvalDataset.set_data_mode. rewrite Hvalid. simpl.
    f_equal. by destruct self.
  - intros m b final.
    unfold RetrievalEvalDataset.set_data_mode,
      RetrievalEvalDataset.load_gt_vid_name_for_query.
    destruct (RetrievalEvalDataset.check_data_mode m) as [[]|e]; simpl.
    + destruct (list_getitem _ 0) as [first|e]; simpl; [|done].
      destruct (assert _) as [[]|e]; simpl; [done|done].
    + destruct (list_getitem _ 0) as [first|e']; simpl;
        [|split; discriminate].
      destruct (assert _) as [[]|e']; simpl; split; discriminate.
Qed.

Lemma eval_state_calls_compose_witness :
  RetrievalEvalDataset.set_data_mode (Demo.eval_dataset "query" false)
    "context"
  = Ok (Demo.eval_dataset "context" false)
  /\ RetrievalEvalDataset.check_data_mode "query" = Ok tt
  /\ RetrievalEvalDataset.set_data_mode (Demo.eval_dataset "context" false)
       "query"
     = Ok (Demo.eval_dataset "query" false).
Proof.
  assert (H1 : RetrievalEvalDataset.set_data_mode
                 (Demo.eval_dataset "query" false) "context"
               = Ok (Demo.eval_dataset "context" false)) by reflexivity.
  assert (H2 : RetrievalEvalDataset.check_data_mode "query" = Ok tt)
    by reflexivity.
  destruct (eval_state_calls_compose (Demo.eval_dataset "query" false))
    as (_ & _ & Hback & _).
  split; [exact H1|]. split; [exact H2|]. exact (Hback _ _ H1 H2).
Defined.

(** X9.  No sequence of [set_data_mode] and [load_gt_vid_name_for_query]
    calls changes what the builders return: after the calls the context
    builder returns at every index what it returned before, and so does the
    query builder as soon as the ground-truth switch stands as before. *)
Theorem eval_items_stable_under_state_calls (eps : R)
    (self self' : RetrievalEvalDataset.t)
    (calls : list RetrievalEvalDataset.call) (index : Z) :
  RetrievalEvalDataset.run self calls = Ok self' ->
  RetrievalEvalDataset._get_item_context eps self' index
  = RetrievalEvalDataset._get_item_context eps self index
  /\ (RetrievalEvalDataset.load_gt_video self'
      = RetrievalEvalDataset.load_gt_video self ->
      RetrievalEvalDataset._get_item_query eps self' index
      = RetrievalEvalDataset._get_item_query eps self index)
  /\ (RetrievalEvalDataset.load_gt_video self'
      = RetrievalEvalDataset.load_gt_video self ->
      RetrievalEvalDataset.data_mode self'
      = RetrievalEvalDataset.data_mode self ->
      RetrievalEvalDataset.getitem eps self' index
      = RetrievalEvalDataset.getitem eps self index).
Proof.
  intros Hrun. apply run_with_state in Hrun.
  set (m := RetrievalEvalDataset.data_mode self') in *.
  set (g := RetrievalEvalDataset.load_gt_video self') in *.
  clearbody m g. subst self'. split; [done|]. split.
  - intros ->. done.
  - intros -> ->. by rewrite with_state_id.
Qed.

Lemma eval_items_stable_under_state_calls_witness :
  RetrievalEvalDataset.run (Demo.eval_dataset "context" false)
    [RetrievalEvalDataset.LoadGtVidNameForQuery true;
     RetrievalEvalDataset.SetDataMode "query"]
  = Ok (Demo.eval_dataset "query" true)
  /\ RetrievalEvalDataset._get_item_context 0
       (Demo.eval_dataset "query" true) 1
     = RetrievalEvalDataset._get_item_context 0
         (Demo.eval_dataset "context" false) 1.
Proof.
  assert (H : RetrievalEvalDataset.run (Demo.eval_dataset "context" false)
                [RetrievalEvalDataset.LoadGtVidNameForQuery true;
                 RetrievalEvalDataset.SetDataMode "query"]
              = Ok (Demo.eval_dataset "query" true))
    by (vm_compute; reflexivity).
  split; [exact H|].
  exact (proj1 (eval_items_stable_under_state_calls 0%R _ _ _ 1 H)).
Defined.

(** ** More on the data ratio *)

Lemma eval_init_ratio w dset_name eval_split_name data_path desc max_desc_len
    max_ctx_len sub vid video_duration_idx_path ctx_mode data_mode
    (data_ratio : float) normalize_vfeat normalize_tfeat self :
  RetrievalEvalDataset.init w dset_name eval_split_name data_path desc
    max_desc_len max_ctx_len sub vid video_duration_idx_path ctx_mode
    data_mode data_ratio normalize_vfeat normalize_tfeat = Ok self ->
  exists whole : RetrievalEvalDataset.t,
    RetrievalEvalDataset.init w dset_name eval_split_name data_path desc
      max_desc_len max_ctx_len sub vid video_duration_idx_path ctx_mode
      data_mode float_one normalize_vfeat normalize_tfeat = Ok whole
    /\ apply_data_ratio (RetrievalEvalDataset.query_data whole) data_ratio
       = Ok (RetrievalEvalDataset.query_data self)
    /\ self = with_queries whole data_ratio
                (RetrievalEvalDataset.query_data self).
Proof.
  unfold RetrievalEvalDataset.init.
  destruct (RetrievalEvalDataset.check_data_mode data_mode); simpl; [|done].
  destruct (load_jsonl w data_path) as [l|]; simpl; [|done].
  destruct (apply_data_ratio l data_ratio) as [queries|] eqn:Hq; simpl;
    [|done].
  destruct (open_store w desc); simpl; [|done].
  destruct (load_json w video_duration_idx_path); simpl; [|done].
  destruct (ODict.getitem _ eval_split_name); simpl; [|done].
  destruct (mapM RetrievalEvalDataset.video_entry _); simpl; [|done].
  destruct (mapM RetrievalEvalDataset.video_idx_entry _); simpl; [|done].
  destruct (str_in "video" ctx_mode), (str_in "sub" ctx_mode); simpl;
    repeat (destruct (open_store w _); simpl; try done);
    intros [= <-]; eexists; (split; [reflexivity|]); simpl; by split.
Qed.

(** X10.  In the evaluation dataset the data ratio touches the query
    records only: the dataset built with ratio [r] is the one built with
    ratio 1 except for its query records, which are cut by the ratio (for
    [0 < r < 1], to the first [int(len * r)] of them); the context entries
    are the same, so the context builder returns the same and the length in
    mode ["context"] is the same. *)
Theorem eval_data_ratio_cuts_queries_only (eps : R) w dset_name
    eval_split_name data_path desc max_desc_len max_ctx_len sub vid
    video_duration_idx_path ctx_mode data_mode (r : float) normalize_vfeat
    normalize_tfeat (self : RetrievalEvalDataset.t) :
  RetrievalEvalDataset.init w dset_name eval_split_name data_path desc
    max_desc_len max_ctx_len sub vid video_duration_idx_path ctx_mode
    data_mode r normalize_vfeat normalize_tfeat = Ok self ->
  exists whole : RetrievalEvalDataset.t,
    RetrievalEvalDataset.init w dset_name eval_split_name data_path desc
      max_desc_len max_ctx_len sub vid video_duration_idx_path ctx_mode
      data_mode float_one normalize_vfeat normalize_tfeat = Ok whole
    /\ apply_data_ratio (RetrievalEvalDataset.query_data whole) r
       = Ok (RetrievalEvalDataset.query_data self)
    /\ self = with_queries whole r (RetrievalEvalDataset.query_data self)
    /\ (SFltb (S754_zero false) r = true -> SFltb r float_one = true ->
        exists n : Z,
          n_examples (RetrievalEvalDataset.query_data whole) r = Ok n
          /\ (0 <= n)%Z
          /\ RetrievalEvalDataset.query_data self
             = take (Z.to_nat n) (RetrievalEvalDataset.query_data whole))
    /\ RetrievalEvalDataset.video_data self
       = RetrievalEvalDataset.video_data whole
    /\ (RetrievalEvalDataset.data_mode self = "context"%string ->
        RetrievalEvalDataset.len self = RetrievalEvalDataset.len whole)
    /\ forall index : Z,
         RetrievalEvalDataset._get_item_context eps self index
         = RetrievalEvalDataset._get_item_context eps whole index.
Proof.
  intros H. apply eval_init_ratio in H as (whole & Hwhole & Hq & Hself).
  exists whole. split; [done|]. split; [done|]. split; [done|].
  split; [|rewrite Hself; split; [done|split]].
  - intros H0 H1.
    destruct (apply_data_ratio_prefix _ _ r H0 H1 Hq) as (n & Hn & Hpos & Ht & _).
    eauto.
  - unfold RetrievalEvalDataset.len. simpl. intros ->. done.
  - done.
Qed.

Lemma eval_data_ratio_cuts_queries_only_witness :
  Demo.eval "video_sub" "query" Demo.half
  = Ok (with_queries (Demo.eval_dataset "query" false) Demo.half
          (take 5 Demo.records))
  /\ Demo.eval "video_sub" "query" Demo.one = Ok (Demo.eval_dataset "query" false)
  /\ RetrievalEvalDataset.video_data
       (with_queries (Demo.eval_dataset "query" false) Demo.half
          (take 5 Demo.records))
     = Demo.video_entries.
Proof.
  assert (H : Demo.eval "video_sub" "query" Demo.half
              = Ok (with_queries (Demo.eval_dataset "query" false) Demo.half
                      (take 5 Demo.records)))
    by (vm_compute; reflexivity).
  assert (H1 : Demo.eval "video_sub" "query" Demo.one
               = Ok (Demo.eval_dataset "query" false))
    by (vm_compute; reflexivity).
  split; [exact H|]. split; [exact H1|].
  pose proof H as H'. unfold Demo.eval, Demo.one in H', H1.
  destruct (eval_data_ratio_cuts_queries_only 0%R _ _ _ _ _ _ _ _ _ _ _ _ _
              _ _ _ H') as (whole & Hwhole & _ & _ & _ & Hvideo & _).
  rewrite Hwhole in H1. injection H1 as ->. exact Hvideo.
Defined.

Lemma list_slice_to_negative {A} (l : list A) (n : Z) :
  (n < 0)%Z -> list_slice_to l (Some n) = take (length l - Z.to_nat (- n)) l.
Proof.
  intros Hn. unfold list_slice_to, slice_stop.
  destruct (Z.ltb_spec n 0) as [_|]; [|lia]. f_equal. lia.
Qed.

(** X11.  How the training dataset cuts its records for a ratio other than
    1, inside (0,1) or not: it slices the list at [n = int(len * r)] as
    Python slices.  A ratio with the sign bit set (a negative one, or
    [-0.0]) gives [n <= 0], any other [n >= 0].  For [n] at or above the
    length all records are kept, for a negative [n] the last [-n] records
    are dropped (all of them when there are no more), and for [n = 0],
    which small ratios of either sign give, no record is kept. *)
Theorem data_ratio_outside_unit_interval w dset_name data_path desc sub vid
    max_desc_len max_ctx_len ctx_mode normalize_vfeat normalize_tfeat
    (r : float) (l : list record) (self : RetrievalDataset.t) :
  load_jsonl w data_path = Ok l ->
  RetrievalDataset.init w dset_name data_path desc sub vid max_desc_len
    max_ctx_len ctx_mode normalize_vfeat normalize_tfeat r = Ok self ->
  float_ne_one r = true ->
  exists n : Z,
    n_examples l r = Ok n
    /\ (has_sign true r -> (n <= 0)%Z)
    /\ (has_sign false r -> (0 <= n)%Z)
    /\ ((Z.of_nat (length l) <= n)%Z -> RetrievalDataset.data self = l)
    /\ ((n < 0)%Z ->
        RetrievalDataset.data self = take (length l - Z.to_nat (- n)) l)
    /\ (n = 0%Z -> RetrievalDataset.data self = []).
Proof.
  intros Hl Hinit Hne.
  apply train_init_Ok in Hinit as (l' & Hl' & Hdata & _).
  rewrite Hl in Hl'. injection Hl' as <-.
  apply apply_data_ratio_Ok in Hdata. rewrite Hne in Hdata.
  destruct Hdata as (n & Hn & ->). exists n. split; [done|].
  split; [intros Hs; by eapply n_examples_nonpos|].
  split; [intros Hs; by eapply n_examples_nonneg|].
  split; [|split].
  - intros Hlen. rewrite list_slice_to_nonneg by lia. apply take_ge. lia.
  - apply list_slice_to_negative.
  - intros ->. by rewrite list_slice_to_nonneg.
Qed.

Lemma data_ratio_outside_unit_interval_witness :
  load_jsonl Demo.the_world "queries.jsonl" = Ok Demo.records
  /\ Demo.train "video_sub" Demo.minus_half
     = Ok (Demo.train_with Demo.minus_half (take 5 Demo.records))
  /\ n_examples Demo.records Demo.minus_half = Ok (-5)%Z
  /\ RetrievalDataset.data
       (Demo.train_with Demo.minus_half (take 5 Demo.records))
     = take (length Demo.records - 5) Demo.records
  /\ Demo.train "video_sub" Demo.minus_twentieth
     = Ok (Demo.train_with Demo.minus_twentieth [])
  /\ n_examples Demo.records Demo.minus_twentieth = Ok 0%Z
  /\ RetrievalDataset.data (Demo.train_with Demo.minus_twentieth []) = [].
Proof.
  assert (H1 : load_jsonl Demo.the_world "queries.jsonl" = Ok Demo.records)
    by (vm_compute; reflexivity).
  assert (H2 : Demo.train "video_sub" Demo.minus_half
               = Ok (Demo.train_with Demo.minus_half (take 5 Demo.records)))
    by (vm_compute; reflexivity).
  assert (H3 : Demo.train "video_sub" Demo.minus_twentieth
               = Ok (Demo.train_with Demo.minus_twentieth []))
    by (vm_compute; reflexivity).
  assert (N2 : n_examples Demo.records Demo.minus_half = Ok (-5)%Z)
    by (vm_compute; reflexivity).
  assert (N3 : n_examples Demo.records Demo.minus_twentieth = Ok 0%Z)
    by (vm_compute; reflexivity).
  split; [exact H1|]. split; [exact H2|]. split; [exact N2|].
  unfold Demo.train in H2, H3. split.
  - destruct (data_ratio_outside_unit_interval _ _ _ _ _ _ _ _ _ _ _ _ _ _
                H1 H2 eq_refl) as (n & Hn & _ & _ & _ & Hneg & _).
    rewrite N2 in Hn. injection Hn as <-. apply Hneg. lia.
  - split; [exact H3|]. split; [exact N3|].
    destruct (data_ratio_outside_unit_interval _ _ _ _ _ _ _ _ _ _ _ _ _ _
                H1 H3 eq_refl) as (n & Hn & _ & _ & _ & _ & Hzero).
    rewrite N3 in Hn. injection Hn as <-. by apply Hzero.
Defined.

(** ** More on the query feature *)

(** The common body of the two [get_query_feat_by_desc_id], for any
    maximum. *)
Lemma query_feat_sliced (eps : R) (stored : ndarray R) (stop : option Z)
    (normalize : bool) (d : nat) (rest : list nat) :
  shape stored = d :: rest ->
  exists t : tensor R,
    (let* query_feat := slice_to stored stop in
     let* query_feat :=
       if normalize then l2_normalize_np_array eps query_feat
       else Ok query_feat in
     from_numpy query_feat) = Ok t
    /\ tshape t = slice_stop stop d :: rest
    /\ (normalize = false ->
        tdata t = take (slice_stop stop d * numel rest) (data stored)).
Proof.
  intros Hs. rewrite (slice_to_Ok stored stop d rest Hs). simpl Py.bind.
  set (sliced := NDArray (slice_stop stop d :: rest) _).
  destruct normalize.
  - destruct (last (shape sliced)) as [dl|] eqn:Hlast.
    + destruct (l2_normalize_Ok eps sliced dl Hlast) as (b & Hb & Hsb & _).
      rewrite Hb. simpl Py.bind.
      rewrite from_numpy_Ok by (rewrite Hsb; done).
      exists (Tensor b "cpu"). split; [done|]. split; [exact Hsb|done].
    + subst sliced. simpl in Hlast. rewrite last_cons in Hlast.
      by destruct (last rest).
  - simpl Py.bind. rewrite from_numpy_Ok by done.
    exists (Tensor sliced "cpu"). by repeat split.
Qed.

(** X12.  What [get_query_feat_by_desc_id] returns for a maximum
    description length that is not a non-negative number, in both datasets:
    with the maximum [None] (the default of the evaluation dataset) nothing
    is cut and the feature has the stored length; with a negative maximum
    [-m] the last [m] stored rows are dropped (all of them when there are
    fewer). *)
Theorem query_feat_for_other_maxima (eps : R) (desc_id : value)
    (key : string) (stored : ndarray R) (d : nat) (rest : list nat) :
  str desc_id = Ok key ->
  shape stored = d :: rest ->
  (forall self : RetrievalDataset.t,
     RetrievalDataset.desc_bert_h5 self !! key = Some stored ->
     exists t : tensor R,
       RetrievalDataset.get_query_feat_by_desc_id eps self desc_id = Ok t
       /\ (RetrievalDataset.max_desc_len self = None ->
           tshape t = d :: rest)
       /\ (forall m : Z,
             RetrievalDataset.max_desc_len self = Some (- m)%Z ->
             (0 < m)%Z -> tshape t = (d - Z.to_nat m) :: rest))
  /\ (forall self : RetrievalEvalDataset.t,
        RetrievalEvalDataset.desc_bert_h5 self !! key = Some stored ->
        exists t : tensor R,
          RetrievalEvalDataset.get_query_feat_by_desc_id eps self desc_id
          = Ok t
          /\ (RetrievalEvalDataset.max_desc_len self = None ->
              tshape t = d :: rest)
          /\ (forall m : Z,
                RetrievalEvalDataset.max_desc_len self = Some (- m)%Z ->
                (0 < m)%Z -> tshape t = (d - Z.to_nat m) :: rest)).
Proof.
  intros Hkey Hs.
  assert (Hneg : forall m : Z, (0 < m)%Z ->
            slice_stop (Some (- m)%Z) d = d - Z.to_nat m).
  { intros m Hm. unfold slice_stop.
    destruct (Z.ltb_spec (- m) 0) as [_|]; lia. }
  split; intros self Hstored.
  - unfold RetrievalDataset.get_query_feat_by_desc_id, dict_getitem.
    rewrite Hkey. simpl. rewrite Hstored. simpl.
    destruct (query_feat_sliced eps stored
                (RetrievalDataset.max_desc_len self)
                (RetrievalDataset.normalize_tfeat self) d rest Hs)
      as (t & Ht & Hshape & _).
    exists t. split; [exact Ht|]. rewrite Hshape. split.
    + by intros ->.
    + intros m -> Hm. by rewrite Hneg.
  - unfold RetrievalEvalDataset.get_query_feat_by_desc_id, dict_getitem.
    rewrite Hkey. simpl. rewrite Hstored. simpl.
    destruct (query_feat_sliced eps stored
                (RetrievalEvalDataset.max_desc_len self)
                (RetrievalEvalDataset.normalize_tfeat self) d rest Hs)
      as (t & Ht & Hshape & _).
    exists t. split; [exact Ht|]. rewrite Hshape. split.
    + by intros ->.
    + intros m -> Hm. by rewrite Hneg.
Qed.

Lemma query_feat_for_other_maxima_witness :
  str (Int 0) = Ok "0"%string
  /\ shape Demo.query_feat_array = [3; 2]
  /\ RetrievalEvalDataset.get_query_feat_by_desc_id 0
       (Demo.eval_with_max_desc_len None) (Int 0)
     = Ok (Tensor Demo.query_feat_array "cpu")
  /\ RetrievalEvalDataset.get_query_feat_by_desc_id 0
       (Demo.eval_with_max_desc_len (Some (-1)%Z)) (Int 0)
     = Ok (Tensor (NDArray [2; 2] [1; 2; 3; 4]%R) "cpu")
  /\ (exists t : tensor R,
        RetrievalEvalDataset.get_query_feat_by_desc_id 0
          (Demo.eval_with_max_desc_len (Some (-1)%Z)) (Int 0) = Ok t
        /\ tshape t = [3 - 1; 2]).
Proof.
  assert (H1 : str (Int 0) = Ok "0"%string) by (vm_compute; reflexivity).
  assert (H2 : shape Demo.query_feat_array = [3; 2]) by reflexivity.
  assert (H3 : Demo.desc_store !! "0" = Some Demo.query_feat_array)
    by (vm_compute; reflexivity).
  split; [exact H1|]. split; [exact H2|].
  split; [vm_compute; reflexivity|]. split; [vm_compute; reflexivity|].
  destruct (query_feat_for_other_maxima 0%R _ _ _ _ _ H1 H2) as [_ Heval].
  destruct (Heval (Demo.eval_with_max_desc_len (Some (-1)%Z)) H3)
    as (t & Ht & _ & Hneg).
  exists t. split; [exact Ht|]. apply (Hneg 1%Z); [reflexivity|lia].
Defined.

(** ** When the batch assembler returns, and in which order *)

Lemma collate_value_Ok_inv (first : example) (others : list example)
    (k : string) (v : Collate.batched) :
  collate_value (first :: others) k = Ok v ->
  exists t0 : tensor R,
    ODict.lookup k (model_inputs first) = Some t0
    /\ forall e : example, e ∈ first :: others ->
         exists t : tensor R,
           ODict.lookup k (model_inputs e) = Some t
           /\ (k <> "query_feat"%string -> same_layout t0 t = true).
Proof.
  unfold collate_value. intros H. apply bind_Ok in H as (ts & Hts & H).
  pose proof (mapM_Ok _ _ _ Hts) as Hall.
  inversion Hall as [|e0 t0 es ts' Ht0 Hrest]; subst.
  apply odict_getitem_Ok in Ht0. exists t0. split; [done|].
  intros e He. apply list_elem_of_lookup in He as [i Hi].
  destruct (Forall2_lookup_l _ _ _ _ _ Hall Hi) as (t & Hti & Het).
  exists t. split; [by apply odict_getitem_Ok|]. intros Hne.
  rewrite decide_False in H by done.
  apply bind_Ok in H as (s & Hs & _). unfold stack in Hs.
  destruct (forallb (same_layout t0) (t0 :: ts')) eqn:Hforall; [|done].
  rewrite forallb_forall in Hforall. apply Hforall.
  apply list_elem_of_In. by eapply list_elem_of_lookup_2.
Qed.

(** X13.  Which batches [retrieval_collate] assembles.  It returns only on
    a batch with a first example in which, for every key of the first
    example's model inputs that contains ["feat"], every example holds a
    tensor under that key and, for a key other than ["query_feat"], one of
    the shape and on the device of the first example's.  It returns on
    every such batch whose query features, in addition, have at least one
    axis and agree on the other axes.  On the empty batch it raises
    [IndexError]. *)
Theorem collate_returns_only_on_matching_batches (batch : list example) :
  ((exists (batch_meta : list record) (batched_data : ODict.t Collate.batched),
      Collate.retrieval_collate batch = Ok (batch_meta, batched_data)) ->
   stackable batch)
  /\ (collatable batch ->
      exists batched_data : ODict.t Collate.batched,
        Collate.retrieval_collate batch = Ok (map meta batch, batched_data))
  /\ (collatable batch -> stackable batch)
  /\ Collate.retrieval_collate [] = Raise IndexError.
Proof.
  split; [|split; [|split; [|done]]].
  - intros (batch_meta & batched_data & H).
    unfold Collate.retrieval_collate in H.
    apply bind_Ok in H as (first & Hfirst & H).
    apply bind_Ok in H as (out & Hfold & _).
    destruct (list_getitem_0 _ _ Hfirst) as [others ->].
    exists first, others. split; [done|]. intros k Hk Hfeat.
    pose proof (collate_fold _ _ _ _ k Hfold) as Hv.
    rewrite decide_True in Hv by done. destruct Hv as (v & Hv & _).
    by eapply collate_value_Ok_inv.
  - apply collate_returns.
  - intros (first & others & -> & H). exists first, others.
    split; [done|]. intros k Hk Hfeat.
    destruct (H k Hk Hfeat) as (t0 & Ht0 & Hall).
    exists t0. split; [done|]. intros e He.
    destruct (Hall e He) as (t & Ht & Hsame). exists t. split; [done|].
    intros Hne. by rewrite decide_False in Hsame.
Qed.

Lemma collate_fold_keys (batch : list example) (keys : list string)
    (acc out : ODict.t Collate.batched) :
  foldlM (Collate.collate_key batch) acc keys = Ok out ->
  NoDup (ODict.keys acc ++ keys) ->
  ODict.keys out
  = ODict.keys acc ++ filter (fun k => str_in "feat" k = true) keys.
Proof.
  revert acc. induction keys as [|k keys IH]; intros acc H Hnodup;
    cbn [foldlM] in H.
  - injection H as <-. by rewrite filter_nil, app_nil_r.
  - apply bind_Ok in H as (acc' & Hstep & H).
    rewrite collate_key_eq in Hstep.
    assert (Hk : k ∉ ODict.keys acc).
    { apply NoDup_app in Hnodup as (_ & Hdisj & _).
      intros Hin. apply (Hdisj k Hin). by left. }
    destruct (str_in "feat" k) eqn:Hfeat.
    + apply bind_Ok in Hstep as (v & _ & Hstep). injection Hstep as <-.
      rewrite (IH _ H).
      * rewrite odict_insert_keys, decide_False by done.
        rewrite filter_cons_True by done. by rewrite <- app_assoc.
      * rewrite odict_insert_keys, decide_False by done.
        by rewrite <- app_assoc.
    + injection Hstep as <-. rewrite (IH _ H).
      * rewrite filter_cons_False; [done|]. by rewrite Hfeat.
      * apply NoDup_app in Hnodup as (Hacc & Hdisj & Hkeys).
        apply NoDup_cons in Hkeys as [_ Hkeys].
        apply NoDup_app. split; [done|]. split; [|done].
        intros k' Hk' Hin. apply (Hdisj k' Hk'). by right.
Qed.

(** X14.  The batched mapping keeps the order of the first example: when
    [retrieval_collate] returns, the keys of the batched mapping are the
    keys of the first example's model inputs that contain ["feat"], in the
    order in which the first example holds them. *)
Theorem collate_keeps_key_order (first : example) (others : list example)
    (batch_meta : list record) (batched_data : ODict.t Collate.batched) :
  ODict.wf (model_inputs first) ->
  Collate.retrieval_collate (first :: others) = Ok (batch_meta, batched_data) ->
  ODict.keys batched_data
  = filter (fun k => str_in "feat" k = true) (ODict.keys (model_inputs first)).
Proof.
  intros Hwf H. unfold Collate.retrieval_collate in H.
  change (list_getitem (first :: others) 0) with (Ok first) in H.
  simpl Py.bind in H. apply bind_Ok in H as (out & Hfold & H).
  injection H as _ <-.
  by rewrite (collate_fold_keys _ _ _ _ Hfold).
Qed.

Lemma collate_keeps_key_order_witness :
  ODict.wf (model_inputs (Demo.batch_example 5 (NDArray [2; 2] [1; 2; 3; 4]%R)
                            (NDArray [2] [1; 0]%R)))
  /\ Collate.retrieval_collate Demo.batch
     = Ok (map meta Demo.batch, Demo.collated_data)
  /\ ODict.keys (V:=Collate.batched) Demo.collated_data
     = filter (fun k => str_in "feat" k = true)
         ["query_feat"; "video_feat"; "sub_feat"; "st_ed_indices"]%string.
Proof.
  assert (Hwf : ODict.wf (model_inputs
                  (Demo.batch_example 5 (NDArray [2; 2] [1; 2; 3; 4]%R)
                     (NDArray [2] [1; 0]%R)))).
  { unfold ODict.wf. simpl. apply NoDup_ListNoDup.
    repeat constructor; simpl; intros H;
      repeat (destruct H as [H|H]; [discriminate H|]); exact H. }
  assert (H : Collate.retrieval_collate Demo.batch
              = Ok (map meta Demo.batch, Demo.collated_data))
    by (vm_compute; reflexivity).
  split; [exact Hwf|]. split; [exact H|].
  exact (collate_keeps_key_order _ _ _ _ Hwf H).
Defined.

(** ** The video index of the evaluation dataset *)

Lemma eval_init_video_index w dset_name eval_split_name data_path desc
    max_desc_len max_ctx_len sub vid video_duration_idx_path ctx_mode
    data_mode data_ratio normalize_vfeat normalize_tfeat self :
  RetrievalEvalDataset.init w dset_name eval_split_name data_path desc
    max_desc_len max_ctx_len sub vid video_duration_idx_path ctx_mode
    data_mode data_ratio normalize_vfeat normalize_tfeat = Ok self ->
  exists index split,
    load_json w video_duration_idx_path = Ok index
    /\ ODict.lookup eval_split_name index = Some split
    /\ mapM RetrievalEvalDataset.video_entry split
       = Ok (RetrievalEvalDataset.video_data self)
    /\ mapM RetrievalEvalDataset.video_idx_entry split
       = Ok (RetrievalEvalDataset.video2idx self).
Proof.
  unfold RetrievalEvalDataset.init. intros H.
  do 10 inv_bind H. injection H as <-. simpl.
  unfold ODict.getitem in Ha4.
  destruct (ODict.lookup eval_split_name a3) eqn:Hsplit; [|done].
  injection Ha4 as <-. eauto 10.
Qed.

Lemma video_idx_entries_keys (split idxs : ODict.t value) :
  mapM RetrievalEvalDataset.video_idx_entry split = Ok idxs ->
  ODict.keys idxs = ODict.keys split.
Proof.
  unfold ODict.keys. revert idxs.
  induction split as [|[k v] split IH]; intros idxs H; simpl in H.
  - by injection H as <-.
  - apply bind_Ok in H as ([k' idx] & Hkv & H).
    apply bind_Ok in H as (idxs' & Hrest & H). injection H as <-.
    unfold RetrievalEvalDataset.video_idx_entry in Hkv. simpl in Hkv.
    apply bind_Ok in Hkv as (i' & _ & Hkv). injection Hkv as <- _.
    csimpl. by rewrite (IH _ Hrest).
Qed.

(** X15.  The constructor of the evaluation dataset builds its two views of
    the video index side by side: for the split's entries [name: value], in
    the order of the index file, entry [i] of [video_data] holds the name
    and [value[0]] as duration, and entry [i] of [video2idx] maps the same
    name to [value[1]].  So both have one entry per video of the split and
    list the videos in the same order. *)
Theorem eval_video_index_views_aligned w dset_name eval_split_name data_path
    desc max_desc_len max_ctx_len sub vid video_duration_idx_path ctx_mode
    data_mode data_ratio normalize_vfeat normalize_tfeat
    (self : RetrievalEvalDataset.t) :
  RetrievalEvalDataset.init w dset_name eval_split_name data_path desc
    max_desc_len max_ctx_len sub vid video_duration_idx_path ctx_mode
    data_mode data_ratio normalize_vfeat normalize_tfeat = Ok self ->
  exists (index : ODict.t (ODict.t value)) (split : ODict.t value),
    load_json w video_duration_idx_path = Ok index
    /\ ODict.lookup eval_split_name index = Some split
    /\ length (RetrievalEvalDataset.video_data self) = length split
    /\ ODict.keys (RetrievalEvalDataset.video2idx self) = ODict.keys split
    /\ forall (i : nat) (name : string) (v : value),
         split !! i = Some (name, v) ->
         exists (entry : record) (duration idx : value),
           RetrievalEvalDataset.video_data self !! i = Some entry
           /\ value_getitem v 0 = Ok duration
           /\ value_getitem v 1 = Ok idx
           /\ entry !! "vid_name" = Some (Str name)
           /\ entry !! "duration" = Some duration
           /\ RetrievalEvalDataset.video2idx self !! i = Some (name, idx).
Proof.
  intros Hinit.
  apply eval_init_video_index in Hinit
    as (index & split & Hindex & Hsplit & Hdata & Hidx).
  exists index, split. split; [done|]. split; [done|].
  split; [|split].
  - apply mapM_Ok in Hdata. symmetry. by eapply Forall2_length.
  - by apply video_idx_entries_keys.
  - intros i name v Hi.
    destruct (mapM_lookup _ _ _ _ _ Hdata Hi) as (entry & Hentry & He).
    destruct (mapM_lookup _ _ _ _ _ Hidx Hi) as (ie & Hie & Hi').
    unfold RetrievalEvalDataset.video_entry in He. simpl in He.
    apply bind_Ok in He as (duration & Hdur & He). injection He as <-.
    unfold RetrievalEvalDataset.video_idx_entry in Hi'. simpl in Hi'.
    apply bind_Ok in Hi' as (idx & Hidx' & Hi'). injection Hi' as <-.
    exists (<["duration" := duration]> (<["vid_name" := Str name]> ∅)),
      duration, idx.
    split; [done|]. split; [done|]. split; [done|].
    split; [by simplify_map_eq|]. split; [by simplify_map_eq|done].
Qed.

Lemma eval_video_index_views_aligned_witness :
  Demo.eval "video_sub" "query" Demo.one = Ok (Demo.eval_dataset "query" false)
  /\ ODict.keys (RetrievalEvalDataset.video2idx
                   (Demo.eval_dataset "query" false))
     = ["v0"; "v1"]%string
  /\ length (RetrievalEvalDataset.video_data
               (Demo.eval_dataset "query" false)) = 2.
Proof.
  assert (H : Demo.eval "video_sub" "query" Demo.one
              = Ok (Demo.eval_dataset "query" false))
    by (vm_compute; reflexivity).
  split; [exact H|]. unfold Demo.eval in H.
  destruct (eval_video_index_views_aligned _ _ _ _ _ _ _ _ _ _ _ _ _ _ _ _ H)
    as (index & split & Hindex & Hsplit & Hlen & Hkeys & _).
  vm_compute in Hindex. injection Hindex as <-.
  vm_compute in Hsplit. injection Hsplit as <-.
  split; [exact Hkeys | exact Hlen].
Defined.

(** ** Stores of a constructed dataset *)

Lemma bind_not_raise {A B} (e : error) (m : result A) (k : A -> result B) :
  m <> Raise e ->
  (forall a, m = Ok a -> k a <> Raise e) ->
  Py.bind m k <> Raise e.
Proof. destruct m as [a|e']; simpl; [by eauto | congruence]. Qed.

(** Closes a goal [f ... <> Raise AttributeError] for a built-in [f]. *)
Ltac builtin_no_attribute_error :=
  solve [ unfold h5_getitem;
          unfold list_getitem, dict_getitem, str, slice_to, mean0,
            l2_normalize_np_array, from_numpy;
          repeat case_match; congruence ].

Lemma query_feat_no_attribute_error (eps : R) (h5 : h5file)
    (max_desc_len : option Z) (normalize : bool) (desc_id : value) :
  (let* key := str desc_id in
   let* stored := dict_getitem h5 key in
   let* query_feat := slice_to stored max_desc_len in
   let* query_feat :=
     if normalize then l2_normalize_np_array eps query_feat
     else Ok query_feat in
   from_numpy query_feat) <> Raise AttributeError.
Proof.
  repeat (apply bind_not_raise; [try builtin_no_attribute_error|intros ? _]);
    try builtin_no_attribute_error.
  all: try (destruct normalize; [builtin_no_attribute_error | discriminate]).
Qed.

Lemma pooled_branch_no_attribute_error (eps : R) (use : bool)
    (store : option h5file) (vid_name : value) (max_ctx_len : option Z)
    (normalize : bool) :
  (use = true -> is_Some store) ->
  (if use then
     let* h5 := attr store in
     let* stored := h5_getitem h5 vid_name in
     let* ctx := slice_to stored max_ctx_len in
     let* feat := mean0 ctx in
     let* feat :=
       if normalize then l2_normalize_np_array eps feat else Ok feat in
     from_numpy feat
   else Ok (zeros 2)) <> Raise AttributeError.
Proof.
  intros Hstore. destruct use; [|discriminate].
  destruct (Hstore eq_refl) as [h5 ->]. simpl.
  repeat (apply bind_not_raise; [try builtin_no_attribute_error|intros ? _]);
    try builtin_no_attribute_error.
  all: try (destruct normalize; [builtin_no_attribute_error | discriminate]).
Qed.

Lemma train_getitem_no_attribute_error (eps : R) (self : RetrievalDataset.t)
    (index : Z) :
  (RetrievalDataset.use_video self = true ->
   is_Some (RetrievalDataset.vid_feat_h5 self)) ->
  (RetrievalDataset.use_sub self = true ->
   is_Some (RetrievalDataset.sub_bert_h5 self)) ->
  RetrievalDataset.getitem eps self index <> Raise AttributeError.
Proof.
  intros Hvid Hsub. unfold RetrievalDataset.getitem.
  do 5 (apply bind_not_raise; [builtin_no_attribute_error|intros ? _]).
  apply bind_not_raise; [apply query_feat_no_attribute_error|intros ? _].
  apply bind_not_raise;
    [by apply pooled_branch_no_attribute_error|intros ? _].
  apply bind_not_raise;
    [by apply pooled_branch_no_attribute_error|intros ? _].
  discriminate.
Qed.

Lemma eval_getitem_no_attribute_error (eps : R)
    (self : RetrievalEvalDataset.t) (index : Z) :
  (RetrievalEvalDataset.use_video self = true ->
   is_Some (RetrievalEvalDataset.vid_feat_h5 self)) ->
  (RetrievalEvalDataset.use_sub self = true ->
   is_Some (RetrievalEvalDataset.sub_bert_h5 self)) ->
  RetrievalEvalDataset.getitem eps self index <> Raise AttributeError.
Proof.
  intros Hvid Hsub. unfold RetrievalEvalDataset.getitem.
  destruct (decide _) as [_|_].
  - unfold RetrievalEvalDataset._get_item_context.
    do 3 (apply bind_not_raise; [builtin_no_attribute_error|intros ? _]).
    apply bind_not_raise;
      [by apply pooled_branch_no_attribute_error|intros ? _].
    apply bind_not_raise;
      [by apply pooled_branch_no_attribute_error|intros ? _].
    discriminate.
  - unfold RetrievalEvalDataset._get_item_query.
    do 3 (apply bind_not_raise; [builtin_no_attribute_error|intros ? _]).
    apply bind_not_raise;
      [destruct (RetrievalEvalDataset.load_gt_video self);
       [builtin_no_attribute_error|discriminate]|intros ? _].
    apply bind_not_raise; [apply query_feat_no_attribute_error|intros ? _].
    discriminate.
Qed.

Lemma train_init_stores w dset_name data_path desc sub vid max_desc_len
    max_ctx_len ctx_mode normalize_vfeat normalize_tfeat data_ratio self :
  RetrievalDataset.init w dset_name data_path desc sub vid max_desc_len
    max_ctx_len ctx_mode normalize_vfeat normalize_tfeat data_ratio = Ok self ->
  open_store w desc = Ok (RetrievalDataset.desc_bert_h5 self)
  /\ RetrievalDataset.vid_feat_h5 self
     = (if RetrievalDataset.use_video self
        then match open_store w vid with Ok h => Some h | Raise _ => None end
        else None)
  /\ RetrievalDataset.sub_bert_h5 self
     = (if RetrievalDataset.use_sub self
        then match open_store w sub with Ok h => Some h | Raise _ => None end
        else None)
  /\ (RetrievalDataset.use_video self = true ->
      is_Some (RetrievalDataset.vid_feat_h5 self))
  /\ (RetrievalDataset.use_sub self = true ->
      is_Some (RetrievalDataset.sub_bert_h5 self)).
Proof.
  unfold RetrievalDataset.init. intros H.
  apply bind_Ok in H as (l & _ & H).
  apply bind_Ok in H as (l' & _ & H).
  apply bind_Ok in H as (v & Hv & H).
  apply bind_Ok in H as (d & Hd & H).
  apply bind_Ok in H as (s & Hs & H). injection H as <-. simpl.
  split; [done|].
  destruct (str_in "video" ctx_mode), (str_in "sub" ctx_mode);
    repeat match goal with
      | H : Py.bind (open_store _ _) _ = Ok _ |- _ =>
          apply bind_Ok in H as (? & -> & H); injection H as <-
      | H : Ok None = Ok _ |- _ => injection H as <-
      end; repeat split; try done; by eauto.
Qed.

Lemma eval_init_stores w dset_name eval_split_name data_path desc max_desc_len
    max_ctx_len sub vid video_duration_idx_path ctx_mode data_mode data_ratio
    normalize_vfeat normalize_tfeat self :
  RetrievalEvalDataset.init w dset_name eval_split_name data_path desc
    max_desc_len max_ctx_len sub vid video_duration_idx_path ctx_mode
    data_mode data_ratio normalize_vfeat normalize_tfeat = Ok self ->
  (RetrievalEvalDataset.use_video self = true ->
   is_Some (RetrievalEvalDataset.vid_feat_h5 self))
  /\ (RetrievalEvalDataset.use_sub self = true ->
      is_Some (RetrievalEvalDataset.sub_bert_h5 self)).
Proof.
  unfold RetrievalEvalDataset.init. intros H.
  do 8 (apply bind_Ok in H as (? & _ & H)).
  apply bind_Ok in H as (v & Hv & H).
  apply bind_Ok in H as (s & Hs & H). injection H as <-. simpl.
  destruct (str_in "video" ctx_mode), (str_in "sub" ctx_mode);
    repeat match goal with
      | H : Py.bind (open_store _ _) _ = Ok _ |- _ =>
          apply bind_Ok in H as (? & _ & H); injection H as <-
      | H : Ok None = Ok _ |- _ => injection H as <-
      end; split; try done; by eauto.
Qed.

(** X16.  A dataset that its constructor has built holds the store of every
    modality its context mode enables, for the evaluation dataset also
    after any mode and switch calls; so its item getter, which reads
    [vid_feat_h5] and [sub_bert_h5] although the constructor sets them on
    some paths only, never raises [AttributeError]. *)
Theorem constructed_datasets_hold_their_stores (eps : R) :
  (forall w dset_name data_path desc sub vid max_desc_len max_ctx_len
     ctx_mode normalize_vfeat normalize_tfeat data_ratio
     (self : RetrievalDataset.t) (index : Z),
     RetrievalDataset.init w dset_name data_path desc sub vid max_desc_len
       max_ctx_len ctx_mode normalize_vfeat normalize_tfeat data_ratio
     = Ok self ->
     (RetrievalDataset.use_video self = true ->
      is_Some (RetrievalDataset.vid_feat_h5 self))
     /\ (RetrievalDataset.use_sub self = true ->
         is_Some (RetrievalDataset.sub_bert_h5 self))
     /\ RetrievalDataset.getitem eps self index <> Raise AttributeError)
  /\ (forall w dset_name eval_split_name data_path desc max_desc_len
        max_ctx_len sub vid video_duration_idx_path ctx_mode data_mode
        data_ratio normalize_vfeat normalize_tfeat
        (self self' : RetrievalEvalDataset.t)
        (calls : list RetrievalEvalDataset.call) (index : Z),
        RetrievalEvalDataset.init w dset_name eval_split_name data_path desc
          max_desc_len max_ctx_len sub vid video_duration_idx_path ctx_mode
          data_mode data_ratio normalize_vfeat normalize_tfeat = Ok self ->
        RetrievalEvalDataset.run self calls = Ok self' ->
        (RetrievalEvalDataset.use_video self' = true ->
         is_Some (RetrievalEvalDataset.vid_feat_h5 self'))
        /\ (RetrievalEvalDataset.use_sub self' = true ->
            is_Some (RetrievalEvalDataset.sub_bert_h5 self'))
        /\ RetrievalEvalDataset.getitem eps self' index
           <> Raise AttributeError).
Proof.
  split.
  - intros * Hinit.
    apply train_init_stores in Hinit as (_ & _ & _ & Hvid & Hsub).
    split; [done|]. split; [done|].
    by apply train_getitem_no_attribute_error.
  - intros * Hinit Hrun.
    apply eval_init_stores in Hinit as [Hvid Hsub].
    apply run_with_state in Hrun. rewrite Hrun. simpl.
    split; [done|]. split; [done|].
    by apply eval_getitem_no_attribute_error.
Qed.

Lemma constructed_datasets_hold_their_stores_witness :
  Demo.train "sub" Demo.one
  = Ok (RetrievalDataset.Build "tvr" "queries.jsonl" Demo.one (Some 2%Z)
          (Some 100%Z) (Path "desc.h5") (Path "sub.h5") (Path "vid.h5") "sub"
          Demo.records false true false None Demo.desc_store
          (Some Demo.sub_store) false false)
  /\ RetrievalDataset.getitem 0
       (RetrievalDataset.Build "tvr" "queries.jsonl" Demo.one (Some 2%Z)
          (Some 100%Z) (Path "desc.h5") (Path "sub.h5") (Path "vid.h5") "sub"
          Demo.records false true false None Demo.desc_store
          (Some Demo.sub_store) false false) 0
     <> Raise AttributeError.
Proof.
  assert (H : Demo.train "sub" Demo.one
              = Ok (RetrievalDataset.Build "tvr" "queries.jsonl" Demo.one (Some 2%Z)
                      (Some 100%Z) (Path "desc.h5") (Path "sub.h5")
                      (Path "vid.h5") "sub" Demo.records false true false
                      None Demo.desc_store (Some Demo.sub_store) false false))
    by (vm_compute; reflexivity).
  split; [exact H|]. unfold Demo.train in H.
  destruct (constructed_datasets_hold_their_stores 0%R) as [Htrain _].
  exact (proj2 (proj2 (Htrain _ _ _ _ _ _ _ _ _ _ _ _ _ 0%Z H))).
Defined.

(** ** From the training dataset to the device *)

Lemma query_feat_layout (eps : R) (h5 : h5file) (max_desc_len : option Z)
    (normalize : bool) (desc_id : value) (dims : list nat) (t : tensor R) :
  uniform_store dims h5 ->
  (let* key := str desc_id in
   let* stored := dict_getitem h5 key in
   let* query_feat := slice_to stored max_desc_len in
   let* query_feat :=
     if normalize then l2_normalize_np_array eps query_feat
     else Ok query_feat in
   from_numpy query_feat) = Ok t ->
  (exists rows : nat, tshape t = rows :: dims) /\ device t = "cpu"%string.
Proof.
  intros Hstore H.
  apply bind_Ok in H as (key & _ & H).
  apply bind_Ok in H as (stored & Hstored & H).
  apply bind_Ok in H as (sliced & Hsliced & H).
  apply bind_Ok in H as (feat & Hfeat & H).
  apply from_numpy_array in H as [Harr Hdev]. split; [|done].
  unfold dict_getitem in Hstored.
  destruct (h5 !! key) as [a|] eqn:Hkey; [|done]. injection Hstored as ->.
  specialize (Hstore _ _ Hkey).
  destruct (shape stored) as [|d rest] eqn:Hs;
    [unfold slice_to in Hsliced; by rewrite Hs in Hsliced|].
  rewrite (slice_to_Ok _ _ _ _ Hs) in Hsliced. injection Hsliced as <-.
  simpl in Hstore. subst rest. unfold tshape. rewrite Harr.
  destruct normalize.
  - apply l2_normalize_shape in Hfeat as [-> _]. simpl. eauto.
  - injection Hfeat as <-. simpl. eauto.
Qed.

Lemma pooled_branch_layout (eps : R) (use : bool) (store : option h5file)
    (vid_name : value) (max_ctx_len : option Z) (normalize : bool)
    (dims : list nat) (t : tensor R) :
  opt_uniform_store dims store ->
  (if use then
     let* h5 := attr store in
     let* stored := h5_getitem h5 vid_name in
     let* ctx := slice_to stored max_ctx_len in
     let* feat := mean0 ctx in
     let* feat :=
       if normalize then l2_normalize_np_array eps feat else Ok feat in
     from_numpy feat
   else Ok (zeros 2)) = Ok t ->
  tshape t = (if use then dims else [2]) /\ device t = "cpu"%string.
Proof.
  intros Hstore H. destruct use; [|by injection H as <-].
  pose proof H as H'.
  apply pooled_branch in H' as (h5 & name & stored & -> & _ & Hname & Hp).
  destruct Hp as (_ & _ & _ & _ & _ & _ & Hshape & _).
  rewrite Hshape, (Hstore _ _ Hname). split; [done|].
  do 5 (apply bind_Ok in H as (? & _ & H)).
  by apply from_numpy_array in H as [_ ?].
Qed.

Lemma train_getitem_layout (eps : R) (self : RetrievalDataset.t)
    (index : Z) (ex : example) (dq dv ds : list nat) :
  uniform_store dq (RetrievalDataset.desc_bert_h5 self) ->
  opt_uniform_store dv (RetrievalDataset.vid_feat_h5 self) ->
  opt_uniform_store ds (RetrievalDataset.sub_bert_h5 self) ->
  RetrievalDataset.getitem eps self index = Ok ex ->
  training_layout dq
    (if RetrievalDataset.use_video self then dv else [2])
    (if RetrievalDataset.use_sub self then ds else [2]) ex.
Proof.
  intros Hq Hv Hs H. unfold RetrievalDataset.getitem in H.
  do 5 (apply bind_Ok in H as (? & _ & H)).
  apply bind_Ok in H as (q & Hqf & H).
  apply bind_Ok in H as (v & Hvf & H).
  apply bind_Ok in H as (s & Hsf & H). injection H as <-.
  destruct (query_feat_layout _ _ _ _ _ _ _ Hq Hqf) as [Hqs Hqd].
  destruct (pooled_branch_layout _ _ _ _ _ _ _ _ Hv Hvf) as [Hvs Hvd].
  destruct (pooled_branch_layout _ _ _ _ _ _ _ _ Hs Hsf) as [Hss Hsd].
  exists q, v, s. by repeat split.
Qed.

Lemma layouts_collatable (dq sv ss : list nat) (batch : list example) :
  batch <> [] ->
  Forall (training_layout dq sv ss) batch ->
  collatable batch.
Proof.
  intros Hne Hall. destruct batch as [|first others]; [done|].
  exists first, others. split; [done|]. intros k Hk Hfeat.
  rewrite Forall_forall in Hall.
  destruct (Hall first) as (q0 & v0 & s0 & Hin0 & [r0 Hq0] & Hv0 & Hs0
                            & Hdq0 & Hdv0 & Hds0); [by left|].
  rewrite Hin0 in Hk |- *. simpl in Hk.
  rewrite !elem_of_cons, elem_of_nil in Hk.
  destruct Hk as [->|[->|[->|[]]]]; simpl.
  - exists q0. split; [done|]. intros e He.
    destruct (Hall e He) as (q & v & s & -> & [r Hq] & _ & _ & _ & _ & _).
    exists q. split; [done|]. simpl. unfold same_extra_dims.
    rewrite Hq, Hq0. simpl. by apply bool_decide_eq_true.
  - exists v0. split; [done|]. intros e He.
    destruct (Hall e He) as (q & v & s & -> & _ & Hv & _ & _ & Hdv & _).
    exists v. split; [done|]. simpl. unfold same_layout.
    rewrite Hv, Hv0, Hdv, Hdv0. by rewrite !bool_decide_eq_true_2.
  - exists s0. split; [done|]. intros e He.
    destruct (Hall e He) as (q & v & s & -> & _ & _ & Hs & _ & _ & Hds).
    exists s. split; [done|]. simpl. unfold same_layout.
    rewrite Hs, Hs0, Hds, Hds0. by rewrite !bool_decide_eq_true_2.
Qed.

(** X17.  From the training dataset to the device without an exception:
    when the arrays of each store agree on their axes after the first one,
    every non-empty batch of examples that the item getter has returned is
    assembled by [retrieval_collate], with the examples' metadata and the
    keys [query_feat], [video_feat] and [sub_feat], and, for a device
    argument that denotes a device of the machine, the assembled mapping is
    moved by [prepare_batch_inputs], whose result has exactly the keys
    [query_feat], [query_mask], [video_feat] and [sub_feat]. *)
Theorem training_batch_reaches_device (eps : R) (self : RetrievalDataset.t)
    (indices : list Z) (batch : list example) (dq dv ds : list nat)
    (mach : machine) (dev d : string) (non_blocking : bool) :
  mach dev = Ok d ->
  uniform_store dq (RetrievalDataset.desc_bert_h5 self) ->
  opt_uniform_store dv (RetrievalDataset.vid_feat_h5 self) ->
  opt_uniform_store ds (RetrievalDataset.sub_bert_h5 self) ->
  batch <> [] ->
  Forall2 (fun index ex => RetrievalDataset.getitem eps self index = Ok ex)
    indices batch ->
  exists (batched_data : ODict.t Collate.batched)
         (model_inputs : ODict.t Collate.object),
    Collate.retrieval_collate batch = Ok (map meta batch, batched_data)
    /\ ODict.keys batched_data
       = ["query_feat"; "video_feat"; "sub_feat"]%string
    /\ Collate.prepare_batch_inputs mach batched_data dev non_blocking
       = Ok model_inputs
    /\ forall k : string,
         is_Some (ODict.lookup k model_inputs)
         <-> k ∈ ["query_feat"; "query_mask"; "video_feat"; "sub_feat"]%string.
Proof.
  intros Hd Hq Hv Hs Hne Hitems.
  assert (Hall : Forall (training_layout dq
                   (if RetrievalDataset.use_video self then dv else [2])
                   (if RetrievalDataset.use_sub self then ds else [2])) batch).
  { clear Hne. induction Hitems as [|i ex is' exs Hi _ IH]; constructor.
    - by eapply train_getitem_layout.
    - exact IH. }
  pose proof (layouts_collatable _ _ _ _ Hne Hall) as Hbatch.
  destruct (collate_returns batch Hbatch) as [batched Hcollate].
  exists batched.
  assert (Hkeys : ODict.keys batched
                  = ["query_feat"; "video_feat"; "sub_feat"]%string).
  { destruct batch as [|first others]; [done|].
    apply Forall_cons in Hall as [(q & v & s & Hin & _) _].
    pose proof Hcollate as Hc. unfold Collate.retrieval_collate in Hc.
    change (list_getitem (first :: others) 0) with (Ok first) in Hc.
    simpl Py.bind in Hc. apply bind_Ok in Hc as (out & Hfold & Hc).
    injection Hc as <-. rewrite Hin in Hfold.
    rewrite (collate_fold_keys _ _ _ _ Hfold); [done|].
    simpl. apply NoDup_ListNoDup.
    repeat constructor; simpl; intros H;
      repeat (destruct H as [H|H]; [discriminate H|]); exact H. }
  pose proof (collate_output_is_batched_mapping _ _ _ Hcollate) as Hm.
  destruct (prepare_fold mach dev d non_blocking batched ODict.empty Hd Hm)
    as (out & Hout & Hlookup).
  exists out. split; [done|]. split; [done|]. split; [exact Hout|].
  intros k. rewrite Hlookup. unfold prepared_lookup.
  assert (Hin : forall k', is_Some (ODict.lookup k' batched)
                  <-> k' ∈ ["query_feat"; "video_feat"; "sub_feat"]%string)
    by (intros k'; by rewrite odict_lookup_is_Some, Hkeys).
  destruct Hm as [_ Hok]. rewrite Forall_forall in Hok.
  destruct (ODict.lookup k batched) as [v|] eqn:Hk.
  - assert (Hk' : k ∈ ["query_feat"; "video_feat"; "sub_feat"]%string)
      by (apply Hin; by rewrite Hk).
    split.
    + intros _. repeat rewrite elem_of_cons in Hk'. repeat rewrite elem_of_cons.
      tauto.
    + intros _. by destruct v.
  - assert (Hk' : k ∉ ["query_feat"; "video_feat"; "sub_feat"]%string).
    { intros Hk'. apply Hin in Hk'. rewrite Hk in Hk'. by destruct Hk'. }
    destruct (ODict.lookup "query_feat" batched) as [vq|] eqn:Hvq.
    2: { exfalso. assert (Hs' : is_Some (ODict.lookup "query_feat" batched))
           by (apply Hin; by left).
         rewrite Hvq in Hs'. by destruct Hs'. }
    apply odict_lookup_elem, Hok in Hvq as [_ Hkind]. simpl in Hkind.
    destruct vq as [p|t]; [|done].
    destruct (decide (k = "query_mask"%string)) as [->|Hmask].
    + split; [|by eauto]. intros _. rewrite !elem_of_cons. tauto.
    + simpl. split; [by intros [? ?]|].
      repeat rewrite elem_of_cons in Hk'. repeat rewrite elem_of_cons.
      tauto.
Qed.

Lemma training_batch_reaches_device_witness :
  uniform_store [2] Demo.desc_store
  /\ opt_uniform_store [2] (Some Demo.vid_store)
  /\ opt_uniform_store [3] (Some Demo.sub_store)
  /\ Forall2 (fun index ex =>
                RetrievalDataset.getitem 0 (Demo.train_with Demo.one Demo.records)
                  index = Ok ex)
       [0; 1]%Z Demo.training_batch
  /\ exists (batched_data : ODict.t Collate.batched)
            (model_inputs : ODict.t Collate.object),
       Collate.retrieval_collate Demo.training_batch
       = Ok (map meta Demo.training_batch, batched_data)
       /\ Collate.prepare_batch_inputs Demo.machine batched_data "cuda" false
          = Ok model_inputs
       /\ is_Some (ODict.lookup "query_mask" model_inputs).
Proof.
  assert (Hq : uniform_store [2] Demo.desc_store).
  { intros key a Ha. unfold Demo.desc_store in Ha.
    apply elem_of_list_to_map_2, list_elem_of_fmap in Ha as (i & Hi & _).
    by injection Hi as _ ->. }
  assert (Hv : opt_uniform_store [2] (Some Demo.vid_store)).
  { intros key a Ha. unfold Demo.vid_store in Ha.
    apply lookup_insert_Some in Ha as [[_ <-]|[_ Ha]]; [done|].
    apply lookup_insert_Some in Ha as [[_ <-]|[_ Ha]]; [done|].
    by rewrite lookup_empty in Ha. }
  assert (Hs : opt_uniform_store [3] (Some Demo.sub_store)).
  { intros key a Ha. unfold Demo.sub_store in Ha.
    apply lookup_insert_Some in Ha as [[_ <-]|[_ Ha]]; [done|].
    apply lookup_insert_Some in Ha as [[_ <-]|[_ Ha]]; [done|].
    by rewrite lookup_empty in Ha. }
  assert (Hitems : Forall2 (fun index ex =>
                      RetrievalDataset.getitem 0
                        (Demo.train_with Demo.one Demo.records) index = Ok ex)
                     [0; 1]%Z Demo.training_batch).
  { repeat constructor; vm_compute; reflexivity. }
  split; [exact Hq|]. split; [exact Hv|]. split; [exact Hs|].
  split; [exact Hitems|].
  destruct (training_batch_reaches_device 0%R
              (Demo.train_with Demo.one Demo.records) [0; 1]%Z Demo.training_batch
              [2] [2] [3] Demo.machine "cuda" "cuda:0" false
              eq_refl Hq Hv Hs ltac:(discriminate) Hitems)
    as (batched & out & Hcollate & _ & Hprepare & Hkeys).
  exists batched, out. split; [exact Hcollate|]. split; [exact Hprepare|].
  apply Hkeys. rewrite !elem_of_cons. tauto.
Defined.

(** ** Pooling *)

Lemma vadd_zero_l (u : list R) : vadd (replicate (length u) 0%R) u = u.
Proof.
  unfold vadd. induction u as [|x u IH]; simpl; [done|].
  by rewrite IH, Rplus_0_l.
Qed.

Lemma mean0_single_row (a : ndarray R) (rest : list nat) :
  shape a = 1 :: rest ->
  wf a ->
  mean0 a = Ok (NDArray rest (data a)).
Proof.
  intros Hs Hwf. unfold mean0. rewrite Hs. simpl.
  unfold wf in Hwf. rewrite Hs in Hwf. simpl in Hwf.
  rewrite Nat.add_0_r in Hwf.
  rewrite take_ge by lia. rewrite <- Hwf, vadd_zero_l.
  do 2 f_equal. rewrite <- (map_id (data a)) at 2.
  apply map_ext. intros x. unfold Rdiv. by rewrite Rinv_1, Rmult_1_r.
Qed.

(** X18.  Pooling a single row changes nothing: when the store of an
    enabled video modality holds a one-row array for the example's video,
    normalisation of the video feature is off and the maximum context
    length keeps at least one row, the video feature that the training item
    getter emits has exactly the values of that row. *)
Theorem single_row_is_pooled_unchanged (eps : R) (self : RetrievalDataset.t)
    (index : Z) (ex : example) (h5 : h5file) (name : string)
    (stored : ndarray R) (rest : list nat) :
  RetrievalDataset.getitem eps self index = Ok ex ->
  RetrievalDataset.use_video self = true ->
  RetrievalDataset.normalize_vfeat self = false ->
  (RetrievalDataset.max_ctx_len self = None
   \/ exists n : Z, RetrievalDataset.max_ctx_len self = Some n /\ (1 <= n)%Z) ->
  RetrievalDataset.vid_feat_h5 self = Some h5 ->
  meta ex !! "vid_name" = Some (Str name) ->
  h5 !! name = Some stored ->
  shape stored = 1 :: rest ->
  wf stored ->
  exists t : tensor R,
    ODict.lookup "video_feat" (model_inputs ex) = Some t
    /\ array t = NDArray rest (data stored).
Proof.
  intros Hget Huse Hnorm Hmax Hstore Hname Hstored Hs Hwf.
  destruct (train_getitem_features eps self index ex Hget) as [Hv _].
  unfold modality_feature in Hv. rewrite Huse, Hnorm in Hv.
  destruct Hv as (h5' & name' & stored' & t & Hstore' & Hname' & Hstored'
                  & Ht & Hpooled).
  rewrite Hstore in Hstore'. injection Hstore' as <-.
  rewrite Hname in Hname'. injection Hname' as <-.
  rewrite Hstored in Hstored'. injection Hstored' as <-.
  exists t. split; [done|].
  destruct Hpooled as (ctx & mean & Hctx & _ & Hmean & -> & _).
  assert (Hstop : slice_stop (RetrievalDataset.max_ctx_len self) 1 = 1).
  { destruct Hmax as [->|(n & -> & Hn)]; [done|].
    rewrite slice_stop_nonneg by lia. lia. }
  rewrite (slice_to_Ok _ _ _ _ Hs), Hstop in Hctx. injection Hctx as <-.
  unfold wf in Hwf. rewrite Hs in Hwf. simpl in Hwf.
  rewrite take_ge in Hmean by lia.
  rewrite (mean0_single_row _ rest) in Hmean; [by injection Hmean as <-|done|].
  unfold wf. cbn [data shape].
  change (numel (1 :: rest)) with (1 * numel rest). lia.
Qed.

Lemma single_row_is_pooled_unchanged_witness :
  RetrievalDataset.getitem 0 (Demo.train_with Demo.one Demo.records) 1
  = Ok (Example (Demo.query_record 1 "v1")
          [("query_feat"%string,
            Tensor (NDArray [2; 2] [1; 2; 3; 4]%R) "cpu");
           ("video_feat"%string,
            Tensor (NDArray [2] [((0 + 3) / INR 1)%R; ((0 + 4) / INR 1)%R])
              "cpu");
           ("sub_feat"%string,
            Tensor (NDArray [3] [((0 + 0 + 0) / INR 2)%R;
                                 ((0 + 1 + 0) / INR 2)%R;
                                 ((0 + 0 + 1) / INR 2)%R]) "cpu")])
  /\ Demo.vid_store !! "v1" = Some (NDArray [1; 2] [3; 4]%R)
  /\ NDArray [2] [((0 + 3) / INR 1)%R; ((0 + 4) / INR 1)%R]
     = NDArray [2] [3; 4]%R.
Proof.
  assert (H : RetrievalDataset.getitem 0 (Demo.train_with Demo.one Demo.records) 1
              = Ok (Example (Demo.query_record 1 "v1")
                      [("query_feat"%string,
                        Tensor (NDArray [2; 2] [1; 2; 3; 4]%R) "cpu");
                       ("video_feat"%string,
                        Tensor (NDArray [2] [((0 + 3) / INR 1)%R;
                                             ((0 + 4) / INR 1)%R]) "cpu");
                       ("sub_feat"%string,
                        Tensor (NDArray [3] [((0 + 0 + 0) / INR 2)%R;
                                             ((0 + 1 + 0) / INR 2)%R;
                                             ((0 + 0 + 1) / INR 2)%R])
                          "cpu")]))
    by (vm_compute; reflexivity).
  assert (Hstored : Demo.vid_store !! "v1" = Some (NDArray [1; 2] [3; 4]%R))
    by (vm_compute; reflexivity).
  split; [exact H|]. split; [exact Hstored|].
  assert (Hmax : RetrievalDataset.max_ctx_len (Demo.train_with Demo.one Demo.records)
                 = None
                 \/ exists n : Z,
                      RetrievalDataset.max_ctx_len
                        (Demo.train_with Demo.one Demo.records) = Some n
                      /\ (1 <= n)%Z)
    by (right; exists 100%Z; split; [reflexivity|lia]).
  assert (Hname : Demo.query_record 1 "v1" !! "vid_name" = Some (Str "v1"))
    by (vm_compute; reflexivity).
  destruct (single_row_is_pooled_unchanged 0%R _ _ _ Demo.vid_store "v1"
              (NDArray [1; 2] [3; 4]%R) [2] H eq_refl eq_refl Hmax
              eq_refl Hname Hstored eq_refl eq_refl)
    as (t & Ht & Harr).
  simpl in Ht. injection Ht as <-. exact Harr.
Defined.

(** ** The batch dimension *)

Lemma mapM_length {A B} (f : A -> result B) (l : list A) (l' : list B) :
  mapM f l = Ok l' -> length l' = length l.
Proof. intros H%mapM_Ok. symmetry. by eapply Forall2_length. Qed.

(** X19.  Everything that [retrieval_collate] returns has the size of the
    batch: the metadata list has one entry per example, every stacked
    tensor has the batch size as its first dimension, and so have the
    padded query tensor and its mask; the list of lengths has one entry per
    example. *)
Theorem collate_keeps_batch_size (batch : list example)
    (batch_meta : list record) (batched_data : ODict.t Collate.batched)
    (k : string) (v : Collate.batched) :
  Collate.retrieval_collate batch = Ok (batch_meta, batched_data) ->
  ODict.lookup k batched_data = Some v ->
  length batch_meta = length batch
  /\ match v with
     | Collate.BStacked s => Torch.len s = Ok (length batch)
     | Collate.BPadded p =>
         Torch.len (padded_seqs p) = Ok (length batch)
         /\ Torch.len (mask p) = Ok (length batch)
         /\ length (lengths p) = length batch
     end.
Proof.
  unfold Collate.retrieval_collate. intros H Hk.
  apply bind_Ok in H as (first & _ & H).
  apply bind_Ok in H as (out & Hfold & H). injection H as <- <-.
  split; [by rewrite length_map|].
  pose proof (collate_fold _ _ _ _ k Hfold) as Hv.
  destruct (decide _) as [_|_]; [|by rewrite Hk in Hv].
  destruct Hv as (v' & Hv' & Hk'). rewrite Hk in Hk'. injection Hk' as <-.
  unfold collate_value in Hv'. apply bind_Ok in Hv' as (ts & Hts & Hv').
  apply mapM_length in Hts.
  destruct (decide (k = "query_feat"%string)) as [->|Hne].
  - apply bind_Ok in Hv' as (p & Hp & Hv'). injection Hv' as <-.
    unfold pad_sequences_1d in Hp. destruct ts as [|t0 ts']; [done|].
    destruct (forallb _ _); [|done]. injection Hp as <-.
    unfold Torch.len, tshape. simpl. rewrite length_map. simpl in Hts.
    by rewrite Hts.
  - apply bind_Ok in Hv' as (s & Hs & Hv'). injection Hv' as <-.
    unfold stack in Hs. destruct ts as [|t0 ts']; [done|].
    destruct (forallb _ _); [|done]. injection Hs as <-.
    unfold Torch.len, tshape. simpl. simpl in Hts. by rewrite Hts.
Qed.

Lemma collate_keeps_batch_size_witness :
  Collate.retrieval_collate Demo.batch
  = Ok (map meta Demo.batch, Demo.collated_data)
  /\ ODict.lookup "query_feat" Demo.collated_data
     = Some (Collate.BPadded Demo.collated_query)
  /\ Torch.len (padded_seqs Demo.collated_query) = Ok 3
  /\ Torch.len (mask Demo.collated_query) = Ok 3
  /\ length (lengths Demo.collated_query) = 3.
Proof.
  assert (H : Collate.retrieval_collate Demo.batch
              = Ok (map meta Demo.batch, Demo.collated_data))
    by (vm_compute; reflexivity).
  split; [exact H|]. split; [reflexivity|].
  exact (proj2 (collate_keeps_batch_size _ _ _ "query_feat" _ H eq_refl)).
Defined.

(** ** The query feature of an item *)

(** X21.  The query feature of an item is what the public method
    [get_query_feat_by_desc_id] returns for the [desc_id] in the item's
    metadata, in the training item getter and in the query builder of the
    evaluation dataset; and the two classes compute the same query feature
    whenever they share the text store, the maximum description length and
    the text normalisation flag. *)
Theorem query_feat_of_item_is_method_result (eps : R) :
  (forall (self : RetrievalDataset.t) (index : Z) (ex : example),
     RetrievalDataset.getitem eps self index = Ok ex ->
     exists (desc_id : value) (q : tensor R),
       meta ex !! "desc_id" = Some desc_id
       /\ RetrievalDataset.get_query_feat_by_desc_id eps self desc_id = Ok q
       /\ ODict.lookup "query_feat" (model_inputs ex) = Some q)
  /\ (forall (self : RetrievalEvalDataset.t) (index : Z) (ex : example),
        RetrievalEvalDataset._get_item_query eps self index = Ok ex ->
        exists (desc_id : value) (q : tensor R),
          meta ex !! "desc_id" = Some desc_id
          /\ RetrievalEvalDataset.get_query_feat_by_desc_id eps self desc_id
             = Ok q
          /\ ODict.lookup "query_feat" (model_inputs ex) = Some q)
  /\ (forall (train : RetrievalDataset.t) (eval : RetrievalEvalDataset.t)
        (desc_id : value),
        RetrievalDataset.desc_bert_h5 train
        = RetrievalEvalDataset.desc_bert_h5 eval ->
        RetrievalDataset.max_desc_len train
        = RetrievalEvalDataset.max_desc_len eval ->
        RetrievalDataset.normalize_tfeat train
        = RetrievalEvalDataset.normalize_tfeat eval ->
        RetrievalDataset.get_query_feat_by_desc_id eps train desc_id
        = RetrievalEvalDataset.get_query_feat_by_desc_id eps eval desc_id).
Proof.
  split; [|split].
  - intros self index ex H. unfold RetrievalDataset.getitem in H.
    apply bind_Ok in H as (raw & _ & H).
    apply bind_Ok in H as (desc_id & _ & H).
    do 3 (apply bind_Ok in H as (? & _ & H)).
    apply bind_Ok in H as (q & Hq & H).
    do 2 (apply bind_Ok in H as (? & _ & H)). injection H as <-.
    exists desc_id, q. simpl. split; [by simplify_map_eq|]. by split.
  - intros self index ex H. unfold RetrievalEvalDataset._get_item_query in H.
    apply bind_Ok in H as (raw & _ & H).
    apply bind_Ok in H as (desc_id & _ & H).
    do 2 (apply bind_Ok in H as (? & _ & H)).
    apply bind_Ok in H as (q & Hq & H). injection H as <-.
    exists desc_id, q. simpl. split; [by simplify_map_eq|]. by split.
  - intros train eval desc_id Hstore Hmax Hnorm.
    unfold RetrievalDataset.get_query_feat_by_desc_id,
      RetrievalEvalDataset.get_query_feat_by_desc_id.
    by rewrite Hstore, Hmax, Hnorm.
Qed.

Lemma query_feat_of_item_is_method_result_witness :
  RetrievalEvalDataset._get_item_query 0 (Demo.eval_dataset "query" false) 0
  = Ok (Demo.query_example None_)
  /\ RetrievalEvalDataset.get_query_feat_by_desc_id 0
       (Demo.eval_dataset "query" false) (Int 0)
     = Ok (Tensor (NDArray [2; 2] [1; 2; 3; 4]%R) "cpu").
Proof.
  assert (H : RetrievalEvalDataset._get_item_query 0
                (Demo.eval_dataset "query" false) 0
              = Ok (Demo.query_example None_))
    by (vm_compute; reflexivity).
  split; [exact H|].
  destruct (query_feat_of_item_is_method_result 0%R) as (_ & Heval & _).
  destruct (Heval _ _ _ H) as (desc_id & q & Hid & Hq & Hlookup).
  vm_compute in Hid. injection Hid as <-.
  simpl in Hlookup. injection Hlookup as <-. exact Hq.
Defined.
